(** * Verification of the Hunyuan streaming client and the Tencent Cloud signer

    Shallow embedding of
    - [api/core/model_runtime/model_providers/hunyuan_inside/llm/llm.py]
      (SSE parser, streaming aggregator, message mapper, invoke), and
    - [api/core/tools/provider/builtin/tencent_cloud/_tencent_cloud_base.py]
      (TC3-HMAC-SHA256 authorization header).

    Python [str] values are kept as their UTF-8 byte strings ([string]);
    [bytes] values are byte strings as well.  Exceptions are values of
    [exn]; a generator is the list of what it yields together with the
    exception that ends it, if any. *)

From Stdlib Require Import ZArith Ascii String DecimalString Sorted.
From stdpp Require Import base option list strings gmap fin_maps.

Local Open Scope string_scope.
Local Open Scope list_scope.
Set Warnings "-register-all".

(** ** Exceptions and fallible computations *)

Inductive exn : Type :=
  | KeyError (key : string)
  | AttributeError
  | TypeError
  | ValueError
  | IndexError
  | UnicodeDecodeError
  | ValidationError
  | Exception (msg : string)
  | ExternalError (tag : string).

Inductive result (A : Type) : Type :=
  | Ok (a : A)
  | Err (e : exn).
Arguments Ok {A} a.
Arguments Err {A} e.

#[global] Instance result_ret : MRet result := fun A a => Ok a.
#[global] Instance result_bind : MBind result := fun A B f m =>
  match m with
  | Ok a => f a
  | Err e => Err e
  end.
#[global] Instance result_fmap : FMap result := fun A B f m =>
  match m with
  | Ok a => Ok (f a)
  | Err e => Err e
  end.

Definition default_or {A} (o : option A) (d : A) : A :=
  match o with Some a => a | None => d end.

Definition raise {A} (e : exn) : result A := Err e.

(** [for x in xs: ...] with a fallible body that collects one value per
    element; the first exception stops the loop. *)
Fixpoint mapR {A B} (f : A -> result B) (xs : list A) : result (list B) :=
  match xs with
  | [] => Ok []
  | x :: xs' => y ← f x; ys ← mapR f xs'; Ok (y :: ys)
  end.

(** ** Generators

    A [for] loop over an iterable that carries a loop state and may [yield]
    once per element.  [enumerate] supplies the running index.  The loop
    stops at the first exception: what was yielded before stays yielded. *)

Definition trace (O : Type) : Type := (list O * option exn)%type.

Section generators.
Context {S I O : Type}.
Variable body : nat -> S -> I -> result (S * option O).

Fixpoint gen_loop (index : nat) (s : S) (xs : list I) : trace O :=
  match xs with
  | [] => ([], None)
  | x :: xs' =>
      match body index s x with
      | Err e => ([], Some e)
      | Ok (s', None) => gen_loop (Datatypes.S index) s' xs'
      | Ok (s', Some o) =>
          let '(os, r) := gen_loop (Datatypes.S index) s' xs' in (o :: os, r)
      end
  end.

(** The loop state reached after the whole input, when no exception
    occurred. *)
Fixpoint gen_state (index : nat) (s : S) (xs : list I) : result S :=
  match xs with
  | [] => Ok s
  | x :: xs' => '(s', _) ← body index s x; gen_state (Datatypes.S index) s' xs'
  end.
End generators.

(** A generator fed by another generator: the consumer's exception wins
    when it stops first; otherwise the producer's exception surfaces after
    the consumer has handled everything the producer yielded. *)
Definition feed {O} (consumed : trace O) (producer_end : option exn) : trace O :=
  match consumed with
  | (os, Some e) => (os, Some e)
  | (os, None) => (os, producer_end)
  end.

(** ** Python string operations *)

Definition colon : ascii := ":"%char.

(** The one-character strings of a line feed and of a double quote. *)
Definition nl : string := String (ascii_of_nat 10) EmptyString.
Definition dquote : string := String (ascii_of_nat 34) EmptyString.

(** [s.find(":")], as an index when the character occurs. *)
Fixpoint str_find (c : ascii) (s : string) : option nat :=
  match s with
  | EmptyString => None
  | String a s' => if Ascii.eqb a c then Some 0 else Datatypes.S <$> str_find c s'
  end.

Fixpoint str_drop (n : nat) (s : string) : string :=
  match n, s with
  | 0, _ => s
  | Datatypes.S n', String _ s' => str_drop n' s'
  | Datatypes.S _, EmptyString => EmptyString
  end.

Fixpoint str_take (n : nat) (s : string) : string :=
  match n, s with
  | 0, _ => EmptyString
  | Datatypes.S n', String a s' => String a (str_take n' s')
  | Datatypes.S _, EmptyString => EmptyString
  end.

Definition str_endswith (s suffix : string) : bool :=
  let n := String.length s in
  let m := String.length suffix in
  Nat.leb m n && String.eqb (str_drop (n - m) s) suffix.

(** A UTF-8 continuation byte, [10xxxxxx]. *)
Definition is_continuation (a : ascii) : bool :=
  let n := nat_of_ascii a in Nat.leb 128 n && Nat.ltb n 192.

(** [s[:-1]]: the string without its last character.  On UTF-8 bytes the
    last character is the last lead byte with its continuation bytes. *)
Fixpoint drop_last_rev (r : list ascii) : list ascii :=
  match r with
  | [] => []
  | a :: r' => if is_continuation a then drop_last_rev r' else r'
  end.

Definition str_init (s : string) : string :=
  string_of_list_ascii (rev (drop_last_rev (rev (list_ascii_of_string s)))).

(** The first character of a non-empty string, with the rest. *)
Fixpoint span_continuation (s : string) : string * string :=
  match s with
  | EmptyString => (EmptyString, EmptyString)
  | String a s' =>
      if is_continuation a then
        let '(c, r) := span_continuation s' in (String a c, r)
      else (EmptyString, s)
  end.

Definition str_uncons (s : string) : option (string * string) :=
  match s with
  | EmptyString => None
  | String a s' => let '(c, r) := span_continuation s' in Some (String a c, r)
  end.

(** The characters of a string, as [for c in s] and [len(s)] see them: a
    character is a byte that is not a continuation byte, followed by its
    continuation bytes. *)
Fixpoint str_chars_acc (cur : option string) (s : string) : list string :=
  match s with
  | EmptyString => match cur with Some c => [c] | None => [] end
  | String a s' =>
      match cur with
      | None => str_chars_acc (Some (String a EmptyString)) s'
      | Some c =>
          if is_continuation a then str_chars_acc (Some (c +:+ String a EmptyString)) s'
          else c :: str_chars_acc (Some (String a EmptyString)) s'
      end
  end.

Definition str_chars (s : string) : list string := str_chars_acc None s.

(** [bytes.decode('utf-8')]: well-formed UTF-8 (Unicode table 3-7) decodes,
    anything else raises.  The decoded text is kept as the same bytes. *)
Definition in_range (lo hi : nat) (a : ascii) : bool :=
  let n := nat_of_ascii a in Nat.leb lo n && Nat.leb n hi.

Fixpoint utf8_wf (l : list ascii) : bool :=
  match l with
  | [] => true
  | a :: l1 =>
      if in_range 0 127 a then utf8_wf l1
      else if in_range 194 223 a then
        match l1 with
        | b :: l2 => in_range 128 191 b && utf8_wf l2
        | _ => false
        end
      else if in_range 224 239 a then
        match l1 with
        | b :: c :: l3 =>
            (if in_range 224 224 a then in_range 160 191 b
             else if in_range 237 237 a then in_range 128 159 b
             else in_range 128 191 b)
            && in_range 128 191 c && utf8_wf l3
        | _ => false
        end
      else if in_range 240 244 a then
        match l1 with
        | b :: c :: d :: l4 =>
            (if in_range 240 240 a then in_range 144 191 b
             else if in_range 244 244 a then in_range 128 143 b
             else in_range 128 191 b)
            && in_range 128 191 c && in_range 128 191 d && utf8_wf l4
        | _ => false
        end
      else false
  end.

Definition decode_utf8 (line : string) : result string :=
  if utf8_wf (list_ascii_of_string line) then Ok line else raise UnicodeDecodeError.

(** ** JSON values, as [json.loads] returns them and [json.dumps] takes them

    A dict is the list of its items in insertion order.  [JObject] stands
    for an instance of an application class placed in a list or a dict; it
    is never the result of decoding.  A float is held by its [repr]. *)

Inductive json : Type :=
  | JNull
  | JBool (b : bool)
  | JInt (z : Z)
  | JFloat (repr : string)
  | JStr (s : string)
  | JArr (items : list json)
  | JObj (items : list (string * json))
  | JObject (class_name : string).

(** Truth value of a decoded value: [None], [False], zero, and empty
    strings, lists and dicts are false. *)
Definition truthy (j : json) : bool :=
  match j with
  | JNull => false
  | JBool b => b
  | JInt z => negb (z =? 0)%Z
  | JFloat r => negb (String.eqb r "0.0" || String.eqb r "-0.0")
  | JStr s => negb (String.eqb s "")
  | JArr l => match l with [] => false | _ => true end
  | JObj l => match l with [] => false | _ => true end
  | JObject _ => true
  end.

Fixpoint assoc_get {V} (key : string) (items : list (string * V)) : option V :=
  match items with
  | [] => None
  | (k, v) :: items' => if String.eqb k key then Some v else assoc_get key items'
  end.

(** [d.get(key, default)]; only a dict has the method. *)
Definition py_get (d : json) (key : string) (default : json) : result json :=
  match d with
  | JObj items => Ok (default_or (assoc_get key items) default)
  | _ => raise AttributeError
  end.


(** [x[0]] *)
Definition py_index0 (x : json) : result json :=
  match x with
  | JArr (y :: _) => Ok y
  | JArr [] => raise IndexError
  | JStr s =>
      match str_uncons s with
      | Some (c, _) => Ok (JStr c)
      | None => raise IndexError
      end
  | JObj _ => raise (KeyError "0")
  | _ => raise TypeError
  end.

(** [for y in x] *)
Definition py_iter (x : json) : result (list json) :=
  match x with
  | JArr l => Ok l
  | JStr s => Ok (JStr <$> str_chars s)
  | JObj items => Ok ((fun kv => JStr kv.1) <$> items)
  | _ => raise TypeError
  end.

(** [len(x)] *)
Definition py_len (x : json) : result nat :=
  match x with
  | JArr l => Ok (List.length l)
  | JStr s => Ok (List.length (str_chars s))
  | JObj items => Ok (List.length items)
  | _ => raise TypeError
  end.

(** [x == text] for a text [text] *)
Definition py_eq_str (x : json) (text : string) : bool :=
  match x with
  | JStr s => String.eqb s text
  | _ => false
  end.

(** ** Entities of the application

    The entity classes are declared in [core.model_runtime.entities], which
    is not among the sources; the records below keep the fields that
    [llm.py] reads and writes. *)

(** Modelled from the spec: the classes of the parts of a multi-part
    content ([TextPromptMessageContent], [ImagePromptMessageContent] and
    the others) are missing; section 3 gives a part as a text or an image
    reference, and [llm.py] reads its [type] and [data]. *)
Inductive content_part : Type :=
  | TextPart (data : string)
  | ImagePart (data : string)
  | OtherPart (data : string).

(** Modelled from the spec: the declaration of the [content] field of
    [PromptMessage] is missing; section 3 gives it as a plain text or an
    ordered sequence of parts, and [llm.py] tests it against [None]. *)
Inductive content : Type :=
  | CNone
  | CStr (s : string)
  | CParts (parts : list content_part).

(** Modelled from the spec: the class
    [AssistantPromptMessage.ToolCall.ToolCallFunction] is missing;
    section 3 gives the function name and the function arguments of a
    fragment as strings. *)
Record ToolCallFunction : Type := {
  fn_name : string;
  fn_arguments : string;
}.

(** Modelled from the spec: the class [AssistantPromptMessage.ToolCall] is
    missing; section 3 gives a fragment an id, section 4.4 serializes a
    tool call as id, type and function.  What the id of a decoded value
    becomes is [id_field] below. *)
Record ToolCall : Type := {
  tc_id : string;
  tc_type : string;
  tc_function : ToolCallFunction;
}.

(** Modelled from the spec: the enumeration [PromptMessageRole] is
    missing; section 3 names the variants System, User, Assistant and Tool,
    and section 8 writes the value of the user role as [user]. *)
Inductive PromptMessageRole : Type := SYSTEM | USER | ASSISTANT | TOOL.

(** Modelled from the spec: [role.value], the lower-case name of the role
    (section 8, property 5). *)
Definition role_value (r : PromptMessageRole) : string :=
  match r with
  | SYSTEM => "system"
  | USER => "user"
  | ASSISTANT => "assistant"
  | TOOL => "tool"
  end.

(** Modelled from the spec: the class [AssistantPromptMessage] is missing;
    section 3 gives it a content and optional tool calls. *)
Record AssistantPromptMessage : Type := {
  am_role : PromptMessageRole;
  am_content : content;
  am_tool_calls : list ToolCall;
}.

(** Modelled from the spec: the classes [SystemPromptMessage],
    [UserPromptMessage] and [ToolPromptMessage] are missing; section 3
    gives the variants, and a tool message the id of the call it answers.
    A message of the base class is handled as a system message is (the
    last branch of the mapper). *)
Inductive PromptMessage : Type :=
  | Assistant (m : AssistantPromptMessage)
  | ToolPromptMessage (role : PromptMessageRole) (c : content) (tool_call_id : string)
  | UserPromptMessage (role : PromptMessageRole) (c : content)
  | SystemPromptMessage (role : PromptMessageRole) (c : content).

(** Modelled from the spec: the class [PromptMessageTool] is missing;
    section 4.4 gives a tool a name, a description and parameters. *)
Record PromptMessageTool : Type := {
  tool_name : string;
  tool_description : string;
  tool_parameters : json;
}.

(** ** What the module imports

    [json], [int] and [requests] belong to the Python runtime; field
    validation of the entity classes and the usage calculator of the base
    class belong to other packages of the application.  [llm.py] only
    calls them: they are the fields of [Platform], with what the declared
    field types guarantee (a text passes a field declared [str] as it is;
    a list or a dict does not pass it). *)

(** A [requests.Response], by what [llm.py] reads of it. *)
Record response : Type := {
  status_code : Z;
  text : string;
  iter_lines : list string;
}.

Class Platform : Type := {
  (** [json.loads] *)
  json_loads : string -> result json;
  (** [json.dumps(obj, ensure_ascii=...)] *)
  json_dumps : bool -> json -> result string;
  (** [int(text)] *)
  py_int : string -> result Z;
  (** [requests.post(url, headers=..., data=...)] *)
  requests_post : string -> list (string * string) -> string -> result response;
  (** What a field declared [str] holds after validation; [None] when
      validation refuses the value. *)
  str_field : json -> option string;
  str_field_str : forall s, str_field (JStr s) = Some s;
  str_field_list : forall l, str_field (JArr l) = None;
  str_field_dict : forall l, str_field (JObj l) = None;
  (** The same for the [id] field of a tool call. *)
  id_field : json -> option string;
  id_field_str : forall s, id_field (JStr s) = Some s;
  (** The same for the [content] field of a prompt message. *)
  content_field : json -> option content;
  content_field_str : forall s, content_field (JStr s) = Some (CStr s);
  (** [LLMUsage] and [LargeLanguageModel._calc_response_usage] *)
  LLMUsage : Type;
  _calc_response_usage :
    string -> gmap string string -> json -> json -> result LLMUsage;
}.

Definition validated {A} (o : option A) : result A :=
  match o with
  | Some a => Ok a
  | None => raise ValidationError
  end.

(** Modelled from the spec: the classes [LLMResultChunkDelta],
    [LLMResultChunk] and [LLMResult] are missing; section 3 gives a result
    chunk an index, a role, a message content, tool calls, an optional
    finish reason and an optional usage.  The records take the type of the
    usage as a parameter and keep what [llm.py] passes to the
    constructors. *)
Record LLMResultChunkDelta (U : Type) : Type := {
  index : nat;
  role : option json;
  message : AssistantPromptMessage;
  usage : option U;
  finish_reason : option string;
}.
Arguments index {U} _.
Arguments role {U} _.
Arguments message {U} _.
Arguments usage {U} _.
Arguments finish_reason {U} _.

(** Modelled from the spec: see [LLMResultChunkDelta]. *)
Record LLMResultChunk (U : Type) : Type := {
  model : string;
  prompt_messages : list PromptMessage;
  delta : LLMResultChunkDelta U;
}.
Arguments model {U} _.
Arguments prompt_messages {U} _.
Arguments delta {U} _.

(** ** The SSE parser: [HunyuanLargeLanguageModel._process_response_sse] *)

(** A value held by the event dict [e]: a text, or the integer of [retry]. *)
Inductive sse_value : Type :=
  | SStr (s : string)
  | SInt (z : Z).

Abbreviation event := (gmap string sse_value).

(** [key = line[:colon_idx]] and [val = line[colon_idx + 1:]].  When the
    line has no colon, [find] gives [-1]: the slices are [line[:-1]] and
    [line[0:]]. *)
Definition split_field (line : string) : string * string :=
  match str_find colon line with
  | Some colon_idx => (str_take colon_idx line, str_drop (Datatypes.S colon_idx) line)
  | None => (str_init line, line)
  end.

Section sse.
Context `{Platform}.

(** One iteration of [for line in resp.iter_lines()]: the accumulator [e]
    after the line, and the event the iteration yields, if any. *)
Definition sse_line (_ : nat) (e : event) (line : string)
  : result (event * option event) :=
  if String.eqb line "" then Ok (∅, Some e)
  else
    line ← decode_utf8 line;
    if String.prefix ":" line then Ok (e, None)
    else
      let '(key, val) := split_field line in
      if String.eqb key "data" then
        match e !! "data" with
        | None => Ok (<["data" := SStr val]> e, None)
        | Some (SStr d) => Ok (<["data" := SStr (d +:+ nl +:+ val)]> e, None)
        | Some (SInt _) => raise TypeError
        end
      else if String.eqb key "event" || String.eqb key "id" then
        Ok (<[key := SStr val]> e, None)
      else if String.eqb key "retry" then
        n ← py_int val; Ok (<[key := SInt n]> e, None)
      else Ok (e, None).

Definition _process_response_sse (resp : response) : trace event :=
  gen_loop sse_line 0 ∅ (iter_lines resp).

End sse.

(** ** The streaming aggregator:
    [HunyuanLargeLanguageModel._handle_stream_chat_response] *)

Section aggregator.
Context `{Platform}.

(** [AssistantPromptMessage.ToolCall.ToolCallFunction(name=..., arguments=...)] *)
Definition new_ToolCallFunction (name arguments : json) : result ToolCallFunction :=
  name ← validated (str_field name);
  arguments ← validated (str_field arguments);
  Ok {| fn_name := name; fn_arguments := arguments |}.

(** [AssistantPromptMessage.ToolCall(id=..., type=..., function=...)] *)
Definition new_ToolCall (id : json) (type : string) (function : ToolCallFunction)
  : result ToolCall :=
  id ← validated (id_field id);
  Ok {| tc_id := id; tc_type := type; tc_function := function |}.

(** [AssistantPromptMessage(content=..., tool_calls=[])] *)
Definition new_AssistantPromptMessage (c : json) : result AssistantPromptMessage :=
  c ← validated (content_field c);
  Ok {| am_role := ASSISTANT; am_content := c; am_tool_calls := [] |}.

Definition _extract_response_tool_call (response_tool_call : json) : result ToolCall :=
  response_function ← py_get response_tool_call "function" (JObj []);
  name ← py_get response_function "name" (JStr "");
  arguments ← py_get response_function "arguments" (JStr "");
  function ← new_ToolCallFunction name arguments;
  id ← py_get response_tool_call "id" (JInt 0);
  new_ToolCall id "function" function.

Definition _extract_response_tool_calls (response_tool_calls : json)
  : result (list ToolCall) :=
  if truthy response_tool_calls then
    items ← py_iter response_tool_calls;
    mapR _extract_response_tool_call items
  else Ok [].

(** The loop state: the open [tool_call] and the completed [tool_calls].
    The loop rebinds both names and never changes a call or a list after
    it has handed it on (to [tool_calls], to a chunk), so values suffice. *)
Record agg_state : Type := {
  tool_call : option ToolCall;
  tool_calls : list ToolCall;
}.

Definition agg_init : agg_state := {| tool_call := None; tool_calls := [] |}.

(** [tool_call.function.name += ...; tool_call.function.arguments += ...] *)
Definition tool_call_extend (tc new_tool_call : ToolCall) : ToolCall :=
  {| tc_id := tc_id tc;
     tc_type := tc_type tc;
     tc_function :=
       {| fn_name := fn_name (tc_function tc) +:+ fn_name (tc_function new_tool_call);
          fn_arguments :=
            fn_arguments (tc_function tc) +:+ fn_arguments (tc_function new_tool_call) |} |}.

(** Lines 220-229: the first new fragment opens, closes-and-opens, or
    extends the open tool call. *)
Definition merge_fragment (st : agg_state) (new_tool_calls : list ToolCall) : agg_state :=
  match new_tool_calls with
  | [] => st
  | new_tool_call :: _ =>
      match tool_call st with
      | None => {| tool_call := Some new_tool_call; tool_calls := tool_calls st |}
      | Some tc =>
          if negb (String.eqb (tc_id tc) (tc_id new_tool_call)) then
            {| tool_call := Some new_tool_call; tool_calls := tool_calls st ++ [tc] |}
          else
            {| tool_call := Some (tool_call_extend tc new_tool_call);
               tool_calls := tool_calls st |}
      end
  end.

(** Lines 230-232: an open tool call with a name and arguments moves to
    the completed list. *)
Definition complete_tool_call (st : agg_state) : agg_state :=
  match tool_call st with
  | Some tc =>
      if Nat.ltb 0 (String.length (fn_name (tc_function tc)))
         && Nat.ltb 0 (String.length (fn_arguments (tc_function tc)))
      then {| tool_call := None; tool_calls := tool_calls st ++ [tc] |}
      else st
  | None => st
  end.

(** Lines 217-232. *)
Definition merge_tool_calls (st : agg_state) (response_tool_calls : json)
  : result agg_state :=
  match response_tool_calls with
  | JNull => Ok st
  | _ =>
      new_tool_calls ← _extract_response_tool_calls response_tool_calls;
      Ok (complete_tool_call (merge_fragment st new_tool_calls))
  end.

(** [event["data"]] followed by the [endswith] test, which only a text has. *)
Definition event_data (ev : event) : result string :=
  match ev !! "data" with
  | None => raise (KeyError "data")
  | Some (SStr data_str) => Ok data_str
  | Some (SInt _) => raise AttributeError
  end.

(** What lines 200-217 read from an event. *)
Record decoded : Type := {
  d_delta : json;
  d_message_content : json;
  d_finish_reason : json;
  d_prompt_tokens : json;
  d_completion_tokens : json;
  d_response_tool_calls : json;
}.

(** Lines 200-217; [None] when the iteration ends with [continue]. *)
Definition decode_event (ev : event) : result (option decoded) :=
  data_str ← event_data ev;
  if str_endswith data_str "[DONE]" then Ok None
  else
    data ← json_loads data_str;
    choices ← py_get data "choices" (JArr []);
    if negb (truthy choices) then Ok None
    else
      choice ← py_index0 choices;
      delta_ ← py_get choice "delta" (JObj []);
      message_content ← py_get delta_ "content" (JStr "");
      finish_reason_ ← py_get choice "finish_reason" (JStr "");
      usage_ ← py_get data "usage" (JObj []);
      prompt_tokens ← py_get usage_ "prompt_tokens" (JInt 0);
      completion_tokens ← py_get usage_ "completion_tokens" (JInt 0);
      response_tool_calls ← py_get delta_ "tool_calls" JNull;
      Ok (Some {| d_delta := delta_;
                  d_message_content := message_content;
                  d_finish_reason := finish_reason_;
                  d_prompt_tokens := prompt_tokens;
                  d_completion_tokens := completion_tokens;
                  d_response_tool_calls := response_tool_calls |}).

Definition with_content (m : AssistantPromptMessage) (c : content)
  : AssistantPromptMessage :=
  {| am_role := am_role m; am_content := c; am_tool_calls := am_tool_calls m |}.

Definition with_tool_calls (m : AssistantPromptMessage) (tcs : list ToolCall)
  : AssistantPromptMessage :=
  {| am_role := am_role m; am_content := am_content m; am_tool_calls := tcs |}.

(** Lines 217-268: the state after the event and the chunk it yields. *)
Definition emit_chunk (model_ : string) (credentials : gmap string string)
    (prompt_messages_ : list PromptMessage)
    (index_ : nat) (st : agg_state) (d : decoded)
  : result (agg_state * LLMResultChunk LLMUsage) :=
  st ← merge_tool_calls st (d_response_tool_calls d);
  assistant_prompt_message ← new_AssistantPromptMessage (d_message_content d);
  let assistant_prompt_message :=
    if Nat.ltb 0 (List.length (tool_calls st))
    then with_content assistant_prompt_message (CStr "")
    else assistant_prompt_message in
  let '(assistant_prompt_message, st) :=
    if py_eq_str (d_finish_reason d) "tool_calls"
    then (with_tool_calls assistant_prompt_message (tool_calls st), agg_init)
    else (assistant_prompt_message, st) in
  n ← py_len (d_finish_reason d);
  if Nat.ltb 0 n then
    usage_ ← _calc_response_usage model_ credentials
               (d_prompt_tokens d) (d_completion_tokens d);
    role_ ← py_get (d_delta d) "role" (JStr "assistant");
    finish_reason_ ← validated (str_field (d_finish_reason d));
    Ok (agg_init,
        {| model := model_;
           prompt_messages := prompt_messages_;
           delta := {| index := index_;
                       role := Some role_;
                       message := assistant_prompt_message;
                       usage := Some usage_;
                       finish_reason := Some finish_reason_ |} |})
  else
    Ok (st,
        {| model := model_;
           prompt_messages := prompt_messages_;
           delta := {| index := index_;
                       role := None;
                       message := assistant_prompt_message;
                       usage := None;
                       finish_reason := None |} |}).

(** One iteration of [for index, event in enumerate(resp)]. *)
Definition stream_event (model_ : string) (credentials : gmap string string)
    (prompt_messages_ : list PromptMessage)
    (index_ : nat) (st : agg_state) (ev : event)
  : result (agg_state * option (LLMResultChunk LLMUsage)) :=
  d ← decode_event ev;
  match d with
  | None => Ok (st, None)
  | Some d =>
      '(st, chunk) ← emit_chunk model_ credentials prompt_messages_ index_ st d;
      Ok (st, Some chunk)
  end.

(** The generator over the events that [resp] yields; [resp] may itself
    end with an exception. *)
Definition _handle_stream_chat_response (model_ : string)
    (credentials : gmap string string) (prompt_messages_ : list PromptMessage)
    (resp : trace event) : trace (LLMResultChunk LLMUsage) :=
  feed (gen_loop (stream_event model_ credentials prompt_messages_) 0 agg_init resp.1)
       resp.2.

End aggregator.

(** ** The message mapper:
    [HunyuanLargeLanguageModel._convert_prompt_messages_to_dicts] *)

Section mapper.
Context `{Platform}.

Definition part_class (p : content_part) : string :=
  match p with
  | TextPart _ => "TextPromptMessageContent"
  | ImagePart _ => "ImagePromptMessageContent"
  | OtherPart _ => "PromptMessageContent"
  end.

(** [message.content] as a value of a dict. *)
Definition content_value (c : content) : json :=
  match c with
  | CNone => JNull
  | CStr s => JStr s
  | CParts parts => JArr ((fun p => JObject (part_class p)) <$> parts)
  end.

(** Lines 141-150: one entry of [dict_tool_calls]. *)
Definition tool_call_dict (tool_call_ : ToolCall) : json :=
  JObj [("Id", JStr (tc_id tool_call_));
        ("Type", JStr (tc_type tool_call_));
        ("Function",
         JObj [("Name", JStr (fn_name (tc_function tool_call_)));
               ("Arguments",
                JStr (if String.eqb (fn_arguments (tc_function tool_call_)) ""
                      then fn_arguments (tc_function tool_call_)
                      else "{}"))])].

(** Lines 176-187: the parts of a user message, text and image only. *)
Fixpoint sub_messages_of (parts : list content_part) : list json :=
  match parts with
  | [] => []
  | TextPart data :: parts' =>
      JObj [("Type", JStr "text"); ("Text", JStr data)] :: sub_messages_of parts'
  | ImagePart data :: parts' =>
      JObj [("Type", JStr "image_url"); ("ImageUrl", JObj [("Url", JStr data)])]
      :: sub_messages_of parts'
  | OtherPart _ :: parts' => sub_messages_of parts'
  end.

(** The body of [for message in prompt_messages]: the dict appended to
    [dict_list]. *)
Definition convert_prompt_message (message_ : PromptMessage) : result json :=
  match message_ with
  | Assistant m =>
      if (match am_tool_calls m with [] => false | _ => true end)
         && Nat.ltb 0 (List.length (am_tool_calls m))
      then
        Ok (JObj [("Role", JStr (role_value (am_role m)));
                  ("Content", JStr " ");
                  ("ToolCalls", JArr (tool_call_dict <$> am_tool_calls m))])
      else
        Ok (JObj [("Role", JStr (role_value (am_role m)));
                  ("Content", content_value (am_content m))])
  | ToolPromptMessage role_ c tool_call_id =>
      content_ ← json_dumps false (JObj [("result", content_value c)]);
      Ok (JObj [("Role", JStr (role_value role_));
                ("Content", JStr content_);
                ("ToolCallId", JStr tool_call_id)])
  | UserPromptMessage role_ c =>
      match c with
      | CStr s => Ok (JObj [("Role", JStr (role_value role_)); ("Content", JStr s)])
      | CParts parts =>
          Ok (JObj [("Role", JStr (role_value role_));
                    ("Contents", JArr (sub_messages_of parts))])
      | CNone => raise TypeError
      end
  | SystemPromptMessage role_ c =>
      Ok (JObj [("Role", JStr (role_value role_)); ("Content", content_value c)])
  end.

Definition _convert_prompt_messages_to_dicts (prompt_messages_ : list PromptMessage)
  : result (list json) :=
  mapR convert_prompt_message prompt_messages_.

End mapper.

(** ** The invocation: [HunyuanLargeLanguageModel._invoke] *)

(** Modelled from the spec: see [LLMResultChunkDelta]. *)
Record LLMResult (U : Type) : Type := {
  res_model : string;
  res_prompt_messages : list PromptMessage;
  res_message : AssistantPromptMessage;
  res_usage : U;
}.

Inductive invoke_result (U : Type) : Type :=
  | Streaming (chunks : trace (LLMResultChunk U))
  | Blocking (r : LLMResult U).
Arguments Streaming {U} _.
Arguments Blocking {U} _.

(** [response.json], passed without a call: the bound method. *)
Inductive bound_method : Type :=
  | Response_json (r : response).

Section invoke.
Context `{Platform}.

Definition url : string := "http://hunyuanapi.woa.com/openapi/v1/chat/completions".

(** [str(n)] in a format string. *)
Definition str_of_Z (n : Z) : string := NilZero.string_of_int (Z.to_int n).

(** Lines 67-77: one entry of [params["Tools"]]. *)
Definition tool_dict (tool : PromptMessageTool) : result json :=
  parameters ← json_dumps true (tool_parameters tool);
  Ok (JObj [("Type", JStr "function");
            ("Function",
             JObj [("Name", JStr (tool_name tool));
                   ("Description", JStr (tool_description tool));
                   ("Parameters", JStr parameters)])]).

(** [_handle_chat_response] starts by reading [response.usage]; a bound
    method has no such attribute. *)
Definition _handle_chat_response (credentials : gmap string string) (model_ : string)
    (prompt_messages_ : list PromptMessage) (response_ : bound_method)
  : result (LLMResult LLMUsage) :=
  raise AttributeError.

Definition failed_access_message (r : response) : string :=
  "Failed to access LLM API, status code: " +:+ str_of_Z (status_code r)
  +:+ ", message: " +:+ text r.

(** Lines 85-95: what [_invoke] does with the response. *)
Definition handle_response (model_ : string) (credentials : gmap string string)
    (prompt_messages_ : list PromptMessage) (stream : bool) (response_ : response)
  : result (invoke_result LLMUsage) :=
  if negb (status_code response_ =? 200)%Z then
    raise (Exception (failed_access_message response_))
  else if stream then
    Ok (Streaming (_handle_stream_chat_response model_ credentials prompt_messages_
                     (_process_response_sse response_)))
  else
    Blocking <$> _handle_chat_response credentials model_ prompt_messages_
                   (Response_json response_).

(** Lines 50-84: the headers and the body of the request. *)
Definition build_request (model_ : string) (credentials : gmap string string)
    (prompt_messages_ : list PromptMessage) (model_parameters : gmap string json)
    (tools : option (list PromptMessageTool)) (stop : option (list string))
    (stream : bool) : result (list (string * string) * string) :=
  messages_dict ← _convert_prompt_messages_to_dicts prompt_messages_;
  let custom_parameters :=
    [("Temperature", default_or (model_parameters !! "temperature") (JFloat "0.0"));
     ("TopP", default_or (model_parameters !! "top_p") (JFloat "1.0"));
     ("EnableEnhancement",
      default_or (model_parameters !! "enable_enhance") (JBool true))] in
  let params :=
    [("Model", JStr model_);
     ("Messages", JArr messages_dict);
     ("Stream", JBool stream);
     ("Stop", match stop with Some l => JArr (JStr <$> l) | None => JNull end)]
    ++ custom_parameters in
  params ←
    match tools with
    | Some (tool :: tools') =>
        tool_dicts ← mapR tool_dict (tool :: tools');
        Ok (params ++ [("ToolChoice", JStr "auto"); ("Tools", JArr tool_dicts)])
    | _ => Ok params
    end;
  api_key ← match credentials !! "api_key" with
            | Some k => Ok k
            | None => raise (KeyError "api_key")
            end;
  let headers :=
    [("Authorization", "Bearer " +:+ api_key);
     ("Content-Type", "application/json")] in
  body ← json_dumps true (JObj params);
  Ok (headers, body).

Definition _invoke (model_ : string) (credentials : gmap string string)
    (prompt_messages_ : list PromptMessage) (model_parameters : gmap string json)
    (tools : option (list PromptMessageTool)) (stop : option (list string))
    (stream : bool) (user : option string) : result (invoke_result LLMUsage) :=
  '(headers, body) ← build_request model_ credentials prompt_messages_
                       model_parameters tools stop stream;
  response_ ← requests_post url headers body;
  handle_response model_ credentials prompt_messages_ stream response_.

End invoke.

(** ** The signer: [SignatureBuilder] of [_tencent_cloud_base.py] *)

(** What the signer takes from the Python runtime.  A digest is a byte
    string; an encoded text is the text's bytes. *)
Class SignerRuntime : Type := {
  (** [hashlib.sha256(data).digest()] *)
  sha256 : string -> string;
  (** [hmac.new(key, msg, hashlib.sha256).digest()] *)
  hmac_sha256 : string -> string -> string;
  (** [text.lower()] *)
  str_lower : string -> string;
  (** [datetime.utcfromtimestamp(timestamp).strftime("%Y-%m-%d")] *)
  utc_date : Z -> result string;
}.

Definition hex_digit (n : nat) : ascii :=
  match n with
  | 0 => "0" | 1 => "1" | 2 => "2" | 3 => "3" | 4 => "4"
  | 5 => "5" | 6 => "6" | 7 => "7" | 8 => "8" | 9 => "9"
  | 10 => "a" | 11 => "b" | 12 => "c" | 13 => "d" | 14 => "e"
  | _ => "f"
  end%char.

(** [digest.hex()]: two lowercase hexadecimal digits per byte. *)
Fixpoint hex (digest : string) : string :=
  match digest with
  | EmptyString => EmptyString
  | String a rest =>
      let n := nat_of_ascii a in
      String (hex_digit (n / 16)) (String (hex_digit (n mod 16)) (hex rest))
  end.

Record SignatureBuilder : Type := {
  secret_id : string;
  secret_key : string;
  service : string;
  algorithm : string;
}.

(** [SignatureBuilder.__init__] *)
Definition new_SignatureBuilder (service_ secret_id_ secret_key_ : string)
  : SignatureBuilder :=
  {| secret_id := secret_id_;
     secret_key := secret_key_;
     service := service_;
     algorithm := "TC3-HMAC-SHA256" |}.

Section signer.
Context `{SignerRuntime}.

Definition sha256_hexdigest (data : string) : string := hex (sha256 data).

Definition _sign (self : SignatureBuilder) (key msg : string) : string :=
  hmac_sha256 key msg.

Definition get_authorization_header (self : SignatureBuilder)
    (timestamp : Z) (host action payload : string) : result string :=
  date ← utc_date timestamp;
  let http_request_method := "POST" in
  let canonical_uri := "/" in
  let canonical_querystring := "" in
  let ct := "application/json; charset=utf-8" in
  let canonical_headers :=
    "content-type:" +:+ ct +:+ nl +:+ "host:" +:+ host +:+ nl
    +:+ "x-tc-action:" +:+ str_lower action +:+ nl in
  let signed_headers := "content-type;host;x-tc-action" in
  let hashed_request_payload := sha256_hexdigest payload in
  let canonical_request :=
    http_request_method +:+ nl +:+
    canonical_uri +:+ nl +:+
    canonical_querystring +:+ nl +:+
    canonical_headers +:+ nl +:+
    signed_headers +:+ nl +:+
    hashed_request_payload in
  let credential_scope := date +:+ "/" +:+ service self +:+ "/" +:+ "tc3_request" in
  let hashed_canonical_request := sha256_hexdigest canonical_request in
  let string_to_sign :=
    algorithm self +:+ nl +:+
    str_of_Z timestamp +:+ nl +:+
    credential_scope +:+ nl +:+
    hashed_canonical_request in
  let secret_date := _sign self ("TC3" +:+ secret_key self) date in
  let secret_service := _sign self secret_date (service self) in
  let secret_signing := _sign self secret_service "tc3_request" in
  let signature := hex (hmac_sha256 secret_signing string_to_sign) in
  let authorization :=
    algorithm self +:+ " " +:+
    "Credential=" +:+ secret_id self +:+ "/" +:+ credential_scope +:+ ", " +:+
    "SignedHeaders=" +:+ signed_headers +:+ ", " +:+
    "Signature=" +:+ signature in
  Ok authorization.

(** *** The header as the specification words it *)

(** Newline-joined lines. *)
Fixpoint join_lines (lines : list string) : string :=
  match lines with
  | [] => ""
  | [l] => l
  | l :: lines' => l +:+ nl +:+ join_lines lines'
  end.

Definition spec_signed_headers : string := "content-type;host;x-tc-action".

Definition spec_canonical_headers (host action : string) : string :=
  "content-type:application/json; charset=utf-8" +:+ nl
  +:+ "host:" +:+ host +:+ nl
  +:+ "x-tc-action:" +:+ str_lower action +:+ nl.

Definition spec_canonical_request (host action payload : string) : string :=
  join_lines ["POST"; "/"; ""; spec_canonical_headers host action;
              spec_signed_headers; hex (sha256 payload)].

Definition spec_credential_scope (date service_ : string) : string :=
  date +:+ "/" +:+ service_ +:+ "/tc3_request".

Definition spec_string_to_sign (algorithm_ : string) (timestamp : Z)
    (date service_ host action payload : string) : string :=
  join_lines [algorithm_; str_of_Z timestamp; spec_credential_scope date service_;
              hex (sha256 (spec_canonical_request host action payload))].

Definition spec_signing_key (secret_key_ date service_ : string) : string :=
  let kDate := hmac_sha256 ("TC3" +:+ secret_key_) date in
  let kService := hmac_sha256 kDate service_ in
  hmac_sha256 kService "tc3_request".

Definition spec_signature (algorithm_ secret_key_ service_ : string) (timestamp : Z)
    (date host action payload : string) : string :=
  hex (hmac_sha256 (spec_signing_key secret_key_ date service_)
         (spec_string_to_sign algorithm_ timestamp date service_ host action payload)).

Definition spec_header (algorithm_ secret_id_ secret_key_ service_ : string)
    (timestamp : Z) (date host action payload : string) : string :=
  algorithm_ +:+ " Credential=" +:+ secret_id_ +:+ "/" +:+ date +:+ "/" +:+ service_
  +:+ "/tc3_request, SignedHeaders=content-type;host;x-tc-action, Signature="
  +:+ spec_signature algorithm_ secret_key_ service_ timestamp date host action payload.

End signer.

(** * The rest of the two providers

    [HunyuanLargeLanguageModel.validate_credentials] of [llm.py],
    [YunApiClient] of [_tencent_cloud_base.py] and [TencentClsTool] of
    [tools/tencent_cls.py]. *)

(** What these take from the Python runtime and from [dateutil]. *)
Class ToolRuntime : Type := {
  (** [str(e)] for an exception other than an [Exception] made of a
      message *)
  exception_text : exn -> string;
  (** [int(time.time())] *)
  time_time : Z;
  (** [HTTPSConnection(host).request(method, path, headers=..., body=...)]
      followed by [getresponse().read()] *)
  https_request :
    string -> string -> string -> list (string * json) -> string -> result string;
  (** [int(parser.isoparse(text).timestamp() * 1000)], the body of
      [TencentClsTool.rfc3339_to_unix_timestamp] *)
  rfc3339_to_unix_timestamp : json -> result Z;
}.

(** [str(e)], as a format string writes an exception. *)
Definition str_exn `{ToolRuntime} (e : exn) : string :=
  match e with
  | Exception msg => msg
  | _ => exception_text e
  end.

(** [needle in text] for two texts. *)
Fixpoint str_contains (needle s : string) : bool :=
  String.prefix needle s
  || match s with
     | String _ s' => str_contains needle s'
     | EmptyString => false
     end.

(** [key in x] for a text [key]. *)
Definition py_contains (key : string) (x : json) : result bool :=
  match x with
  | JObj items => Ok (bool_decide (is_Some (assoc_get key items)))
  | JArr items => Ok (existsb (fun y => py_eq_str y key) items)
  | JStr s => Ok (str_contains key s)
  | _ => raise TypeError
  end.

(** [x[key]] for a text [key]. *)
Definition py_getitem (x : json) (key : string) : result json :=
  match x with
  | JObj items =>
      match assoc_get key items with
      | Some v => Ok v
      | None => raise (KeyError key)
      end
  | _ => raise TypeError
  end.

(** ** [HunyuanLargeLanguageModel._create_final_llm_result_chunk] *)

Section final_chunk.
Context `{Platform}.

(** [usage and usage.get(key)] *)
Definition usage_and_get (usage_ : json) (key : string) : result json :=
  if truthy usage_ then py_get usage_ key JNull else Ok usage_.

(** [self.get_num_tokens(text=...)]: the method takes [model],
    [credentials] and [prompt_messages] and has no parameter [text], so
    the call raises once its argument is evaluated. *)
Definition get_num_tokens_of_text {A} (text_ : result A) : result json :=
  _ ← text_;
  raise TypeError.

(** [prompt_messages[0].content] *)
Definition first_content (prompt_messages_ : list PromptMessage) : result PromptMessage :=
  match prompt_messages_ with
  | m :: _ => Ok m
  | [] => raise IndexError
  end.

Definition _create_final_llm_result_chunk (index_ : nat)
    (message_ : AssistantPromptMessage) (finish_reason_ : json) (usage_ : json)
    (model_ : string) (prompt_messages_ : list PromptMessage)
    (credentials : gmap string string) (full_content : string)
  : result (LLMResultChunk LLMUsage) :=
  prompt_tokens ← usage_and_get usage_ "prompt_tokens";
  prompt_tokens ←
    match prompt_tokens with
    | JNull => get_num_tokens_of_text (first_content prompt_messages_)
    | _ => Ok prompt_tokens
    end;
  completion_tokens ← usage_and_get usage_ "completion_tokens";
  completion_tokens ←
    match completion_tokens with
    | JNull => get_num_tokens_of_text (Ok full_content)
    | _ => Ok completion_tokens
    end;
  usage_ ← _calc_response_usage model_ credentials prompt_tokens completion_tokens;
  finish_reason_ ← validated (str_field finish_reason_);
  Ok {| model := model_;
        prompt_messages := prompt_messages_;
        delta := {| index := index_;
                    role := None;
                    message := message_;
                    usage := Some usage_;
                    finish_reason := Some finish_reason_ |} |}.

End final_chunk.

(** ** [HunyuanLargeLanguageModel.validate_credentials] *)

(** What the method does: it returns, or it raises
    [CredentialsValidateFailedError]. *)
Inductive validation : Type :=
  | Validated
  | CredentialsValidateFailedError (msg : string).

Section validation.
Context `{Platform} `{ToolRuntime}.

Definition validate_params (model_ : string) : json :=
  JObj [("Model", JStr model_);
        ("Messages", JArr [JObj [("Role", JStr "user"); ("Content", JStr "hello")]]);
        ("TopP", JInt 1);
        ("Temperature", JInt 0);
        ("Stream", JBool false)].

(** Lines 102-117: the body of the [try]. *)
Definition validate_request (model_ : string) (credentials : gmap string string)
  : result unit :=
  let params := validate_params model_ in
  api_key ← match credentials !! "api_key" with
            | Some k => Ok k
            | None => raise (KeyError "api_key")
            end;
  let headers :=
    [("Authorization", "Bearer " +:+ api_key);
     ("Content-Type", "application/json")] in
  body ← json_dumps true params;
  response_ ← requests_post url headers body;
  if negb (status_code response_ =? 200)%Z then
    raise (Exception (failed_access_message response_))
  else Ok tt.

Definition validate_credentials (model_ : string) (credentials : gmap string string)
  : validation :=
  match validate_request model_ credentials with
  | Ok _ => Validated
  | Err e => CredentialsValidateFailedError ("Credentials validation failed: " +:+ str_exn e)
  end.

End validation.

(** ** [YunApiClient] *)

Record YunApiClient : Type := {
  c_host : string;
  c_service : string;
  c_secret_id : string;
  c_secret_key : string;
  c_user_id : option string;
  c_version : string;
  c_region : json;
  signature_builder : SignatureBuilder;
}.

(** [YunApiClient.__init__] *)
Definition new_YunApiClient (host service_ version secret_id_ secret_key_ : string)
    (region : json) (user_id : option string) : YunApiClient :=
  {| c_host := host;
     c_service := service_;
     c_secret_id := secret_id_;
     c_secret_key := secret_key_;
     c_user_id := user_id;
     c_version := version;
     c_region := region;
     signature_builder := new_SignatureBuilder service_ secret_id_ secret_key_ |}.

Section cloud.
Context `{Platform} `{SignerRuntime} `{ToolRuntime}.

(** Lines 74-87 of [send]: the headers and the body of the request. *)
Definition send_request (self : YunApiClient) (action : string) (payload : json)
  : result (list (string * json) * string) :=
  payload ← json_dumps true payload;
  let timestamp := time_time in
  authorization ← get_authorization_header (signature_builder self) timestamp
                    (c_host self) action payload;
  let headers :=
    [("Authorization", JStr authorization);
     ("Content-Type", JStr "application/json; charset=utf-8");
     ("Host", JStr (c_host self));
     ("X-TC-Action", JStr action);
     ("X-TC-Timestamp", JInt timestamp);
     ("X-TC-Version", JStr (c_version self));
     ("X-TC-Region", c_region self);
     ("X-TC-Language", JStr "zh-CN")] in
  let headers :=
    match c_user_id self with
    | Some user_id =>
        if negb (String.eqb user_id "")
        then headers ++ [("x-qcloud-user-id", JStr user_id)]
        else headers
    | None => headers
    end in
  Ok (headers, payload).

(** [YunApiClient.send]; what it prints is left out. *)
Definition send (self : YunApiClient) (action : string) (payload : json) : result json :=
  '(headers, body) ← send_request self action payload;
  ret ← https_request (c_host self) "POST" "/" headers body;
  json_loads ret.

End cloud.

(** ** [TencentClsTool] *)

(** Modelled from the spec: the class [ToolInvokeMessage] and
    [BuiltinTool.create_text_message] are missing; section 7 has the
    message text of the provider surfaced and section 6 has the success
    path read [Response.Results].  The message keeps the text it is made
    of. *)
Inductive ToolInvokeMessage : Type :=
  | TextMessage (text_ : json).

(** How the tool ends: with a value, with the [ValueError] it raises
    itself, or with an exception it lets through. *)
Inductive tool_outcome (A : Type) : Type :=
  | Returned (a : A)
  | RaisedValueError (msg : string)
  | Raised (e : exn).
Arguments Returned {A} _.
Arguments RaisedValueError {A} _.
Arguments Raised {A} _.

Section tool.
Context `{Platform} `{SignerRuntime} `{ToolRuntime}.

(** Lines 11-58 of [_invoke]: the checks, the client and the payload. *)
Definition cls_request (credentials : gmap string string)
    (tool_parameters : gmap string json) : tool_outcome (YunApiClient * json) :=
  let secret_id_ := default_or (credentials !! "secret_id") "" in
  if String.eqb secret_id_ "" then RaisedValueError "invalid tencent cls secret_id"
  else
    let secret_key_ := default_or (credentials !! "secret_key") "" in
    if String.eqb secret_key_ "" then RaisedValueError "invalid tencent cls secret_key"
    else
      let topicid := default_or (tool_parameters !! "topicid") (JStr "") in
      if negb (truthy topicid) then RaisedValueError "Please input topicid"
      else
        let query := default_or (tool_parameters !! "query") (JStr "") in
        if negb (truthy query) then RaisedValueError "Please input query"
        else
          let region := default_or (tool_parameters !! "region") (JStr "") in
          if negb (truthy region) then RaisedValueError "Please input region"
          else
            let from_ := default_or (tool_parameters !! "from") (JStr "") in
            if negb (truthy from_) then RaisedValueError "Please input from"
            else
              let to := default_or (tool_parameters !! "to") (JStr "") in
              if negb (truthy to) then RaisedValueError "Please input to"
              else
                match rfc3339_to_unix_timestamp from_ with
                | Err e => Raised e
                | Ok from_unix =>
                    match rfc3339_to_unix_timestamp to with
                    | Err e => Raised e
                    | Ok to_unix =>
                        let client :=
                          new_YunApiClient "cls.tencentcloudapi.com" "cls" "2020-10-16"
                            secret_id_ secret_key_ region None in
                        let payload :=
                          JObj [("TopicId", topicid);
                                ("From", JInt from_unix);
                                ("To", JInt to_unix);
                                ("Query", query);
                                ("Sort", JStr "asc");
                                ("Limit", JInt 150)] in
                        Returned (client, payload)
                    end
                end.

(** Lines 60-66: the body of the [try]. *)
Definition search_log (client : YunApiClient) (payload : json)
  : result ToolInvokeMessage :=
  resp ← send client "SearchLog" payload;
  response_ ← py_get resp "Response" JNull;
  has_error ← py_contains "Error" response_;
  if has_error : bool then
    response_ ← py_getitem resp "Response";
    error ← py_getitem response_ "Error";
    result_text ← py_getitem error "Message";
    Ok (TextMessage result_text)
  else
    response_ ← py_getitem resp "Response";
    results ← py_getitem response_ "Results";
    result_text ← json_dumps true results;
    Ok (TextMessage (JStr result_text)).

(** [TencentClsTool._invoke]; [credentials] is [self.runtime.credentials]. *)
Definition cls_invoke (credentials : gmap string string) (user_id : string)
    (tool_parameters : gmap string json) : tool_outcome ToolInvokeMessage :=
  match cls_request credentials tool_parameters with
  | Returned (client, payload) =>
      match search_log client payload with
      | Ok m => Returned m
      | Err e => RaisedValueError ("invoke tencent cls failed: " +:+ str_exn e)
      end
  | RaisedValueError msg => RaisedValueError msg
  | Raised e => Raised e
  end.

End tool.

(** * A platform to run the definitions on

    [Reference] supplies the imported functions for the examples: a
    decoder and an encoder for JSON texts without floats and without
    [\u] escapes, [int] and field validation for ASCII texts, a usage
    record that keeps the two token counts, and an HTTP layer that answers
    every request with one given response. *)

Module Reference.

Definition quote : ascii := ascii_of_nat 34.
Definition backslash : ascii := ascii_of_nat 92.
Definition q : string := String quote EmptyString.

Fixpoint skip_ws (s : string) : string :=
  match s with
  | String a s' =>
      match N_of_ascii a with
      | 32%N | 9%N | 10%N | 13%N => skip_ws s'
      | _ => s
      end
  | EmptyString => s
  end.

(** The text of a JSON string after its opening quote. *)
Fixpoint parse_chars (s : string) : option (string * string) :=
  match s with
  | EmptyString => None
  | String a s' =>
      match N_of_ascii a with
      | 34%N => Some (EmptyString, s')
      | 92%N =>
          match s' with
          | String b s'' =>
              c ← match N_of_ascii b with
                  | 34%N => Some quote
                  | 92%N => Some backslash
                  | 47%N => Some "/"%char
                  | 110%N => Some (ascii_of_nat 10)
                  | 114%N => Some (ascii_of_nat 13)
                  | 116%N => Some (ascii_of_nat 9)
                  | 98%N => Some (ascii_of_nat 8)
                  | 102%N => Some (ascii_of_nat 12)
                  | _ => None
                  end;
              '(t, r) ← parse_chars s'';
              Some (String c t, r)
          | EmptyString => None
          end
      | n => if (n <? 32)%N then None
             else '(t, r) ← parse_chars s'; Some (String a t, r)
      end
  end.

Definition is_digit (a : ascii) : bool :=
  (48 <=? N_of_ascii a)%N && (N_of_ascii a <=? 57)%N.

Fixpoint parse_digits (acc : Z) (s : string) : Z * string :=
  match s with
  | String a s' =>
      if is_digit a
      then parse_digits (10 * acc + Z.of_N (N_of_ascii a) - 48) s'
      else (acc, s)
  | EmptyString => (acc, s)
  end.

Definition starts_digit (s : string) : bool :=
  match s with String a _ => is_digit a | EmptyString => false end.

Definition starts_fraction (s : string) : bool :=
  match s with
  | String a _ =>
      match N_of_ascii a with 46%N | 101%N | 69%N => true | _ => false end
  | EmptyString => false
  end.

Definition parse_number (negative : bool) (s : string) : option (json * string) :=
  if starts_digit s then
    let '(n, r) := parse_digits 0 s in
    if starts_fraction r then None
    else Some (JInt (if negative then - n else n), r)
  else None.

Fixpoint assoc_set (key : string) (v : json) (items : list (string * json))
  : list (string * json) :=
  match items with
  | [] => [(key, v)]
  | (k, w) :: items' =>
      if String.eqb k key then (k, v) :: items' else (k, w) :: assoc_set key v items'
  end.

Section values.
Variable parse_value : string -> option (json * string).

Fixpoint parse_elements (fuel : nat) (s : string) : option (list json * string) :=
  match fuel with
  | 0 => None
  | Datatypes.S fuel' =>
      '(v, r) ← parse_value (skip_ws s);
      match skip_ws r with
      | String "," r' => '(vs, r'') ← parse_elements fuel' r'; Some (v :: vs, r'')
      | String "]" r' => Some ([v], r')
      | _ => None
      end
  end.

Fixpoint parse_members (fuel : nat) (acc : list (string * json)) (s : string)
  : option (list (string * json) * string) :=
  match fuel with
  | 0 => None
  | Datatypes.S fuel' =>
      match skip_ws s with
      | String a r =>
          if Ascii.eqb a quote then
            '(k, r) ← parse_chars r;
            match skip_ws r with
            | String ":" r =>
                '(v, r) ← parse_value (skip_ws r);
                match skip_ws r with
                | String "," r' => parse_members fuel' (assoc_set k v acc) r'
                | String "}" r' => Some (assoc_set k v acc, r')
                | _ => None
                end
            | _ => None
            end
          else None
      | EmptyString => None
      end
  end.
End values.

Fixpoint parse_value (fuel : nat) (s : string) : option (json * string) :=
  match fuel with
  | 0 => None
  | Datatypes.S fuel' =>
      match s with
      | String "{" r =>
          match skip_ws r with
          | String "}" r' => Some (JObj [], r')
          | _ => '(items, r') ← parse_members (parse_value fuel') fuel' [] r;
                 Some (JObj items, r')
          end
      | String "[" r =>
          match skip_ws r with
          | String "]" r' => Some (JArr [], r')
          | _ => '(items, r') ← parse_elements (parse_value fuel') fuel' r;
                 Some (JArr items, r')
          end
      | String "-" r => parse_number true r
      | String a r =>
          if Ascii.eqb a quote then '(t, r') ← parse_chars r; Some (JStr t, r')
          else if String.prefix "true" s then Some (JBool true, str_drop 4 s)
          else if String.prefix "false" s then Some (JBool false, str_drop 5 s)
          else if String.prefix "null" s then Some (JNull, str_drop 4 s)
          else parse_number false s
      | EmptyString => None
      end
  end.

Definition loads (s : string) : result json :=
  match parse_value (Datatypes.S (String.length s)) (skip_ws s) with
  | Some (v, r) => if String.eqb (skip_ws r) "" then Ok v else raise ValueError
  | None => raise ValueError
  end.

(** The encoder: [", "] and [": "] as separators; with [ensure_ascii] a
    character beyond ASCII becomes its [\u] escapes. *)
Definition hex4 (n : N) : string :=
  String (hex_digit (N.to_nat (n / 4096) mod 16))
    (String (hex_digit (N.to_nat (n / 256) mod 16))
       (String (hex_digit (N.to_nat (n / 16) mod 16))
          (String (hex_digit (N.to_nat n mod 16)) EmptyString))).

Definition escape_unit (n : N) : string := String backslash ("u" +:+ hex4 n).

(** The code point of one UTF-8 encoded character. *)
Definition code_point (c : string) : N :=
  match c with
  | EmptyString => 0
  | String a rest =>
      let lead := N_of_ascii a in
      let start :=
        if (lead <? 128)%N then lead
        else if (lead <? 224)%N then N.land lead 31
        else if (lead <? 240)%N then N.land lead 15
        else N.land lead 7 in
      fold_left (fun acc b => N.lor (N.shiftl acc 6) (N.land (N_of_ascii b) 63))
                (list_ascii_of_string rest) start
  end%N.

Definition escape_char (ensure_ascii : bool) (c : string) : string :=
  let n := code_point c in
  match n with
  | 34%N => String backslash q
  | 92%N => String backslash (String backslash EmptyString)
  | 10%N => String backslash "n"
  | 13%N => String backslash "r"
  | 9%N => String backslash "t"
  | 8%N => String backslash "b"
  | 12%N => String backslash "f"
  | _ =>
      if (n <? 32)%N then escape_unit n
      else if (n <? 128)%N || negb ensure_ascii then c
      else if (n <? 65536)%N then escape_unit n
      else escape_unit (55296 + (n - 65536) / 1024)
           +:+ escape_unit (56320 + (n - 65536) mod 1024)
  end%N.

Definition dumps_str (ensure_ascii : bool) (s : string) : string :=
  q +:+ String.concat "" (escape_char ensure_ascii <$> str_chars s) +:+ q.

Fixpoint dumps (ensure_ascii : bool) (j : json) : result string :=
  match j with
  | JNull => Ok "null"
  | JBool true => Ok "true"
  | JBool false => Ok "false"
  | JInt z => Ok (str_of_Z z)
  | JFloat r => Ok r
  | JStr s => Ok (dumps_str ensure_ascii s)
  | JArr items =>
      parts ← (fix each (l : list json) : result (list string) :=
                 match l with
                 | [] => Ok []
                 | x :: l' => t ← dumps ensure_ascii x; ts ← each l'; Ok (t :: ts)
                 end) items;
      Ok ("[" +:+ String.concat ", " parts +:+ "]")
  | JObj items =>
      parts ← (fix each (l : list (string * json)) : result (list string) :=
                 match l with
                 | [] => Ok []
                 | (k, x) :: l' =>
                     t ← dumps ensure_ascii x; ts ← each l';
                     Ok ((dumps_str ensure_ascii k +:+ ": " +:+ t) :: ts)
                 end) items;
      Ok ("{" +:+ String.concat ", " parts +:+ "}")
  | JObject _ => raise TypeError
  end.

(** [int] on ASCII text: blanks around, a sign, digits with single
    underscores between them. *)
Definition is_blank (a : ascii) : bool :=
  match N_of_ascii a with
  | 32%N | 9%N | 10%N | 11%N | 12%N | 13%N => true
  | _ => false
  end.

Fixpoint lstrip (l : list ascii) : list ascii :=
  match l with
  | a :: l' => if is_blank a then lstrip l' else l
  | [] => []
  end.

Definition strip (l : list ascii) : list ascii := rev (lstrip (rev (lstrip l))).

Fixpoint int_digits (after_digit : bool) (acc : Z) (l : list ascii) : option Z :=
  match l with
  | [] => if after_digit then Some acc else None
  | a :: l' =>
      if is_digit a then int_digits true (10 * acc + Z.of_N (N_of_ascii a) - 48) l'
      else if Ascii.eqb a "_" && after_digit then
        match l' with
        | b :: _ => if is_digit b then int_digits false acc l' else None
        | [] => None
        end
      else None
  end.

Definition int_of_text (s : string) : result Z :=
  let digits neg l :=
    match int_digits false 0 l with
    | Some n => Ok (if neg : bool then (- n)%Z else n)
    | None => raise ValueError
    end in
  match strip (list_ascii_of_string s) with
  | "-"%char :: l => digits true l
  | "+"%char :: l => digits false l
  | l => digits false l
  end.

(** Validation that accepts exactly the declared type. *)
Definition strict_str (j : json) : option string :=
  match j with JStr s => Some s | _ => None end.

Definition strict_content (j : json) : option content :=
  match j with
  | JStr s => Some (CStr s)
  | JNull => Some CNone
  | _ => None
  end.

Record usage_record : Type := {
  prompt_tokens : json;
  completion_tokens : json;
}.

Definition platform (answer : result response) : Platform := {|
  json_loads := loads;
  json_dumps := dumps;
  py_int := int_of_text;
  requests_post := fun _ _ _ => answer;
  str_field := strict_str;
  str_field_str := fun _ => eq_refl;
  str_field_list := fun _ => eq_refl;
  str_field_dict := fun _ => eq_refl;
  id_field := strict_str;
  id_field_str := fun _ => eq_refl;
  content_field := strict_content;
  content_field_str := fun _ => eq_refl;
  LLMUsage := usage_record;
  _calc_response_usage := fun _ _ p c =>
    Ok {| prompt_tokens := p; completion_tokens := c |};
|}.

(** The platform without a network. *)
Definition offline : Platform := platform (Err (ExternalError "ConnectionError")).

End Reference.

(** * A runtime for the signer

    SHA-256 (FIPS 180-4) and HMAC (RFC 2104) on byte strings, ASCII
    lowercase, and the proleptic Gregorian date of a timestamp with the
    year written with four digits. *)

Module Crypto.
Local Open Scope Z_scope.

Definition mask32 : Z := 0xffffffff.
Definition add32 (x y : Z) : Z := Z.land (x + y) mask32.
Definition rotr (n x : Z) : Z :=
  Z.lor (Z.shiftr x n) (Z.land (Z.shiftl x (32 - n)) mask32).
Definition not32 (x : Z) : Z := Z.lxor x mask32.

Definition Ch (x y z : Z) : Z := Z.lxor (Z.land x y) (Z.land (not32 x) z).
Definition Maj (x y z : Z) : Z :=
  Z.lxor (Z.lxor (Z.land x y) (Z.land x z)) (Z.land y z).
Definition Sigma0 (x : Z) : Z := Z.lxor (Z.lxor (rotr 2 x) (rotr 13 x)) (rotr 22 x).
Definition Sigma1 (x : Z) : Z := Z.lxor (Z.lxor (rotr 6 x) (rotr 11 x)) (rotr 25 x).
Definition sigma0 (x : Z) : Z := Z.lxor (Z.lxor (rotr 7 x) (rotr 18 x)) (Z.shiftr x 3).
Definition sigma1 (x : Z) : Z := Z.lxor (Z.lxor (rotr 17 x) (rotr 19 x)) (Z.shiftr x 10).

(** The round constants and the initial hash value: the first 32 bits of
    the fractional parts of the cube roots of the first 64 primes, and of
    the square roots of the first 8. *)
Definition is_prime (n : Z) : bool :=
  forallb (fun d => negb (n mod d =? 0)) (seqZ 2 (n - 2)).

Definition first_primes (n : nat) : list Z :=
  take n (List.filter is_prime (seqZ 2 400)).

(** The integer part of the [r]-th root of [n], bit by bit. *)
Fixpoint root_bits (bits : nat) (r n x : Z) : Z :=
  match bits with
  | O => x
  | Datatypes.S b =>
      let y := x + 2 ^ Z.of_nat b in
      root_bits b r n (if y ^ r <=? n then y else x)
  end.

Definition root_fraction (r p : Z) : Z :=
  Z.land (root_bits 40 r (p * 2 ^ (32 * r)) 0) mask32.

Definition K256 : list Z := Eval vm_compute in root_fraction 3 <$> first_primes 64.

Definition H256 : list Z := Eval vm_compute in root_fraction 2 <$> first_primes 8.

Definition bytes_of (s : string) : list Z :=
  (fun a => Z.of_N (N_of_ascii a)) <$> list_ascii_of_string s.

Definition string_of (l : list Z) : string :=
  string_of_list_ascii ((fun b => ascii_of_N (Z.to_N b)) <$> l).

(** Big-endian bytes of a number, [n] of them. *)
Fixpoint be_bytes (n : nat) (x : Z) : list Z :=
  match n with
  | O => []
  | Datatypes.S n' => (be_bytes n' (Z.shiftr x 8) ++ [Z.land x 255])%list
  end.

Definition padding (len : Z) : list Z :=
  (128 :: List.repeat 0 (Z.to_nat ((55 - len) mod 64)) ++ be_bytes 8 (8 * len))%list.

Fixpoint words (fuel : nat) (l : list Z) : list Z :=
  match fuel, l with
  | Datatypes.S fuel', a :: b :: c :: d :: l' =>
      (((a * 256 + b) * 256 + c) * 256 + d) :: words fuel' l'
  | _, _ => []
  end.

(** The message schedule, latest word first. *)
Fixpoint schedule (n : nat) (w : list Z) : list Z :=
  match n with
  | O => w
  | Datatypes.S n' =>
      let at_ k := List.nth k w 0 in
      schedule n' (add32 (add32 (sigma1 (at_ 1%nat)) (at_ 6%nat))
                         (add32 (sigma0 (at_ 14%nat)) (at_ 15%nat)) :: w)
  end.

Definition round (st : list Z) (kw : Z * Z) : list Z :=
  match st with
  | [a; b; c; d; e; f; g; h] =>
      let t1 := add32 (add32 (add32 h (Sigma1 e)) (add32 (Ch e f g) kw.1)) kw.2 in
      let t2 := add32 (Sigma0 a) (Maj a b c) in
      [add32 t1 t2; a; b; c; add32 d t1; e; f; g]
  | _ => st
  end.

Definition compress (h : list Z) (block : list Z) : list Z :=
  let w := rev (schedule 48 (rev block)) in
  let st := fold_left round (combine K256 w) h in
  (fun p => add32 p.1 p.2) <$> combine h st.

Fixpoint blocks (fuel : nat) (h : list Z) (ws : list Z) : list Z :=
  match fuel, ws with
  | Datatypes.S fuel', _ :: _ => blocks fuel' (compress h (take 16 ws)) (drop 16 ws)
  | _, _ => h
  end.

Definition sha256_digest (data : string) : string :=
  let msg := (bytes_of data ++ padding (Z.of_nat (String.length data)))%list in
  let ws := words (List.length msg) msg in
  string_of (concat (be_bytes 4 <$> blocks (List.length ws) H256 ws)).

Definition xor_pad (pad : Z) (key : list Z) : list Z :=
  (fun b => Z.lxor b pad) <$> (key ++ List.repeat 0 (64 - List.length key))%list.

Definition hmac_digest (key msg : string) : string :=
  let key := if (64 <? Z.of_nat (String.length key)) then sha256_digest key else key in
  let k := bytes_of key in
  sha256_digest (string_of (xor_pad 0x5c k)
                 +:+ sha256_digest (string_of (xor_pad 0x36 k) +:+ msg)).

Definition lower_ascii (a : ascii) : ascii :=
  let n := N_of_ascii a in
  if ((65 <=? n) && (n <=? 90))%N then ascii_of_N (n + 32) else a.

Fixpoint lower (s : string) : string :=
  match s with
  | EmptyString => EmptyString
  | String a s' => String (lower_ascii a) (lower s')
  end.

(** Year, month and day of a day count since 1970-01-01. *)
Definition civil_from_days (days : Z) : Z * Z * Z :=
  let z := days + 719468 in
  let era := z / 146097 in
  let doe := z - era * 146097 in
  let yoe := (doe - doe / 1460 + doe / 36524 - doe / 146096) / 365 in
  let doy := doe - (365 * yoe + yoe / 4 - yoe / 100) in
  let mp := (5 * doy + 2) / 153 in
  let d := doy - (153 * mp + 2) / 5 + 1 in
  let m := if mp <? 10 then mp + 3 else mp - 9 in
  (yoe + era * 400 + (if m <=? 2 then 1 else 0), m, d).

Definition zero_pad (width : nat) (n : Z) : string :=
  let digits := str_of_Z n in
  string_of_list_ascii (List.repeat "0"%char (width - String.length digits)) +:+ digits.

Definition date_of (timestamp : Z) : result string :=
  let '(y, m, d) := civil_from_days (timestamp / 86400) in
  if (1 <=? y) && (y <=? 9999)
  then Ok (zero_pad 4 y +:+ "-" +:+ zero_pad 2 m +:+ "-" +:+ zero_pad 2 d)
  else raise ValueError.

Definition runtime : SignerRuntime := {|
  sha256 := sha256_digest;
  hmac_sha256 := hmac_digest;
  str_lower := lower;
  utc_date := date_of;
|}.

End Crypto.

(** * A runtime for the tool

    A clock that shows [now], a server that gives [answer] to every
    request, the names of the exception classes as their texts, and the
    milliseconds of a time written [YYYY-MM-DDThh:mm:ssZ]. *)

Module Host.
Local Open Scope Z_scope.

Definition class_text (e : exn) : string :=
  match e with
  | KeyError key => "'" +:+ key +:+ "'"
  | AttributeError => "AttributeError"
  | TypeError => "TypeError"
  | ValueError => "ValueError"
  | IndexError => "IndexError"
  | UnicodeDecodeError => "UnicodeDecodeError"
  | ValidationError => "ValidationError"
  | Exception msg => msg
  | ExternalError tag => tag
  end.

(** Days since 1970-01-01 of a date. *)
Definition days_from_civil (y m d : Z) : Z :=
  let y := if m <=? 2 then y - 1 else y in
  let era := y / 400 in
  let yoe := y - era * 400 in
  let mp := (m + 9) mod 12 in
  let doy := (153 * mp + 2) / 5 + d - 1 in
  let doe := yoe * 365 + yoe / 4 - yoe / 100 + doy in
  era * 146097 + doe - 719468.

Definition digit (c : ascii) : option Z :=
  let n := Z.of_nat (nat_of_ascii c) in
  if (48 <=? n) && (n <=? 57) then Some (n - 48) else None.

Fixpoint number (acc : Z) (cs : list ascii) : option Z :=
  match cs with
  | [] => Some acc
  | c :: cs' =>
      match digit c with
      | Some d => number (10 * acc + d) cs'
      | None => None
      end
  end.

Definition milliseconds (j : json) : result Z :=
  match j with
  | JStr s =>
      match list_ascii_of_string s with
      | [y1; y2; y3; y4; "-"; m1; m2; "-"; d1; d2; "T";
         h1; h2; ":"; n1; n2; ":"; s1; s2; "Z"]%char =>
          match number 0 [y1; y2; y3; y4], number 0 [m1; m2], number 0 [d1; d2],
                number 0 [h1; h2], number 0 [n1; n2], number 0 [s1; s2] with
          | Some y, Some m, Some d, Some h, Some n, Some sec =>
              if (1 <=? m) && (m <=? 12) && (1 <=? d) && (d <=? 31)
                 && (h <=? 23) && (n <=? 59) && (sec <=? 59)
              then Ok ((days_from_civil y m d * 86400 + h * 3600 + n * 60 + sec) * 1000)
              else raise ValueError
          | _, _, _, _, _, _ => raise ValueError
          end
      | _ => raise ValueError
      end
  | _ => raise TypeError
  end.

Definition runtime (now : Z) (answer : result string) : ToolRuntime := {|
  exception_text := class_text;
  time_time := now;
  https_request := fun _ _ _ _ _ => answer;
  rfc3339_to_unix_timestamp := milliseconds;
|}.

End Host.

(** * Vocabulary of the statements *)

(** A text with every apostrophe replaced by a double quote: the JSON
    texts of the examples are written with apostrophes. *)
Definition quoted (s : string) : string :=
  string_of_list_ascii
    ((fun a => if Ascii.eqb a "'" then ascii_of_nat 34 else a)
       <$> list_ascii_of_string s).

(** A tool-call fragment of a delta, and the tool call that
    [_extract_response_tool_calls] makes of it. *)
Definition is_fragment (fr : json) (id name arguments : string) : Prop :=
  exists items fitems,
    fr = JObj items /\
    assoc_get "id" items = Some (JStr id) /\
    assoc_get "function" items = Some (JObj fitems) /\
    assoc_get "name" fitems = Some (JStr name) /\
    assoc_get "arguments" fitems = Some (JStr arguments).

Definition fragment_json (id name arguments : string) : json :=
  JObj [("id", JStr id);
        ("function", JObj [("name", JStr name); ("arguments", JStr arguments)])].

Definition function_call (id name arguments : string) : ToolCall :=
  {| tc_id := id;
     tc_type := "function";
     tc_function := {| fn_name := name; fn_arguments := arguments |} |}.

(** The [tool_calls] value of a delta that carries one fragment. *)
Definition one_fragment (id : string) (piece : string * string) : json :=
  JArr [fragment_json id piece.1 piece.2].

(** The name pieces and the argument pieces of a run of fragments, each
    put together in the order of the fragments. *)
Definition names (pieces : list (string * string)) : string :=
  foldr String.append "" (fst <$> pieces).

Definition arguments_of (pieces : list (string * string)) : string :=
  foldr String.append "" (snd <$> pieces).

(** The arguments of the tool-call example: [{"c":"sf"}]. *)
Definition example_arguments : string := quoted "{'c':'sf'}".

(** A tool call is complete when it has a name and arguments. *)
Definition complete (name arguments : string) : bool :=
  negb (String.eqb name "") && negb (String.eqb arguments "").

Section feeding.
Context `{Platform}.

(** The tool-call state after a run of deltas, given by their
    [tool_calls] values. *)
Fixpoint feed_deltas (st : agg_state) (deltas : list json) : result agg_state :=
  match deltas with
  | [] => Ok st
  | response_tool_calls :: deltas' =>
      st' ← merge_tool_calls st response_tool_calls; feed_deltas st' deltas'
  end.

(** An event in the middle of a turn: its data decode, its delta has the
    given [tool_calls] value and a content that passes validation, and its
    finish reason is the empty text. *)
Definition carries (ev : event) (response_tool_calls : json) : Prop :=
  exists d c,
    decode_event ev = Ok (Some d) /\
    d_response_tool_calls d = response_tool_calls /\
    d_finish_reason d = JStr "" /\
    content_field (d_message_content d) = Some c.

End feeding.

(** The lines of the round-trip example: [data: {"a":1}], a blank line,
    [data: line1], [data: line2], a blank line. *)
Definition example_lines : list string :=
  ["data: {" +:+ dquote +:+ "a" +:+ dquote +:+ ":1}"; ""; "data: line1"; "data: line2"; ""].

(** The event of one data line, as the parser yields it. *)
Definition data_event (line_value : string) : event := {["data" := SStr line_value]}.

(** The events of the tool-call example: two fragments of the call with id
    [1], then the end of the turn. *)
Definition example_fragment_1 : event :=
  data_event (quoted " {'choices':[{'delta':{'content':'hi','tool_calls':[{'id':'1','function':{'name':'get_','arguments':''}}]}}]}").

Definition example_fragment_2 : event :=
  data_event (quoted " {'choices':[{'delta':{'tool_calls':[{'id':'1','function':{'name':'weather','arguments':'{\'c\':\'sf\'}'}}]}}]}").

Definition example_finish : event :=
  data_event (quoted " {'choices':[{'delta':{'content':''},'finish_reason':'tool_calls'}],'usage':{'prompt_tokens':3,'completion_tokens':4}}").

(** A chunk without finish reason, and a terminal chunk. *)
Definition plain_chunk {U} (model_ : string) (prompt_messages_ : list PromptMessage)
    (index_ : nat) (c : content) : LLMResultChunk U :=
  {| model := model_;
     prompt_messages := prompt_messages_;
     delta := {| index := index_;
                 role := None;
                 message := {| am_role := ASSISTANT; am_content := c;
                               am_tool_calls := [] |};
                 usage := None;
                 finish_reason := None |} |}.

Definition terminal_chunk {U} (model_ : string) (prompt_messages_ : list PromptMessage)
    (index_ : nat) (role_ : json) (c : content) (calls : list ToolCall)
    (usage_ : U) (finish_reason_ : string) : LLMResultChunk U :=
  {| model := model_;
     prompt_messages := prompt_messages_;
     delta := {| index := index_;
                 role := Some role_;
                 message := {| am_role := ASSISTANT; am_content := c;
                               am_tool_calls := calls |};
                 usage := Some usage_;
                 finish_reason := Some finish_reason_ |} |}.

(** The number of blank lines. *)
Definition count_blank (lines : list string) : nat :=
  List.length (List.filter (fun line => String.eqb line "") lines).

(** The [Arguments] value of a serialized tool call. *)
Definition wire_arguments (tool_call_dict_ : json) : option json :=
  match tool_call_dict_ with
  | JObj items =>
      match assoc_get "Function" items with
      | Some (JObj fitems) => assoc_get "Arguments" fitems
      | _ => None
      end
  | _ => None
  end.

Definition is_2xx (status : Z) : Prop := (200 <= status < 300)%Z.

(** * Vocabulary of the further statements *)

(** A response with other lines. *)
Definition with_lines (resp : response) (lines : list string) : response :=
  {| status_code := status_code resp; text := text resp; iter_lines := lines |}.



(** The data lines of the values [vs]. *)
Definition data_lines (vs : list string) : list string :=
  (fun v => "data:" +:+ v) <$> vs.

(** A value without a length: [len] raises [TypeError] on it. *)
Definition lengthless (j : json) : Prop :=
  match j with
  | JStr _ | JArr _ | JObj _ => False
  | _ => True
  end.

(** A message that the mapper can convert: a user message has a content,
    and the result of a tool message can be encoded. *)
Definition convertible `{Platform} (message_ : PromptMessage) : Prop :=
  match message_ with
  | UserPromptMessage _ CNone => False
  | ToolPromptMessage _ c _ =>
      exists content_, json_dumps false (JObj [("result", content_value c)]) = Ok content_
  | _ => True
  end.

(** The headers of the validation request. *)
Definition validate_headers (api_key : string) : list (string * string) :=
  [("Authorization", "Bearer " +:+ api_key); ("Content-Type", "application/json")].

(** The [Authorization] header that a server holding the secret expects
    for a request: the header of the specification, computed from the
    [Host], [X-TC-Action] and [X-TC-Timestamp] headers and the body that
    it received. *)
Definition expected_authorization `{SignerRuntime} (secret_id_ secret_key_ service_ : string)
    (headers : list (string * json)) (body : string) : option string :=
  match assoc_get "Host" headers, assoc_get "X-TC-Action" headers,
        assoc_get "X-TC-Timestamp" headers with
  | Some (JStr host), Some (JStr action), Some (JInt timestamp) =>
      match utc_date timestamp with
      | Ok date =>
          Some (spec_header "TC3-HMAC-SHA256" secret_id_ secret_key_ service_
                  timestamp date host action body)
      | Err _ => None
      end
  | _, _, _ => None
  end.

(** A parameter that is given and is not empty. *)
Definition present (v : option json) : bool :=
  match v with Some j => truthy j | None => false end.

(** The same for a credential. *)
Definition present_text (v : option string) : bool :=
  match v with Some s => negb (String.eqb s "") | None => false end.

(** The message for the first of the seven inputs of the log search that
    is missing, in the order secret id, secret key, topic, query, region,
    from, to. *)
Definition first_missing (credentials : gmap string string)
    (tool_parameters : gmap string json) : option string :=
  snd <$> List.find (fun c : bool * string => negb c.1)
    [(present_text (credentials !! "secret_id"), "invalid tencent cls secret_id");
     (present_text (credentials !! "secret_key"), "invalid tencent cls secret_key");
     (present (tool_parameters !! "topicid"), "Please input topicid");
     (present (tool_parameters !! "query"), "Please input query");
     (present (tool_parameters !! "region"), "Please input region");
     (present (tool_parameters !! "from"), "Please input from");
     (present (tool_parameters !! "to"), "Please input to")].

(** A log search of one hour, with its client and its payload. *)
Definition example_credentials : gmap string string :=
  {["secret_id" := "AKIDEXAMPLE"; "secret_key" := "secretEXAMPLE"]}.

Definition example_parameters : gmap string json :=
  {["topicid" := JStr "topic-1"; "query" := JStr "*"; "region" := JStr "ap-guangzhou";
    "from" := JStr "2024-01-01T00:00:00Z"; "to" := JStr "2024-01-01T01:00:00Z"]}.

Definition example_client : YunApiClient :=
  new_YunApiClient "cls.tencentcloudapi.com" "cls" "2020-10-16"
    "AKIDEXAMPLE" "secretEXAMPLE" (JStr "ap-guangzhou") None.

Definition example_payload : json :=
  JObj [("TopicId", JStr "topic-1"); ("From", JInt 1704067200000);
        ("To", JInt 1704070800000); ("Query", JStr "*");
        ("Sort", JStr "asc"); ("Limit", JInt 150)].

(** The runtime of the example: the clock shows 2024-01-01 00:46:40 UTC. *)
Definition example_runtime (answer : result string) : ToolRuntime :=
  Host.runtime 1704070000 answer.

Definition example_error_reply : string :=
  quoted "{'Response': {'Error': {'Code': 'AuthFailure', 'Message': 'bad key'}, 'RequestId': 'r1'}}".

Definition example_results_reply : string :=
  quoted "{'Response': {'Results': [{'Time': 1}], 'RequestId': 'r1'}}".

(** The same client on behalf of a user, and what it sends for the
    payload of the example. *)
Definition example_user_client : YunApiClient :=
  new_YunApiClient "cls.tencentcloudapi.com" "cls" "2020-10-16"
    "AKIDEXAMPLE" "secretEXAMPLE" (JStr "ap-guangzhou") (Some "100001").

Definition example_sent : list (string * json) * string :=
  Eval vm_compute in
    match @send_request Reference.offline Crypto.runtime (example_runtime (Ok "{}"))
            example_user_client "SearchLog" example_payload with
    | Ok sent => sent
    | Err _ => ([], "")
    end.

(** * Properties *)

(** ** Generators *)

Section generator_facts.
Context {S I O : Type}.
Variable body : nat -> S -> I -> result (S * option O).

Lemma gen_loop_cons_skip index s s' x xs :
  body index s x = Ok (s', None) ->
  gen_loop body index s (x :: xs) = gen_loop body (Datatypes.S index) s' xs.
Proof. intros Hb. simpl. by rewrite Hb. Qed.

Lemma gen_loop_cons_yield index s s' o x xs :
  body index s x = Ok (s', Some o) ->
  gen_loop body index s (x :: xs)
  = (o :: (gen_loop body (Datatypes.S index) s' xs).1,
     (gen_loop body (Datatypes.S index) s' xs).2).
Proof.
  intros Hb. simpl. rewrite Hb.
  by destruct (gen_loop body (Datatypes.S index) s' xs).
Qed.

Lemma gen_loop_cons_raise index s e x xs :
  body index s x = Err e ->
  gen_loop body index s (x :: xs) = ([], Some e).
Proof. intros Hb. simpl. by rewrite Hb. Qed.

(** A loop that ends without an exception has a final state, and the loop
    over a longer input continues from it. *)
Lemma gen_loop_app index s xs os :
  gen_loop body index s xs = (os, None) ->
  exists s', gen_state body index s xs = Ok s' /\
    forall ys,
      gen_loop body index s (xs ++ ys)
      = (os ++ (gen_loop body (index + List.length xs) s' ys).1,
         (gen_loop body (index + List.length xs) s' ys).2).
Proof.
  revert index s os. induction xs as [|x xs IH]; intros index s os Hrun.
  - simpl in Hrun. injection Hrun as <-. exists s. split; [done|].
    intros ys. rewrite Nat.add_0_r. cbn [app List.app].
    by destruct (gen_loop body index s ys).
  - destruct (body index s x) as [[s1 [o|]]|e] eqn:Hb.
    + rewrite (gen_loop_cons_yield _ _ _ _ _ _ Hb) in Hrun.
      destruct (gen_loop body (Datatypes.S index) s1 xs) as [os1 r1] eqn:Hrest.
      simpl in Hrun. injection Hrun as <- ->.
      destruct (IH _ _ _ Hrest) as (s' & Hst & Happ).
      exists s'. split; [cbn; by rewrite Hb|]. intros ys.
      rewrite <- app_comm_cons, (gen_loop_cons_yield _ _ _ _ _ _ Hb), Happ.
      cbn [fst snd List.length]. by rewrite Nat.add_succ_r.
    + rewrite (gen_loop_cons_skip _ _ _ _ _ Hb) in Hrun.
      destruct (IH _ _ _ Hrun) as (s' & Hst & Happ).
      exists s'. split; [cbn; by rewrite Hb|]. intros ys.
      rewrite <- app_comm_cons, (gen_loop_cons_skip _ _ _ _ _ Hb), Happ.
      cbn [List.length]. by rewrite Nat.add_succ_r.
    + rewrite (gen_loop_cons_raise _ _ _ _ _ Hb) in Hrun. discriminate.
Qed.

(** When every yielded value records the index of its iteration, the
    yielded values are in index order and each comes from the input element
    at its index. *)
Lemma gen_loop_indexed (idx : O -> nat) (P : I -> O -> Prop) :
  (forall i s x s' o, body i s x = Ok (s', Some o) -> idx o = i /\ P x o) ->
  forall xs base s,
    Forall (fun o => base <= idx o /\
                     exists x, xs !! (idx o - base) = Some x /\ P x o)
           (gen_loop body base s xs).1
    /\ StronglySorted lt (idx <$> (gen_loop body base s xs).1).
Proof.
  intros Hbody. induction xs as [|x xs IH]; intros base s.
  - simpl. split; constructor.
  - destruct (body base s x) as [[s1 [o|]]|e] eqn:Hb.
    + rewrite (gen_loop_cons_yield _ _ _ _ _ _ Hb). cbn [fst].
      destruct (IH (Datatypes.S base) s1) as [Hall Hsorted].
      destruct (Hbody _ _ _ _ _ Hb) as [Hidx HP].
      split.
      * constructor.
        -- split; [lia|]. exists x. rewrite Hidx, Nat.sub_diag. done.
        -- eapply Forall_impl; [exact Hall|].
           intros o' (Hle & x' & Hlook & HP'). split; [lia|].
           exists x'. split; [|done].
           replace (idx o' - base) with (Datatypes.S (idx o' - Datatypes.S base)) by lia.
           done.
      * rewrite fmap_cons. constructor; [done|].
        rewrite Forall_fmap. eapply Forall_impl; [exact Hall|].
        intros o' [Hle _]. simpl. lia.
    + rewrite (gen_loop_cons_skip _ _ _ _ _ Hb).
      destruct (IH (Datatypes.S base) s1) as [Hall Hsorted].
      split; [|done].
      eapply Forall_impl; [exact Hall|].
      intros o' (Hle & x' & Hlook & HP'). split; [lia|].
      exists x'. split; [|done].
      replace (idx o' - base) with (Datatypes.S (idx o' - Datatypes.S base)) by lia.
      done.
    + rewrite (gen_loop_cons_raise _ _ _ _ _ Hb). simpl. split; constructor.
Qed.

End generator_facts.

(** ** The SSE parser *)

Section sse_facts.
Context `{Platform}.

Lemma eqb_empty_false (line : string) : line <> "" -> String.eqb line "" = false.
Proof. intros Hne. by apply String.eqb_neq. Qed.

Lemma sse_line_blank index e : sse_line index e "" = Ok (∅, Some e).
Proof. reflexivity. Qed.

(** A line that is not blank yields nothing. *)
Lemma sse_line_nonblank index e line e' ev :
  line <> "" -> sse_line index e line = Ok (e', Some ev) -> False.
Proof.
  intros Hne. unfold sse_line. rewrite (eqb_empty_false _ Hne).
  unfold decode_utf8. destruct (utf8_wf _); [|discriminate]. cbn.
  destruct (String.prefix ":" line); [discriminate|].
  destruct (split_field line) as [key val].
  destruct (String.eqb key "data").
  { destruct (e !! "data") as [[d|z]|]; discriminate. }
  destruct (String.eqb key "event" || String.eqb key "id"); [discriminate|].
  destruct (String.eqb key "retry"); [|discriminate].
  destruct (py_int val); discriminate.
Qed.

Lemma sse_nonblank_silent tail :
  Forall (fun line => line <> "") tail ->
  forall index e, (gen_loop sse_line index e tail).1 = [].
Proof.
  induction 1 as [|line tail Hne _ IH]; intros index e; [done|].
  destruct (sse_line index e line) as [[e' [ev|]]|err] eqn:Hline.
  - destruct (sse_line_nonblank _ _ _ _ _ Hne Hline).
  - rewrite (gen_loop_cons_skip _ _ _ _ _ _ Hline). apply IH.
  - by rewrite (gen_loop_cons_raise _ _ _ _ _ _ Hline).
Qed.

Lemma sse_tail_dropped pre tail :
  Forall (fun line => line <> "") tail ->
  forall index e,
    (gen_loop sse_line index e (pre ++ tail)).1 = (gen_loop sse_line index e pre).1.
Proof.
  intros Htail. induction pre as [|line pre IH]; intros index e.
  - cbn [app List.app]. by rewrite sse_nonblank_silent.
  - rewrite <- app_comm_cons.
    destruct (sse_line index e line) as [[e' [ev|]]|err] eqn:Hline.
    + rewrite !(gen_loop_cons_yield _ _ _ _ _ _ _ Hline). cbn [fst]. by rewrite IH.
    + rewrite !(gen_loop_cons_skip _ _ _ _ _ _ Hline). apply IH.
    + by rewrite !(gen_loop_cons_raise _ _ _ _ _ _ Hline).
Qed.

Lemma count_blank_cons line lines :
  count_blank (line :: lines)
  = (if String.eqb line "" then 1 else 0) + count_blank lines.
Proof. unfold count_blank. cbn [List.filter]. by destruct (String.eqb line ""). Qed.

(** One event per blank line read; an exception comes from a line that is
    not blank. *)
Lemma sse_event_count lines :
  forall index e,
    match (gen_loop sse_line index e lines).2 with
    | None => List.length (gen_loop sse_line index e lines).1 = count_blank lines
    | Some _ =>
        exists n line,
          lines !! n = Some line /\ line <> "" /\
          List.length (gen_loop sse_line index e lines).1 = count_blank (take n lines)
    end.
Proof.
  induction lines as [|line lines IH]; intros index e; [done|].
  destruct (String.eqb_spec line "") as [->|Hne].
  - rewrite (gen_loop_cons_yield _ _ _ _ _ _ _ (sse_line_blank index e)).
    cbn [fst snd]. specialize (IH (Datatypes.S index) ∅).
    destruct (gen_loop sse_line (Datatypes.S index) ∅ lines).2.
    + destruct IH as (n & l & Hl & Hne & Hlen).
      exists (Datatypes.S n), l. split; [done|]. split; [done|].
      cbn [take List.length]. rewrite count_blank_cons. cbn. by rewrite Hlen.
    + rewrite count_blank_cons. cbn. by rewrite IH.
  - destruct (sse_line index e line) as [[e' [ev|]]|err] eqn:Hline.
    + destruct (sse_line_nonblank _ _ _ _ _ Hne Hline).
    + rewrite (gen_loop_cons_skip _ _ _ _ _ _ Hline).
      specialize (IH (Datatypes.S index) e').
      destruct (gen_loop sse_line (Datatypes.S index) e' lines).2.
      * destruct IH as (n & l & Hl & Hne' & Hlen).
        exists (Datatypes.S n), l. split; [done|]. split; [done|].
        cbn [take]. rewrite count_blank_cons, (eqb_empty_false _ Hne). by rewrite Hlen.
      * rewrite count_blank_cons, (eqb_empty_false _ Hne). by rewrite IH.
    + rewrite (gen_loop_cons_raise _ _ _ _ _ _ Hline). cbn [fst snd].
      exists 0, line. done.
Qed.

End sse_facts.

Lemma str_find_app_colon key rest :
  str_find colon key = None ->
  str_find colon (key +:+ String colon rest) = Some (String.length key).
Proof.
  induction key as [|a key IH]; intros Hfind.
  - done.
  - simpl in Hfind |- *.
    destruct (Ascii.eqb a colon); [discriminate|].
    destruct (str_find colon key) eqn:Hk; [discriminate|]. by rewrite IH.
Qed.

Lemma str_take_app key rest : str_take (String.length key) (key +:+ rest) = key.
Proof. induction key as [|a key IH]; simpl; [by destruct rest|by rewrite IH]. Qed.

Lemma str_drop_app key rest : str_drop (String.length key) (key +:+ rest) = rest.
Proof. induction key as [|a key IH]; simpl; [by destruct rest|done]. Qed.

(** A line with a colon splits at the first one; the value is everything
    after it. *)
Lemma split_field_colon key val :
  str_find colon key = None -> split_field (key +:+ ":" +:+ val) = (key, val).
Proof.
  intros Hfind. unfold split_field.
  change (key +:+ ":" +:+ val) with (key +:+ String colon val).
  rewrite (str_find_app_colon _ _ Hfind), str_take_app.
  f_equal. clear Hfind. induction key as [|a key IH]; [done|]. exact IH.
Qed.

Lemma count_blank_app pre tail :
  count_blank (pre ++ tail) = count_blank pre + count_blank tail.
Proof. unfold count_blank. by rewrite List.filter_app, List.length_app. Qed.

Lemma count_blank_nonblank tail :
  Forall (fun line => line <> "") tail -> count_blank tail = 0.
Proof.
  induction 1 as [|line tail Hne _ IH]; [done|].
  unfold count_blank in *. cbn [List.filter]. by rewrite (eqb_empty_false _ Hne).
Qed.

(** C5: when the lines after the last blank line hold no blank line, the
    parser yields what it yields without them (the event under
    construction is dropped), and it yields one event per blank line: as
    many events as the line source has blank lines when it ends without an
    exception, as many as were read before the failing line otherwise. *)
Theorem sse_trailing_event_dropped `{Platform} (resp : response)
    (pre tail : list string) :
  iter_lines resp = pre ++ tail ->
  Forall (fun line => line <> "") tail ->
  (_process_response_sse resp).1
  = (_process_response_sse
       {| status_code := status_code resp; text := text resp; iter_lines := pre |}).1
  /\ count_blank (iter_lines resp) = count_blank pre
  /\ match (_process_response_sse resp).2 with
     | None =>
         List.length (_process_response_sse resp).1 = count_blank (iter_lines resp)
     | Some _ =>
         exists n line,
           iter_lines resp !! n = Some line /\ line <> "" /\
           List.length (_process_response_sse resp).1
           = count_blank (take n (iter_lines resp))
     end.
Proof.
  intros Hlines Htail. unfold _process_response_sse. cbn [iter_lines].
  split; [|split].
  - rewrite Hlines. by apply sse_tail_dropped.
  - rewrite Hlines, count_blank_app, (count_blank_nonblank _ Htail). lia.
  - apply sse_event_count.
Qed.

Lemma sse_trailing_event_dropped_witness :
  let resp := {| status_code := 200; text := "";
                 iter_lines := ["data: a"; ""; "data: b"] |} in
  (@_process_response_sse Reference.offline resp).1
  = (@_process_response_sse Reference.offline
       {| status_code := 200; text := ""; iter_lines := ["data: a"; ""] |}).1
  /\ count_blank (iter_lines resp) = 1
  /\ List.length (@_process_response_sse Reference.offline resp).1 = 1.
Proof.
  intros resp.
  destruct (@sse_trailing_event_dropped Reference.offline resp
              ["data: a"; ""] ["data: b"]) as (Hdrop & Hcount & Hlen).
  - reflexivity.
  - repeat constructor. discriminate.
  - split; [exact Hdrop|]. split; [exact Hcount|]. exact Hlen.
Defined.

(** C4, as the code has it: a line that is not blank, is not a comment and
    contains a colon is split at the first colon; the value is everything
    after the colon, a leading space included; the values of the data lines
    of one event are joined by a line feed.  The example lines yield two
    events, whose data are [ {"a":1}] and [ line1\n line2], each value
    keeping the space that follows the colon. *)
Theorem sse_value_verbatim `{Platform} :
  (forall index (e : event) key val line,
      line = key +:+ ":" +:+ val ->
      str_find colon key = None ->
      String.prefix ":" line = false ->
      decode_utf8 line = Ok line ->
      split_field line = (key, val) /\
      (key = "data" -> e !! "data" = None ->
       sse_line index e line = Ok (<["data" := SStr val]> e, None)) /\
      (key = "data" -> forall d, e !! "data" = Some (SStr d) ->
       sse_line index e line = Ok (<["data" := SStr (d +:+ nl +:+ val)]> e, None)))
  /\ (forall resp,
        iter_lines resp = example_lines ->
        _process_response_sse resp
        = ([ {["data" := SStr (" {" +:+ dquote +:+ "a" +:+ dquote +:+ ":1}")]};
             {["data" := SStr (" line1" +:+ nl +:+ " line2")]} ], None)).
Proof.
  split.
  - intros index e key val line -> Hfind Hcomment Hdecode.
    pose proof (split_field_colon key val Hfind) as Hsplit.
    split; [done|].
    assert (Hblank : String.eqb (key +:+ ":" +:+ val) "" = false).
    { destruct key; [discriminate Hcomment || done|done]. }
    split.
    + intros -> He. unfold sse_line.
      rewrite Hblank, Hdecode. cbn [mbind result_bind].
      rewrite Hcomment, Hsplit. cbn [String.eqb Ascii.eqb Bool.eqb].
      by rewrite He.
    + intros -> d He. unfold sse_line.
      rewrite Hblank, Hdecode. cbn [mbind result_bind].
      rewrite Hcomment, Hsplit. cbn [String.eqb Ascii.eqb Bool.eqb].
      by rewrite He.
  - intros resp Hlines. unfold _process_response_sse. rewrite Hlines.
    vm_compute. reflexivity.
Qed.

Lemma sse_value_verbatim_witness :
  split_field "data: x" = ("data", " x")
  /\ @sse_line Reference.offline 0 ∅ "data: x" = Ok (<["data" := SStr " x"]> ∅, None)
  /\ @_process_response_sse Reference.offline
       {| status_code := 200; text := ""; iter_lines := example_lines |}
     = ([ {["data" := SStr (" {" +:+ dquote +:+ "a" +:+ dquote +:+ ":1}")]};
          {["data" := SStr (" line1" +:+ nl +:+ " line2")]} ], None).
Proof.
  destruct (@sse_value_verbatim Reference.offline) as [Hline Hexample].
  destruct (Hline 0 ∅ "data" " x" "data: x") as (Hsplit & Hfirst & _);
    [reflexivity | reflexivity | reflexivity | reflexivity |].
  split; [exact Hsplit|]. split; [by apply Hfirst|].
  by apply Hexample.
Defined.

(** C4, as the claim has it, fails on the example lines: the events do not
    hold the data [{"a":1}] and [line1\nline2] with the space trimmed. *)
Lemma sse_example_not_trimmed :
  @_process_response_sse Reference.offline
    {| status_code := 200; text := ""; iter_lines := example_lines |}
  <> ([ {["data" := SStr ("{" +:+ dquote +:+ "a" +:+ dquote +:+ ":1}")]};
        {["data" := SStr ("line1" +:+ nl +:+ "line2")]} ], None).
Proof.
  intros Heq.
  apply (f_equal (fun t : trace event => t.1 !! 0 ≫= fun e => e !! "data")) in Heq.
  vm_compute in Heq. discriminate Heq.
Qed.

(** ** The streaming aggregator *)

Section aggregator_facts.
Context `{Platform}.
Variables (model_ : string) (credentials : gmap string string)
          (prompt_messages_ : list PromptMessage).

Lemma stream_event_missing_data index st (ev : event) :
  ev !! "data" = None ->
  stream_event model_ credentials prompt_messages_ index st ev = Err (KeyError "data").
Proof.
  intros Hdata. unfold stream_event, decode_event, event_data. by rewrite Hdata.
Qed.

Lemma handle_stream_fst (evs : list event) (perr : option exn) :
  (_handle_stream_chat_response model_ credentials prompt_messages_ (evs, perr)).1
  = (gen_loop (stream_event model_ credentials prompt_messages_) 0 agg_init evs).1.
Proof.
  unfold _handle_stream_chat_response, feed. cbn [fst snd].
  by destruct (gen_loop _ 0 agg_init evs) as [os [e|]].
Qed.

Lemma handle_stream_clean (evs : list event) chunks :
  _handle_stream_chat_response model_ credentials prompt_messages_ (evs, None)
  = (chunks, None) ->
  gen_loop (stream_event model_ credentials prompt_messages_) 0 agg_init evs
  = (chunks, None).
Proof.
  unfold _handle_stream_chat_response, feed. cbn [fst snd].
  destruct (gen_loop _ 0 agg_init evs) as [os [e|]]; [discriminate|done].
Qed.

End aggregator_facts.

Lemma sse_line_retry `{Platform} index (e : event) n :
  py_int " 5" = Ok n ->
  sse_line index e "retry: 5" = Ok (<["retry" := SInt n]> e, None).
Proof.
  intros Hint. unfold sse_line.
  change (decode_utf8 "retry: 5") with (Ok "retry: 5"). cbn [mbind result_bind].
  change (String.eqb "retry: 5" "") with false.
  change (String.prefix ":" "retry: 5") with false.
  change (split_field "retry: 5") with ("retry", " 5").
  cbv iota beta.
  change (String.eqb "retry" "data") with false.
  change (String.eqb "retry" "event" || String.eqb "retry" "id") with false.
  change (String.eqb "retry" "retry") with true.
  cbv iota. by rewrite Hint.
Qed.

(** C10: the parser yields events without a data field (from two blank
    lines in a row, from a comment before a blank line, from event, id and
    retry lines before a blank line), and the aggregator, which reads
    [event["data"]] first, ends with [KeyError] at the first such event:
    the chunks of the events before it are all it yields. *)
Theorem missing_data_is_fatal `{Platform} :
  (forall resp,
      iter_lines resp = [""; ""] ->
      _process_response_sse resp = ([∅; ∅], None))
  /\ (forall resp,
        iter_lines resp = [": keep-alive"; ""] ->
        _process_response_sse resp = ([∅], None))
  /\ (forall resp n,
        iter_lines resp = ["event: x"; "id: 7"; "retry: 5"; ""] ->
        py_int " 5" = Ok n ->
        exists ev : event,
          _process_response_sse resp = ([ev], None) /\ ev !! "data" = None)
  /\ (forall model_ credentials prompt_messages_ pre (ev : event) post perr chunks,
        ev !! "data" = None ->
        _handle_stream_chat_response model_ credentials prompt_messages_ (pre, None)
        = (chunks, None) ->
        _handle_stream_chat_response model_ credentials prompt_messages_
          (pre ++ ev :: post, perr)
        = (chunks, Some (KeyError "data"))).
Proof.
  split; [|split; [|split]].
  - intros resp Hlines. unfold _process_response_sse. by rewrite Hlines.
  - intros resp Hlines. unfold _process_response_sse. by rewrite Hlines.
  - intros resp n Hlines Hint. unfold _process_response_sse. rewrite Hlines.
    exists (<["retry" := SInt n]> (<["id" := SStr " 7"]> {["event" := SStr " x"]})).
    split.
    + rewrite (gen_loop_cons_skip sse_line 0 ∅ {["event" := SStr " x"]});
        [|reflexivity].
      rewrite (gen_loop_cons_skip sse_line 1 _ (<["id" := SStr " 7"]> {["event" := SStr " x"]}));
        [|reflexivity].
      rewrite (gen_loop_cons_skip sse_line 2 _
                 (<["retry" := SInt n]> (<["id" := SStr " 7"]> {["event" := SStr " x"]}))).
      * reflexivity.
      * by apply sse_line_retry.
    + rewrite lookup_insert_ne by done. rewrite lookup_insert_ne by done.
      by rewrite lookup_singleton_ne.
  - intros model_ credentials prompt_messages_ pre ev post perr chunks Hdata Hpre.
    apply handle_stream_clean in Hpre.
    destruct (gen_loop_app _ _ _ _ _ Hpre) as (st & _ & Happ).
    unfold _handle_stream_chat_response. cbn [fst snd]. rewrite Happ.
    rewrite (gen_loop_cons_raise _ _ _ _ _ _
               (stream_event_missing_data _ _ _ _ _ _ Hdata)).
    cbn [fst snd feed]. by rewrite app_nil_r.
Qed.

Lemma missing_data_is_fatal_witness :
  (exists ev : event,
      @_process_response_sse Reference.offline
        {| status_code := 200; text := "";
           iter_lines := ["event: x"; "id: 7"; "retry: 5"; ""] |} = ([ev], None)
      /\ ev !! "data" = None)
  /\ @_handle_stream_chat_response Reference.offline "hunyuan" ∅ []
       ([{["data" := SStr "[DONE]"]}] ++ ∅ :: [], None)
     = ([], Some (KeyError "data")).
Proof.
  destruct (@missing_data_is_fatal Reference.offline) as (_ & _ & Hretry & Hfatal).
  split.
  - apply (Hretry _ 5%Z); reflexivity.
  - apply Hfatal; reflexivity.
Defined.

Section tool_call_facts.
Context `{Platform}.

Lemma fragment_json_is_fragment id name arguments :
  is_fragment (fragment_json id name arguments) id name arguments.
Proof. by eexists _, _. Qed.

Lemma extract_fragment fr id name arguments :
  is_fragment fr id name arguments ->
  _extract_response_tool_call fr = Ok (function_call id name arguments).
Proof.
  intros (items & fitems & -> & Hid & Hfun & Hname & Hargs).
  unfold _extract_response_tool_call, py_get.
  rewrite Hfun. cbn [default_or mbind result_bind].
  rewrite Hname, Hargs, Hid. cbn [default_or].
  unfold new_ToolCallFunction, new_ToolCall.
  by rewrite !str_field_str, id_field_str.
Qed.

(** A delta whose [tool_calls] starts with a fragment: the fragment is
    merged into the state, and a complete open call is closed. *)
Lemma merge_fragments fr more rest st id name arguments :
  is_fragment fr id name arguments ->
  mapR _extract_response_tool_call more = Ok rest ->
  merge_tool_calls st (JArr (fr :: more))
  = Ok (complete_tool_call
          (merge_fragment st (function_call id name arguments :: rest))).
Proof.
  intros Hfr Hmore. unfold merge_tool_calls, _extract_response_tool_calls.
  cbn [truthy py_iter mbind result_bind mapR].
  by rewrite (extract_fragment _ _ _ _ Hfr), Hmore.
Qed.

Lemma merge_one_fragment st id piece :
  merge_tool_calls st (one_fragment id piece)
  = Ok (complete_tool_call
          (merge_fragment st [function_call id piece.1 piece.2])).
Proof.
  unfold one_fragment.
  by apply merge_fragments; [apply fragment_json_is_fragment|].
Qed.

Lemma merge_fragment_prefix st new_tool_calls :
  tool_calls st `prefix_of` tool_calls (merge_fragment st new_tool_calls).
Proof.
  unfold merge_fragment. destruct new_tool_calls as [|new_ _]; [done|].
  destruct (tool_call st) as [tc|]; [|done].
  destruct (negb _); cbn [tool_calls]; [by apply prefix_app_r|done].
Qed.

Lemma complete_tool_call_prefix st :
  tool_calls st `prefix_of` tool_calls (complete_tool_call st).
Proof.
  unfold complete_tool_call. destruct (tool_call st) as [tc|]; [|done].
  destruct (_ && _); cbn [tool_calls]; [by apply prefix_app_r|done].
Qed.

(** Completed tool calls stay completed, in their order. *)
Lemma merge_tool_calls_prefix st response_tool_calls st1 :
  merge_tool_calls st response_tool_calls = Ok st1 ->
  tool_calls st `prefix_of` tool_calls st1.
Proof.
  unfold merge_tool_calls. intros Hmerge.
  assert (Hgen : (new_tool_calls ← _extract_response_tool_calls response_tool_calls;
                  Ok (complete_tool_call (merge_fragment st new_tool_calls))) = Ok st1
                 -> tool_calls st `prefix_of` tool_calls st1).
  { destruct (_extract_response_tool_calls response_tool_calls) as [new_|e];
      [|discriminate].
    cbn [mbind result_bind]. intros [= <-].
    etrans; [apply merge_fragment_prefix|apply complete_tool_call_prefix]. }
  destruct response_tool_calls; try (by apply Hgen).
  by injection Hmerge as <-.
Qed.

End tool_call_facts.

Section chunk_facts.
Context `{Platform}.
Variables (model_ : string) (credentials : gmap string string)
          (prompt_messages_ : list PromptMessage).

Lemma str_chars_acc_some c s : str_chars_acc (Some c) s <> [].
Proof.
  revert c. induction s as [|a s IH]; intros c; [done|].
  simpl. destruct (is_continuation a); [apply IH|done].
Qed.

Lemma str_chars_empty s : str_chars s = [] -> s = "".
Proof.
  destruct s as [|a s]; [done|]. unfold str_chars. simpl.
  intros Hnil. by destruct (str_chars_acc_some _ _ Hnil).
Qed.

(** The length test of line 245 separates the texts that are not empty
    from the empty text; a list or a dict does not pass validation. *)
Lemma py_len_positive_str fr n s :
  py_len fr = Ok n -> Nat.ltb 0 n = true -> str_field fr = Some s ->
  fr = JStr s /\ s <> "".
Proof.
  intros Hlen Hpos Hfield. destruct fr as [| | | |t|l|l|];
    try discriminate Hlen.
  - rewrite str_field_str in Hfield. injection Hfield as ->.
    split; [done|]. intros ->. injection Hlen as <-. discriminate Hpos.
  - by rewrite str_field_list in Hfield.
  - by rewrite str_field_dict in Hfield.
Qed.

Lemma py_len_zero_str fr s :
  py_len fr = Ok 0 -> fr = JStr s -> s = "".
Proof.
  intros Hlen ->. injection Hlen as Hlen.
  apply str_chars_empty. by destruct (str_chars s).
Qed.

(** What a yielded chunk says about the iteration that yields it. *)
Lemma emit_chunk_inv index_ st d st' chunk :
  emit_chunk model_ credentials prompt_messages_ index_ st d = Ok (st', chunk) ->
  exists st1 c0 n,
    merge_tool_calls st (d_response_tool_calls d) = Ok st1 /\
    content_field (d_message_content d) = Some c0 /\
    py_len (d_finish_reason d) = Ok n /\
    index (delta chunk) = index_ /\
    am_content (message (delta chunk))
    = (if Nat.ltb 0 (List.length (tool_calls st1)) then CStr "" else c0) /\
    am_tool_calls (message (delta chunk))
    = (if py_eq_str (d_finish_reason d) "tool_calls" then tool_calls st1 else []) /\
    (if Nat.ltb 0 n
     then st' = agg_init /\ is_Some (usage (delta chunk)) /\
          exists s, str_field (d_finish_reason d) = Some s /\
                    finish_reason (delta chunk) = Some s
     else st' = (if py_eq_str (d_finish_reason d) "tool_calls" then agg_init else st1) /\
          usage (delta chunk) = None /\ finish_reason (delta chunk) = None).
Proof.
  unfold emit_chunk.
  destruct (merge_tool_calls st (d_response_tool_calls d)) as [st1|e] eqn:Hmerge;
    [|discriminate].
  cbn [mbind result_bind]. unfold new_AssistantPromptMessage.
  destruct (content_field (d_message_content d)) as [c0|] eqn:Hcontent;
    [|discriminate].
  cbn [validated mbind result_bind].
  destruct (py_len (d_finish_reason d)) as [n|e] eqn:Hlen.
  2:{ by destruct (Nat.ltb 0 (List.length (tool_calls st1))),
               (py_eq_str (d_finish_reason d) "tool_calls"). }
  intros Hemit. exists st1, c0, n. split; [done|]. split; [done|]. split; [done|].
  destruct (Nat.ltb 0 (List.length (tool_calls st1))),
           (py_eq_str (d_finish_reason d) "tool_calls");
    cbn [mbind result_bind] in Hemit;
    (destruct (Nat.ltb 0 n);
     [ destruct (_calc_response_usage _ _ _ _) as [u|e]; [|discriminate];
       cbn [mbind result_bind] in Hemit;
       destruct (py_get (d_delta d) "role" (JStr "assistant")) as [r|e];
         [|discriminate];
       cbn [mbind result_bind] in Hemit;
       destruct (str_field (d_finish_reason d)) as [s|]; [|discriminate];
       cbn [validated mbind result_bind] in Hemit;
       injection Hemit as <- <-; cbn; eauto 10
     | injection Hemit as <- <-; cbn; eauto 10 ]).
Qed.

Lemma stream_event_inv index_ st ev st' chunk :
  stream_event model_ credentials prompt_messages_ index_ st ev = Ok (st', Some chunk) ->
  exists d,
    decode_event ev = Ok (Some d) /\
    emit_chunk model_ credentials prompt_messages_ index_ st d = Ok (st', chunk).
Proof.
  unfold stream_event.
  destruct (decode_event ev) as [[d|]|e]; cbn [mbind result_bind]; [|discriminate..].
  destruct (emit_chunk _ _ _ _ _ _) as [[st1 c]|e] eqn:Hemit;
    cbn [mbind result_bind]; [|discriminate].
  intros [= <- <-]. by exists d.
Qed.

End chunk_facts.

(** C6: an event whose finish reason is [tool_calls] and that is handled
    without an exception yields a chunk with the whole completed list (what
    was completed before, then what this event completes), and leaves
    neither an open tool call nor a completed one: the events after it are
    handled from the empty state. *)
Theorem tool_calls_turn_isolated `{Platform} model_ credentials prompt_messages_
    (pre : list event) (ev : event) (rest : list event) perr chunks_pre d st st' chunk :
  _handle_stream_chat_response model_ credentials prompt_messages_ (pre, None)
  = (chunks_pre, None) ->
  gen_state (stream_event model_ credentials prompt_messages_) 0 agg_init pre = Ok st ->
  decode_event ev = Ok (Some d) ->
  d_finish_reason d = JStr "tool_calls" ->
  stream_event model_ credentials prompt_messages_ (List.length pre) st ev
  = Ok (st', Some chunk) ->
  st' = agg_init
  /\ (exists st1,
        merge_tool_calls st (d_response_tool_calls d) = Ok st1 /\
        am_tool_calls (message (delta chunk)) = tool_calls st1 /\
        tool_calls st `prefix_of` tool_calls st1)
  /\ _handle_stream_chat_response model_ credentials prompt_messages_
       (pre ++ ev :: rest, perr)
     = feed (chunks_pre ++ chunk ::
               (gen_loop (stream_event model_ credentials prompt_messages_)
                  (Datatypes.S (List.length pre)) agg_init rest).1,
             (gen_loop (stream_event model_ credentials prompt_messages_)
                (Datatypes.S (List.length pre)) agg_init rest).2) perr.
Proof.
  intros Hpre Hst Hdecode Hfinish Hstep.
  destruct (stream_event_inv _ _ _ _ _ _ _ _ Hstep) as (d' & Hdecode' & Hemit).
  rewrite Hdecode in Hdecode'. injection Hdecode' as <-.
  destruct (emit_chunk_inv _ _ _ _ _ _ _ _ Hemit)
    as (st1 & c0 & n & Hmerge & _ & Hlen & _ & _ & Hcalls & Hend).
  rewrite Hfinish in Hcalls, Hend, Hlen. cbn in Hcalls, Hlen.
  assert (Hreset : st' = agg_init).
  { destruct (Nat.ltb 0 n); [by destruct Hend|]. by destruct Hend as [-> _]. }
  split; [done|]. split.
  - exists st1. split; [done|]. split; [done|].
    by eapply merge_tool_calls_prefix.
  - apply handle_stream_clean in Hpre.
    destruct (gen_loop_app _ _ _ _ _ Hpre) as (st0 & Hst0 & Happ).
    rewrite Hst in Hst0. injection Hst0 as <-.
    unfold _handle_stream_chat_response. cbn [fst snd]. rewrite Happ.
    cbn [Nat.add]. rewrite (gen_loop_cons_yield _ _ _ _ _ _ _ Hstep).
    cbn [fst snd]. by rewrite Hreset.
Qed.

Lemma tool_calls_turn_isolated_witness :
  let chunk :=
    terminal_chunk "hunyuan" [] 2 (JStr "assistant") (CStr "")
      [function_call "1" "get_weather" "{}"]
      {| Reference.prompt_tokens := JInt 3; Reference.completion_tokens := JInt 4 |}
      "tool_calls" in
  @stream_event Reference.offline "hunyuan" ∅ [] 2
    {| tool_call := None; tool_calls := [function_call "1" "get_weather" "{}"] |}
    example_finish
  = Ok (agg_init, Some chunk)
  /\ am_tool_calls (message (delta chunk)) = [function_call "1" "get_weather" "{}"].
Proof.
  intros chunk.
  pose (second := data_event (quoted " {'choices':[{'delta':{'tool_calls':[{'id':'1','function':{'name':'weather','arguments':'{}'}}]}}]}")).
  pose (st := {| tool_call := None;
                 tool_calls := [function_call "1" "get_weather" "{}"] |}).
  pose (d := {| d_delta := JObj [("content", JStr "")];
                d_message_content := JStr "";
                d_finish_reason := JStr "tool_calls";
                d_prompt_tokens := JInt 3;
                d_completion_tokens := JInt 4;
                d_response_tool_calls := JNull |}).
  assert (Hstep : @stream_event Reference.offline "hunyuan" ∅ [] 2 st example_finish
                  = Ok (agg_init, Some chunk)) by (vm_compute; reflexivity).
  destruct (@tool_calls_turn_isolated Reference.offline "hunyuan" ∅ []
              [example_fragment_1; second] example_finish [] None
              [plain_chunk "hunyuan" [] 0 (CStr "hi"); plain_chunk "hunyuan" [] 1 (CStr "")]
              d st agg_init chunk)
    as (_ & (st1 & Hmerge & Hcalls & _) & _).
  - vm_compute; reflexivity.
  - vm_compute; reflexivity.
  - vm_compute; reflexivity.
  - reflexivity.
  - exact Hstep.
  - split; [exact Hstep|]. etrans; [exact Hcalls|].
    vm_compute in Hmerge. injection Hmerge as <-. reflexivity.
Defined.

Section chunk_claims.
Context `{Platform}.
Variables (model_ : string) (credentials : gmap string string)
          (prompt_messages_ : list PromptMessage).

(** A yielded chunk records the index of its event, and carries a usage
    exactly when the finish reason of the event is a text that is not
    empty. *)
Lemma stream_event_chunk index_ st ev st' chunk :
  stream_event model_ credentials prompt_messages_ index_ st ev = Ok (st', Some chunk) ->
  index (delta chunk) = index_ /\
  exists d,
    decode_event ev = Ok (Some d) /\
    (is_Some (usage (delta chunk)) <-> exists s, d_finish_reason d = JStr s /\ s <> "").
Proof.
  intros Hstep.
  destruct (stream_event_inv _ _ _ _ _ _ _ _ Hstep) as (d & Hdecode & Hemit).
  destruct (emit_chunk_inv _ _ _ _ _ _ _ _ Hemit)
    as (st1 & c0 & n & _ & _ & Hlen & Hindex & _ & _ & Hend).
  split; [done|]. exists d. split; [done|].
  destruct (Nat.ltb 0 n) eqn:Hpos.
  - destruct Hend as (_ & Husage & s & Hfield & _).
    destruct (py_len_positive_str _ _ _ Hlen Hpos Hfield) as [Hstr Hne].
    split; [intros _; by exists s|done].
  - destruct Hend as (_ & Husage & _). rewrite Husage.
    assert (n = 0) as -> by (apply Nat.ltb_ge in Hpos; lia).
    split; [by intros [u Hu]|].
    intros (s & Hstr & Hne). destruct Hne. by eapply py_len_zero_str.
Qed.

End chunk_claims.

(** C9: every chunk of the stream carries a usage exactly when the finish
    reason of its event is a text that is not empty, its index is the
    position of that event among the events, and the chunks come in the
    order of these positions. *)
Theorem usage_on_terminal_and_index_order `{Platform} model_ credentials
    prompt_messages_ (evs : list event) (perr : option exn) :
  Forall (fun chunk =>
            exists (ev : event) d,
              evs !! index (delta chunk) = Some ev /\
              decode_event ev = Ok (Some d) /\
              (is_Some (usage (delta chunk))
               <-> exists s, d_finish_reason d = JStr s /\ s <> ""))
    (_handle_stream_chat_response model_ credentials prompt_messages_ (evs, perr)).1
  /\ StronglySorted lt
       ((fun chunk => index (delta chunk))
          <$> (_handle_stream_chat_response model_ credentials prompt_messages_
                 (evs, perr)).1).
Proof.
  rewrite handle_stream_fst.
  destruct (gen_loop_indexed (stream_event model_ credentials prompt_messages_)
              (fun chunk => index (delta chunk))
              (fun (ev : event) chunk =>
                 exists d,
                   decode_event ev = Ok (Some d) /\
                   (is_Some (usage (delta chunk))
                    <-> exists s, d_finish_reason d = JStr s /\ s <> ""))
              (fun i s x s' o Hstep => stream_event_chunk _ _ _ _ _ _ _ _ Hstep)
              evs 0 agg_init) as [Hall Hsorted].
  split; [|done].
  eapply Forall_impl; [exact Hall|].
  intros chunk (_ & ev & Hlook & d & Hdecode & Hiff).
  exists ev, d. rewrite Nat.sub_0_r in Hlook. done.
Qed.

(** C3, as the code has it: the content of a chunk is emptied when the
    completed list is not empty after the event.  An open tool call that is
    not complete does not empty it: the event that opens the call with id
    [1] and name [get_], without arguments, and carries the content [hi]
    yields a chunk whose content is [hi] while the call is open. *)
Theorem content_emptied_by_completed_calls_only `{Platform} model_ credentials
    prompt_messages_ :
  (forall index_ st (ev : event) st' chunk d st1,
      stream_event model_ credentials prompt_messages_ index_ st ev
      = Ok (st', Some chunk) ->
      decode_event ev = Ok (Some d) ->
      merge_tool_calls st (d_response_tool_calls d) = Ok st1 ->
      tool_calls st1 <> [] ->
      am_content (message (delta chunk)) = CStr "")
  /\ (forall index_ (ev : event) d,
        decode_event ev = Ok (Some d) ->
        d_response_tool_calls d = one_fragment "1" ("get_", "") ->
        d_message_content d = JStr "hi" ->
        d_finish_reason d = JStr "" ->
        stream_event model_ credentials prompt_messages_ index_ agg_init ev
        = Ok ({| tool_call := Some (function_call "1" "get_" ""); tool_calls := [] |},
              Some (plain_chunk model_ prompt_messages_ index_ (CStr "hi")))).
Proof.
  split.
  - intros index_ st ev st' chunk d st1 Hstep Hdecode Hmerge Hcalls.
    destruct (stream_event_inv _ _ _ _ _ _ _ _ Hstep) as (d' & Hdecode' & Hemit).
    rewrite Hdecode in Hdecode'. injection Hdecode' as <-.
    destruct (emit_chunk_inv _ _ _ _ _ _ _ _ Hemit)
      as (st1' & c0 & n & Hmerge' & _ & _ & _ & Hcontent & _).
    rewrite Hmerge in Hmerge'. injection Hmerge' as <-.
    rewrite Hcontent. by destruct (tool_calls st1).
  - intros index_ ev d Hdecode Hcalls Hcontent Hfinish.
    unfold stream_event. rewrite Hdecode. cbn [mbind result_bind].
    unfold emit_chunk.
    rewrite Hcalls, Hcontent, Hfinish, merge_one_fragment.
    cbn [mbind result_bind]. unfold new_AssistantPromptMessage.
    rewrite content_field_str. reflexivity.
Qed.

Lemma content_emptied_by_completed_calls_only_witness :
  @stream_event Reference.offline "hunyuan" ∅ [] 0 agg_init example_fragment_1
  = Ok ({| tool_call := Some (function_call "1" "get_" ""); tool_calls := [] |},
        Some (plain_chunk "hunyuan" [] 0 (CStr "hi"))).
Proof.
  destruct (@content_emptied_by_completed_calls_only Reference.offline "hunyuan" ∅ [])
    as [_ Hopen].
  apply (Hopen 0 example_fragment_1
           {| d_delta :=
                JObj [("content", JStr "hi");
                      ("tool_calls", one_fragment "1" ("get_", ""))];
              d_message_content := JStr "hi";
              d_finish_reason := JStr "";
              d_prompt_tokens := JInt 0;
              d_completion_tokens := JInt 0;
              d_response_tool_calls := one_fragment "1" ("get_", "") |}).
  - vm_compute; reflexivity.
  - reflexivity.
  - reflexivity.
  - reflexivity.
Defined.

(** ** Reassembly of tool calls *)

Lemma str_app_assoc (a b c : string) : (a +:+ b) +:+ c = a +:+ (b +:+ c).
Proof.
  induction a as [|x a IH]; [done|].
  change (String x ((a +:+ b) +:+ c) = String x (a +:+ b +:+ c)). by rewrite IH.
Qed.

Lemma str_app_nil_r (a : string) : a +:+ "" = a.
Proof.
  induction a as [|x a IH]; [done|].
  change (String x (a +:+ "") = String x a). by rewrite IH.
Qed.

Lemma length_positive (s : string) :
  Nat.ltb 0 (String.length s) = negb (String.eqb s "").
Proof. by destruct s. Qed.

Section reassembly.
Context `{Platform}.

(** Lines 230-232 in terms of [complete]. *)
Lemma complete_tool_call_open st tc :
  tool_call st = Some tc ->
  complete_tool_call st
  = if complete (fn_name (tc_function tc)) (fn_arguments (tc_function tc))
    then {| tool_call := None; tool_calls := tool_calls st ++ [tc] |}
    else st.
Proof.
  intros Hopen. unfold complete_tool_call, complete.
  by rewrite Hopen, !length_positive.
Qed.

Lemma merge_same_id st tc fr more rest id name arguments :
  tool_call st = Some tc ->
  is_fragment fr id name arguments ->
  mapR _extract_response_tool_call more = Ok rest ->
  tc_id tc = id ->
  merge_tool_calls st (JArr (fr :: more))
  = Ok (complete_tool_call
          {| tool_call := Some (tool_call_extend tc (function_call id name arguments));
             tool_calls := tool_calls st |}).
Proof.
  intros Hopen Hfr Hmore Hid.
  rewrite (merge_fragments _ _ _ _ _ _ _ Hfr Hmore).
  unfold merge_fragment. rewrite Hopen. cbn [tc_id function_call].
  by rewrite Hid, String.eqb_refl.
Qed.

Lemma merge_other_id st tc fr more rest id name arguments :
  tool_call st = Some tc ->
  is_fragment fr id name arguments ->
  mapR _extract_response_tool_call more = Ok rest ->
  tc_id tc <> id ->
  merge_tool_calls st (JArr (fr :: more))
  = Ok (complete_tool_call
          {| tool_call := Some (function_call id name arguments);
             tool_calls := tool_calls st ++ [tc] |}).
Proof.
  intros Hopen Hfr Hmore Hid.
  rewrite (merge_fragments _ _ _ _ _ _ _ Hfr Hmore).
  unfold merge_fragment. rewrite Hopen. cbn [tc_id function_call].
  apply String.eqb_neq in Hid. by rewrite Hid.
Qed.

Lemma extend_function_call id name0 args0 name arguments :
  tool_call_extend (function_call id name0 args0) (function_call id name arguments)
  = function_call id (name0 +:+ name) (args0 +:+ arguments).
Proof. reflexivity. Qed.

Lemma merge_extends id name0 args0 closed piece :
  merge_tool_calls
    {| tool_call := Some (function_call id name0 args0); tool_calls := closed |}
    (one_fragment id piece)
  = Ok (complete_tool_call
          {| tool_call :=
               Some (function_call id (name0 +:+ piece.1) (args0 +:+ piece.2));
             tool_calls := closed |}).
Proof.
  unfold one_fragment.
  erewrite merge_same_id;
    [|reflexivity|apply fragment_json_is_fragment|reflexivity|reflexivity].
  by rewrite extend_function_call.
Qed.

(** Fragments with the id of the open call extend it, as long as no
    extension but the last completes it. *)
Lemma feed_open_call id pieces :
  forall p name0 args0 closed,
    (forall k, k < List.length pieces ->
       complete (name0 +:+ names (take (Datatypes.S k) (p :: pieces)))
                (args0 +:+ arguments_of (take (Datatypes.S k) (p :: pieces))) = false) ->
    feed_deltas {| tool_call := Some (function_call id name0 args0); tool_calls := closed |}
      (one_fragment id <$> (p :: pieces))
    = Ok (complete_tool_call
            {| tool_call :=
                 Some (function_call id (name0 +:+ names (p :: pieces))
                         (args0 +:+ arguments_of (p :: pieces)));
               tool_calls := closed |}).
Proof.
  induction pieces as [|p' pieces IH]; intros p name0 args0 closed Hopen.
  - cbn [fmap list_fmap feed_deltas]. rewrite merge_extends.
    cbn [mbind result_bind tool_calls].
    unfold names, arguments_of. cbn [fmap list_fmap foldr].
    by rewrite !str_app_nil_r.
  - rewrite fmap_cons. cbn [feed_deltas]. rewrite merge_extends.
    cbn [mbind result_bind tool_calls].
    erewrite complete_tool_call_open; [|done].
    cbn [fn_name fn_arguments tc_function function_call].
    pose proof (Hopen 0 ltac:(cbn; lia)) as Hfirst.
    unfold names, arguments_of in Hfirst. cbn [take fmap list_fmap foldr] in Hfirst.
    rewrite !str_app_nil_r in Hfirst. rewrite Hfirst.
    rewrite IH.
    + unfold names, arguments_of. cbn [fmap list_fmap foldr].
      by rewrite !str_app_assoc.
    + intros k Hk. specialize (Hopen (Datatypes.S k) ltac:(cbn; lia)).
      unfold names, arguments_of in Hopen |- *.
      cbn [take fmap list_fmap foldr] in Hopen |- *.
      by rewrite !str_app_assoc.
Qed.

(** The same from the state without an open call: the first fragment
    opens the call. *)
Lemma feed_fresh_call id p pieces closed :
  (forall k, k < List.length pieces ->
     complete (names (take (Datatypes.S k) (p :: pieces)))
              (arguments_of (take (Datatypes.S k) (p :: pieces))) = false) ->
  feed_deltas {| tool_call := None; tool_calls := closed |}
    (one_fragment id <$> (p :: pieces))
  = Ok (complete_tool_call
          {| tool_call :=
               Some (function_call id (names (p :: pieces)) (arguments_of (p :: pieces)));
             tool_calls := closed |}).
Proof.
  intros Hopen. rewrite fmap_cons. cbn [feed_deltas].
  rewrite merge_one_fragment. cbn [mbind result_bind merge_fragment tool_call tool_calls].
  destruct pieces as [|p' pieces].
  - cbn [fmap list_fmap feed_deltas]. unfold names, arguments_of.
    cbn [fmap list_fmap foldr]. by rewrite !str_app_nil_r.
  - erewrite complete_tool_call_open; [|done].
    cbn [fn_name fn_arguments tc_function function_call].
    pose proof (Hopen 0 ltac:(cbn; lia)) as Hfirst.
    unfold names, arguments_of in Hfirst. cbn [take fmap list_fmap foldr] in Hfirst.
    rewrite !str_app_nil_r in Hfirst. rewrite Hfirst.
    rewrite feed_open_call.
    + done.
    + intros k Hk. specialize (Hopen (Datatypes.S k) ltac:(cbn; lia)).
      unfold names, arguments_of in Hopen |- *.
      by cbn [take fmap list_fmap foldr] in Hopen |- *.
Qed.

End reassembly.

(** The first computation of a chain of binds succeeds, or the chain
    does not. *)
Tactic Notation "bind_ok" ident(x) :=
  match goal with
  | |- context [mbind _ ?m] =>
      let e := fresh "e" in
      destruct m as [x|e]; cbn [mbind result_bind]; [|discriminate]
  end.

Section forward_facts.
Context `{Platform}.
Variables (model_ : string) (credentials : gmap string string)
          (prompt_messages_ : list PromptMessage).

(** A decoded delta is a dict. *)
Lemma decode_event_delta_dict (ev : event) d :
  decode_event ev = Ok (Some d) -> exists items, d_delta d = JObj items.
Proof.
  unfold decode_event. bind_ok data_str.
  destruct (str_endswith data_str "[DONE]"); [discriminate|].
  bind_ok data. bind_ok choices.
  destruct (negb (truthy choices)); [discriminate|].
  bind_ok choice. bind_ok delta_.
  destruct delta_ as [| | | | | |items|]; try discriminate.
  cbn [py_get mbind result_bind].
  bind_ok fr. bind_ok u. bind_ok pt. bind_ok ct.
  intros [= <-]. by eexists.
Qed.

(** An event without finish reason: the chunk keeps the content unless a
    tool call is completed. *)
Lemma stream_event_plain index_ st (ev : event) d st1 c0 :
  decode_event ev = Ok (Some d) ->
  merge_tool_calls st (d_response_tool_calls d) = Ok st1 ->
  content_field (d_message_content d) = Some c0 ->
  d_finish_reason d = JStr "" ->
  stream_event model_ credentials prompt_messages_ index_ st ev
  = Ok (st1,
        Some (plain_chunk model_ prompt_messages_ index_
                (if Nat.ltb 0 (List.length (tool_calls st1)) then CStr "" else c0))).
Proof.
  intros Hdecode Hmerge Hcontent Hfinish.
  unfold stream_event. rewrite Hdecode. cbn [mbind result_bind].
  unfold emit_chunk, new_AssistantPromptMessage.
  rewrite Hmerge, Hcontent, Hfinish. cbn [validated mbind result_bind].
  by destruct (Nat.ltb 0 (List.length (tool_calls st1))).
Qed.

(** An event whose finish reason is [tool_calls]: the chunk carries the
    completed list, and the state is empty afterwards. *)
Lemma stream_event_tool_calls index_ st (ev : event) d st1 c0 u items :
  decode_event ev = Ok (Some d) ->
  merge_tool_calls st (d_response_tool_calls d) = Ok st1 ->
  content_field (d_message_content d) = Some c0 ->
  d_finish_reason d = JStr "tool_calls" ->
  _calc_response_usage model_ credentials (d_prompt_tokens d) (d_completion_tokens d)
  = Ok u ->
  d_delta d = JObj items ->
  stream_event model_ credentials prompt_messages_ index_ st ev
  = Ok (agg_init,
        Some (terminal_chunk model_ prompt_messages_ index_
                (default_or (assoc_get "role" items) (JStr "assistant"))
                (if Nat.ltb 0 (List.length (tool_calls st1)) then CStr "" else c0)
                (tool_calls st1) u "tool_calls")).
Proof.
  intros Hdecode Hmerge Hcontent Hfinish Husage Hdelta.
  unfold stream_event. rewrite Hdecode. cbn [mbind result_bind].
  unfold emit_chunk, new_AssistantPromptMessage.
  rewrite Hmerge, Hcontent, Hfinish, Husage, Hdelta.
  cbn [validated mbind result_bind].
  rewrite str_field_str.
  change (py_eq_str (JStr "tool_calls") "tool_calls") with true.
  change (py_len (JStr "tool_calls")) with (Ok (A:=nat) 10).
  cbn [validated mbind result_bind Nat.ltb Nat.leb py_get].
  by destruct (List.length (tool_calls st1)).
Qed.

End forward_facts.

Section stream_state.
Context `{Platform}.
Variables (model_ : string) (credentials : gmap string string)
          (prompt_messages_ : list PromptMessage).

Lemma stream_event_merge_error index_ st (ev : event) d e :
  decode_event ev = Ok (Some d) ->
  merge_tool_calls st (d_response_tool_calls d) = Err e ->
  stream_event model_ credentials prompt_messages_ index_ st ev = Err e.
Proof.
  intros Hdecode Hmerge. unfold stream_event. rewrite Hdecode.
  cbn [mbind result_bind]. unfold emit_chunk. by rewrite Hmerge.
Qed.

(** Over events in the middle of a turn the loop state is the tool-call
    state of their deltas. *)
Lemma gen_state_carries (evs : list event) deltas :
  Forall2 carries evs deltas ->
  forall index_ st,
    gen_state (stream_event model_ credentials prompt_messages_) index_ st evs
    = feed_deltas st deltas.
Proof.
  induction 1 as [|ev rtc evs deltas (d & c & Hdecode & Hcalls & Hfinish & Hcontent) _ IH];
    intros index_ st; [done|].
  cbn [gen_state feed_deltas]. rewrite <- Hcalls.
  destruct (merge_tool_calls st (d_response_tool_calls d)) as [st1|e] eqn:Hmerge.
  - rewrite (stream_event_plain _ _ _ _ _ _ _ _ _ Hdecode Hmerge Hcontent Hfinish).
    cbn [mbind result_bind]. apply IH.
  - by rewrite (stream_event_merge_error _ _ _ _ _ Hdecode Hmerge).
Qed.

End stream_state.

(** C2: over events whose deltas carry the fragments of one id, the
    fragments are put together, names with names and arguments with
    arguments, in the call that the first of them opens, until the call has
    a name and arguments and moves to the completed list; a fragment with the id of the open call extends it; a fragment
    with another id closes the open call and opens its own; an open call
    moves to the completed list as soon as its name and its arguments are
    both not empty.  For the fragments [get_] and [weather] with the
    arguments [{"c":"sf"}] of the call with id [1], followed by an event
    whose finish reason is [tool_calls], the last chunk carries exactly the
    call [get_weather] with these arguments, and its content is empty. *)
Theorem tool_call_reassembly `{Platform} :
  (forall model_ credentials prompt_messages_ index_ (evs : list event)
          id (pieces : list (string * string)) closed,
      pieces <> [] ->
      (forall k, 0 < k < List.length pieces ->
         complete (names (take k pieces)) (arguments_of (take k pieces)) = false) ->
      Forall2 carries evs (one_fragment id <$> pieces) ->
      gen_state (stream_event model_ credentials prompt_messages_) index_
        {| tool_call := None; tool_calls := closed |} evs
      = Ok (if complete (names pieces) (arguments_of pieces)
            then {| tool_call := None;
                    tool_calls :=
                      closed ++ [function_call id (names pieces) (arguments_of pieces)] |}
            else {| tool_call :=
                      Some (function_call id (names pieces) (arguments_of pieces));
                    tool_calls := closed |}))
  /\ (forall st tc fr more rest id name arguments,
        tool_call st = Some tc ->
        is_fragment fr id name arguments ->
        mapR _extract_response_tool_call more = Ok rest ->
        (tc_id tc = id ->
         merge_tool_calls st (JArr (fr :: more))
         = Ok (complete_tool_call
                 {| tool_call :=
                      Some (tool_call_extend tc (function_call id name arguments));
                    tool_calls := tool_calls st |}))
        /\ (tc_id tc <> id ->
            merge_tool_calls st (JArr (fr :: more))
            = Ok (complete_tool_call
                    {| tool_call := Some (function_call id name arguments);
                       tool_calls := tool_calls st ++ [tc] |})))
  /\ (forall st tc,
        tool_call st = Some tc ->
        complete_tool_call st
        = if complete (fn_name (tc_function tc)) (fn_arguments (tc_function tc))
          then {| tool_call := None; tool_calls := tool_calls st ++ [tc] |}
          else st)
  /\ (forall model_ credentials prompt_messages_ (e1 e2 e3 : event) perr
             d1 d2 d3 fr1 fr2 c1 c2 c3 u items,
        decode_event e1 = Ok (Some d1) ->
        d_response_tool_calls d1 = JArr [fr1] ->
        is_fragment fr1 "1" "get_" "" ->
        d_finish_reason d1 = JStr "" ->
        content_field (d_message_content d1) = Some c1 ->
        decode_event e2 = Ok (Some d2) ->
        d_response_tool_calls d2 = JArr [fr2] ->
        is_fragment fr2 "1" "weather" example_arguments ->
        d_finish_reason d2 = JStr "" ->
        content_field (d_message_content d2) = Some c2 ->
        decode_event e3 = Ok (Some d3) ->
        d_response_tool_calls d3 = JNull ->
        d_finish_reason d3 = JStr "tool_calls" ->
        content_field (d_message_content d3) = Some c3 ->
        d_delta d3 = JObj items ->
        _calc_response_usage model_ credentials
          (d_prompt_tokens d3) (d_completion_tokens d3) = Ok u ->
        _handle_stream_chat_response model_ credentials prompt_messages_
          ([e1; e2; e3], perr)
        = ([plain_chunk model_ prompt_messages_ 0 c1;
            plain_chunk model_ prompt_messages_ 1 (CStr "");
            terminal_chunk model_ prompt_messages_ 2
              (default_or (assoc_get "role" items) (JStr "assistant"))
              (CStr "")
              [function_call "1" "get_weather" example_arguments]
              u "tool_calls"],
           perr)).
Proof.
  split; [|split; [|split]].
  - intros model_ credentials prompt_messages_ index_ evs id pieces closed
           Hne Hopen Hevs.
    rewrite (gen_state_carries _ _ _ _ _ Hevs).
    destruct pieces as [|p pieces]; [done|].
    rewrite feed_fresh_call.
    + erewrite complete_tool_call_open by reflexivity. reflexivity.
    + intros k Hk. apply Hopen. cbn [List.length]. lia.
  - intros st tc fr more rest id name arguments Hopen Hfr Hmore.
    split; intros Hid.
    + by eapply merge_same_id.
    + by eapply merge_other_id.
  - intros st tc Hopen. by apply complete_tool_call_open.
  - intros model_ credentials prompt_messages_ e1 e2 e3 perr
           d1 d2 d3 fr1 fr2 c1 c2 c3 u items
           Hd1 Hc1 Hf1 Hr1 Hm1 Hd2 Hc2 Hf2 Hr2 Hm2 Hd3 Hc3 Hr3 Hm3 Hitems Hu.
    pose (st1 := {| tool_call := Some (function_call "1" "get_" ""); tool_calls := [] |}).
    pose (st2 := {| tool_call := None;
                    tool_calls := [function_call "1" "get_weather" example_arguments] |}).
    assert (Hg1 : merge_tool_calls agg_init (d_response_tool_calls d1) = Ok st1).
    { rewrite Hc1.
      by rewrite (merge_fragments fr1 [] [] agg_init _ _ _ Hf1 eq_refl). }
    assert (Hg2 : merge_tool_calls st1 (d_response_tool_calls d2) = Ok st2).
    { rewrite Hc2.
      by rewrite (merge_fragments fr2 [] [] st1 _ _ _ Hf2 eq_refl). }
    assert (Hg3 : merge_tool_calls st2 (d_response_tool_calls d3) = Ok st2).
    { by rewrite Hc3. }
    pose proof (stream_event_plain model_ credentials prompt_messages_
                  0 agg_init e1 d1 st1 c1 Hd1 Hg1 Hm1 Hr1) as Hs1.
    pose proof (stream_event_plain model_ credentials prompt_messages_
                  1 st1 e2 d2 st2 c2 Hd2 Hg2 Hm2 Hr2) as Hs2.
    pose proof (stream_event_tool_calls model_ credentials prompt_messages_
                  2 st2 e3 d3 st2 c3 u items Hd3 Hg3 Hm3 Hr3 Hu Hitems) as Hs3.
    unfold _handle_stream_chat_response. cbn [fst snd].
    rewrite (gen_loop_cons_yield _ _ _ _ _ _ _ Hs1),
            (gen_loop_cons_yield _ _ _ _ _ _ _ Hs2),
            (gen_loop_cons_yield _ _ _ _ _ _ _ Hs3).
    reflexivity.
Qed.

Lemma tool_call_reassembly_witness :
  gen_state (@stream_event Reference.offline "hunyuan" ∅ []) 0
    {| tool_call := None; tool_calls := [] |} [example_fragment_1; example_fragment_2]
  = Ok {| tool_call := None;
          tool_calls := [function_call "1" "get_weather" example_arguments] |}
  /\ @_handle_stream_chat_response Reference.offline "hunyuan" ∅ []
       ([example_fragment_1; example_fragment_2; example_finish], None)
     = ([plain_chunk "hunyuan" [] 0 (CStr "hi");
         plain_chunk "hunyuan" [] 1 (CStr "");
         terminal_chunk "hunyuan" [] 2 (JStr "assistant") (CStr "")
           [function_call "1" "get_weather" example_arguments]
           {| Reference.prompt_tokens := JInt 3; Reference.completion_tokens := JInt 4 |}
           "tool_calls"],
        None).
Proof.
  destruct (@tool_call_reassembly Reference.offline) as (Hfeed & _ & _ & Hexample).
  split.
  - apply (Hfeed "hunyuan" ∅ [] 0 [example_fragment_1; example_fragment_2]
             "1" [("get_", ""); ("weather", example_arguments)] []); [done| |].
    + intros k Hk. cbn [List.length] in Hk. assert (k = 1) as -> by lia. reflexivity.
    + constructor; [|constructor; [|constructor]].
      * exists {| d_delta :=
                    JObj [("content", JStr "hi");
                          ("tool_calls", one_fragment "1" ("get_", ""))];
                  d_message_content := JStr "hi";
                  d_finish_reason := JStr "";
                  d_prompt_tokens := JInt 0;
                  d_completion_tokens := JInt 0;
                  d_response_tool_calls := one_fragment "1" ("get_", "") |}, (CStr "hi").
        split; [vm_compute; reflexivity|]. by repeat split.
      * exists {| d_delta :=
                    JObj [("tool_calls",
                           one_fragment "1" ("weather", example_arguments))];
                  d_message_content := JStr "";
                  d_finish_reason := JStr "";
                  d_prompt_tokens := JInt 0;
                  d_completion_tokens := JInt 0;
                  d_response_tool_calls :=
                    one_fragment "1" ("weather", example_arguments) |}, (CStr "").
        split; [vm_compute; reflexivity|]. by repeat split.
  - apply (Hexample "hunyuan" ∅ [] example_fragment_1 example_fragment_2 example_finish
             None
             {| d_delta :=
                  JObj [("content", JStr "hi");
                        ("tool_calls", one_fragment "1" ("get_", ""))];
                d_message_content := JStr "hi";
                d_finish_reason := JStr "";
                d_prompt_tokens := JInt 0;
                d_completion_tokens := JInt 0;
                d_response_tool_calls := one_fragment "1" ("get_", "") |}
             {| d_delta :=
                  JObj [("tool_calls", one_fragment "1" ("weather", example_arguments))];
                d_message_content := JStr "";
                d_finish_reason := JStr "";
                d_prompt_tokens := JInt 0;
                d_completion_tokens := JInt 0;
                d_response_tool_calls := one_fragment "1" ("weather", example_arguments) |}
             {| d_delta := JObj [("content", JStr "")];
                d_message_content := JStr "";
                d_finish_reason := JStr "tool_calls";
                d_prompt_tokens := JInt 3;
                d_completion_tokens := JInt 4;
                d_response_tool_calls := JNull |}
             (fragment_json "1" "get_" "")
             (fragment_json "1" "weather" example_arguments)
             (CStr "hi") (CStr "") (CStr "")
             {| Reference.prompt_tokens := JInt 3; Reference.completion_tokens := JInt 4 |}
             [("content", JStr "")]).
    + vm_compute; reflexivity.
    + reflexivity.
    + apply fragment_json_is_fragment.
    + reflexivity.
    + reflexivity.
    + vm_compute; reflexivity.
    + reflexivity.
    + apply fragment_json_is_fragment.
    + reflexivity.
    + reflexivity.
    + vm_compute; reflexivity.
    + reflexivity.
    + reflexivity.
    + reflexivity.
    + reflexivity.
    + reflexivity.
Defined.

(** ** The message mapper *)

Lemma mapR_lookup {A B} (f : A -> result B) xs ys i x :
  mapR f xs = Ok ys -> xs !! i = Some x ->
  exists y, f x = Ok y /\ ys !! i = Some y.
Proof.
  revert ys i. induction xs as [|x' xs IH]; intros ys i Hmap Hlook; [done|].
  cbn [mapR] in Hmap.
  destruct (f x') as [y'|e] eqn:Hfx; cbn [mbind result_bind] in Hmap; [|discriminate].
  destruct (mapR f xs) as [ys'|e] eqn:Hrest; cbn [mbind result_bind] in Hmap;
    [|discriminate].
  injection Hmap as <-. destruct i as [|i].
  - injection Hlook as <-. by exists y'.
  - by apply (IH ys' i).
Qed.

(** C7, as the code has it: an assistant message with at least one tool
    call becomes a dict whose content is the text of one space, and each
    of its tool calls is serialized with empty arguments when its
    arguments are empty and with [{}] otherwise; so the serialized
    arguments are the original ones exactly when these are empty or are
    [{}] already. *)
Theorem assistant_tool_calls_mapping `{Platform} (m : AssistantPromptMessage) :
  am_tool_calls m <> [] ->
  let wire :=
    JObj [("Role", JStr (role_value (am_role m)));
          ("Content", JStr " ");
          ("ToolCalls", JArr (tool_call_dict <$> am_tool_calls m))] in
  convert_prompt_message (Assistant m) = Ok wire
  /\ (forall prompt_messages_ dict_list i,
        prompt_messages_ !! i = Some (Assistant m) ->
        _convert_prompt_messages_to_dicts prompt_messages_ = Ok dict_list ->
        dict_list !! i = Some wire)
  /\ " " <> ""
  /\ Forall (fun tc =>
               let arguments := fn_arguments (tc_function tc) in
               (arguments = "" -> wire_arguments (tool_call_dict tc) = Some (JStr ""))
               /\ (arguments <> "" ->
                   wire_arguments (tool_call_dict tc) = Some (JStr "{}"))
               /\ (wire_arguments (tool_call_dict tc) = Some (JStr arguments)
                   <-> arguments = "" \/ arguments = "{}"))
       (am_tool_calls m).
Proof.
  intros Hcalls wire.
  assert (Hone : convert_prompt_message (Assistant m) = Ok wire).
  { unfold convert_prompt_message. by destruct (am_tool_calls m). }
  split; [done|]. split; [|split; [done|]].
  - intros prompt_messages_ dict_list i Hlook Hmap.
    destruct (mapR_lookup _ _ _ _ _ Hmap Hlook) as (y & Hy & Hi).
    rewrite Hone in Hy. by injection Hy as <-.
  - apply Forall_forall. intros tc _. cbn zeta.
    unfold wire_arguments, tool_call_dict. cbn [assoc_get String.eqb Ascii.eqb Bool.eqb].
    destruct (String.eqb_spec (fn_arguments (tc_function tc)) "") as [->|Hne].
    + split; [done|]. split; [done|]. split; [by left|done].
    + split; [done|]. split; [done|]. split.
      * intros [= Heq]. by right.
      * intros [Hempty| ->]; [done|done].
Qed.

Lemma assistant_tool_calls_mapping_witness :
  let m := {| am_role := ASSISTANT; am_content := CStr "calling";
              am_tool_calls := [function_call "1" "get_weather" example_arguments] |} in
  @convert_prompt_message Reference.offline (Assistant m)
  = Ok (JObj [("Role", JStr "assistant");
              ("Content", JStr " ");
              ("ToolCalls", JArr [tool_call_dict
                                    (function_call "1" "get_weather" example_arguments)])]).
Proof.
  intros m.
  by destruct (@assistant_tool_calls_mapping Reference.offline m) as [Hwire _].
Defined.

(** C7, as the claim has it, fails for a tool call whose arguments are
    [{}]: they are not empty, and the serialized arguments equal them. *)
Lemma braces_arguments_equal_original :
  let tc := function_call "1" "get_weather" "{}" in
  ~ (wire_arguments (tool_call_dict tc) = Some (JStr (fn_arguments (tc_function tc)))
     <-> fn_arguments (tc_function tc) = "").
Proof. intros tc [Hempty _]. by specialize (Hempty eq_refl). Qed.

(** ** The invocation *)

(** C8: when the request was sent and the status of the response is not
    2xx, the invocation ends with an exception whose message holds the
    status code and the text of the response; the lines of the response
    are not read, and no chunk is yielded. *)
Theorem bad_status_fails_fast `{Platform} model_ credentials prompt_messages_
    model_parameters tools stop stream user headers body (r : response) :
  build_request model_ credentials prompt_messages_ model_parameters tools stop stream
  = Ok (headers, body) ->
  requests_post url headers body = Ok r ->
  ~ is_2xx (status_code r) ->
  _invoke model_ credentials prompt_messages_ model_parameters tools stop stream user
  = Err (Exception ("Failed to access LLM API, status code: "
                    +:+ str_of_Z (status_code r) +:+ ", message: " +:+ text r)).
Proof.
  intros Hrequest Hpost Hstatus. unfold _invoke.
  rewrite Hrequest. cbn [mbind result_bind]. rewrite Hpost. cbn [mbind result_bind].
  unfold handle_response.
  destruct (Z.eqb_spec (status_code r) 200) as [Heq|Hne]; [|done].
  destruct Hstatus. unfold is_2xx. lia.
Qed.

Lemma bad_status_fails_fast_witness :
  let r := {| status_code := 500; text := "upstream failure";
              iter_lines := example_lines |} in
  @_invoke (Reference.platform (Ok r)) "hunyuan" {["api_key" := "k"]}
    [UserPromptMessage USER (CStr "hi")] ∅ None None true None
  = Err (Exception "Failed to access LLM API, status code: 500, message: upstream failure").
Proof.
  intros r.
  apply (@bad_status_fails_fast (Reference.platform (Ok r)) "hunyuan" {["api_key" := "k"]}
           [UserPromptMessage USER (CStr "hi")] ∅ None None true None
           [("Authorization", "Bearer k"); ("Content-Type", "application/json")]
           (quoted "{'Model': 'hunyuan', 'Messages': [{'Role': 'user', 'Content': 'hi'}], 'Stream': true, 'Stop': null, 'Temperature': 0.0, 'TopP': 1.0, 'EnableEnhancement': true}")
           r).
  - vm_compute; reflexivity.
  - reflexivity.
  - unfold is_2xx. cbn [status_code r]. lia.
Defined.

(** ** The signer *)

(** C1: when the timestamp has a date, the header is the algorithm name,
    the credential made of the secret id, the date, the service and
    [tc3_request], the three signed headers, and the hexadecimal HMAC of the
    string to sign under the key derived through the date, the service and
    [tc3_request] from [TC3] and the secret key.  The header is a function
    of the timestamp, the host, the action, the payload and the three
    credentials: every call with them returns it. *)
Theorem authorization_header_spec `{SignerRuntime} service_ secret_id_ secret_key_
    timestamp date host action payload :
  utc_date timestamp = Ok date ->
  get_authorization_header (new_SignatureBuilder service_ secret_id_ secret_key_)
    timestamp host action payload
  = Ok (spec_header "TC3-HMAC-SHA256" secret_id_ secret_key_ service_
          timestamp date host action payload).
Proof.
  intros Hdate. unfold get_authorization_header. rewrite Hdate.
  cbn [mbind result_bind]. f_equal.
  unfold spec_header, spec_signature, spec_signing_key, spec_string_to_sign,
    spec_canonical_request, spec_canonical_headers, spec_credential_scope,
    spec_signed_headers, sha256_hexdigest, _sign.
  cbn [new_SignatureBuilder algorithm secret_id secret_key service join_lines].
  rewrite !str_app_assoc. reflexivity.
Qed.

Lemma authorization_header_spec_witness :
  @get_authorization_header Crypto.runtime
    (new_SignatureBuilder "cls" "AKIDEXAMPLE" "secretEXAMPLE")
    1551113065 "cls.tencentcloudapi.com" "SearchLog" (quoted "{'Limit': 1}")
  = Ok (@spec_header Crypto.runtime "TC3-HMAC-SHA256" "AKIDEXAMPLE" "secretEXAMPLE" "cls"
          1551113065 "2019-02-25" "cls.tencentcloudapi.com" "SearchLog"
          (quoted "{'Limit': 1}")).
Proof.
  apply (@authorization_header_spec Crypto.runtime). vm_compute; reflexivity.
Defined.

(** The header of the example, with SHA-256 and HMAC computed. *)
Example authorization_header_example :
  @get_authorization_header Crypto.runtime
    (new_SignatureBuilder "cls" "AKIDEXAMPLE" "secretEXAMPLE")
    1551113065 "cls.tencentcloudapi.com" "SearchLog" (quoted "{'Limit': 1}")
  = Ok ("TC3-HMAC-SHA256 Credential=AKIDEXAMPLE/2019-02-25/cls/tc3_request, "
        +:+ "SignedHeaders=content-type;host;x-tc-action, "
        +:+ "Signature=88c159b5fc5b2255b0abb49bb22d6d8cba0ae4ae6c2ed0e7cb0fe889e418bc2f").
Proof. vm_compute; reflexivity. Qed.

(** * Further properties *)

(** ** The SSE parser *)

Section sse_more.
Context `{Platform}.

(** The parser does not read the index of the line. *)
Lemma sse_index_irrelevant lines :
  forall i j e, gen_loop sse_line i e lines = gen_loop sse_line j e lines.
Proof.
  induction lines as [|line lines IH]; intros i j e; [done|].
  cbn [gen_loop]. change (sse_line j e line) with (sse_line i e line).
  destruct (sse_line i e line) as [[e' [ev|]]|err]; [|apply IH|done].
  by rewrite (IH (Datatypes.S i) (Datatypes.S j)).
Qed.

Lemma gen_state_app {S I O} (body : nat -> S -> I -> result (S * option O)) xs ys :
  forall index s,
    gen_state body index s (xs ++ ys)
    = (s' ← gen_state body index s xs; gen_state body (index + List.length xs) s' ys).
Proof.
  induction xs as [|x xs IH]; intros index s.
  - cbn. by rewrite Nat.add_0_r.
  - cbn [app List.app gen_state List.length].
    destruct (body index s x) as [[s1 o]|e]; cbn [mbind result_bind]; [|done].
    rewrite IH. by rewrite Nat.add_succ_r.
Qed.


Lemma prefix_colon_false key rest :
  key <> "" -> str_find colon key = None ->
  String.prefix ":" (key +:+ rest) = false.
Proof.
  destruct key as [|a key]; [done|]. intros _ Hfind.
  change (String a key +:+ rest) with (String a (key +:+ rest)).
  cbn [str_find] in Hfind. cbn [String.prefix].
  destruct (Ascii.eqb_spec a colon) as [->|Hne]; [discriminate Hfind|].
  destruct (ascii_dec ":" a) as [Heq|_]; [by destruct Hne|done].
Qed.



End sse_more.



Section sse_blocks.
Context `{Platform}.

(** After a blank line the accumulator is empty. *)
Lemma sse_state_after_blank lines index e s :
  gen_state sse_line index e (lines ++ [""]) = Ok s -> s = ∅.
Proof.
  rewrite gen_state_app.
  destruct (gen_state sse_line index e lines) as [s'|err]; [|discriminate].
  cbn. by intros [= <-].
Qed.

Lemma sse_decode_data v :
  decode_utf8 v = Ok v -> decode_utf8 ("data:" +:+ v) = Ok ("data:" +:+ v).
Proof.
  unfold decode_utf8.
  change (utf8_wf (list_ascii_of_string ("data:" +:+ v)))
    with (utf8_wf (list_ascii_of_string v)).
  by destruct (utf8_wf (list_ascii_of_string v)).
Qed.

(** A data line appends its value to the data of the accumulator. *)
Lemma sse_data_line index (e : event) v :
  decode_utf8 v = Ok v ->
  sse_line index e ("data:" +:+ v)
  = match e !! "data" with
    | None => Ok (<["data" := SStr v]> e, None)
    | Some (SStr d) => Ok (<["data" := SStr (d +:+ nl +:+ v)]> e, None)
    | Some (SInt _) => raise TypeError
    end.
Proof.
  intros Hdecode. unfold sse_line. rewrite (sse_decode_data _ Hdecode).
  change (String.eqb ("data:" +:+ v) "") with false.
  change (String.prefix ":" ("data:" +:+ v)) with false.
  cbn [mbind result_bind].
  change (split_field ("data:" +:+ v)) with (split_field ("data" +:+ ":" +:+ v)).
  by rewrite (split_field_colon "data" v eq_refl).
Qed.

(** Data lines after a first one: the values are joined to the data so
    far, each after a line feed. *)
Lemma sse_data_run vs :
  Forall (fun v => decode_utf8 v = Ok v) vs ->
  forall index (e : event) d,
    e !! "data" = Some (SStr d) ->
    gen_loop sse_line index e (data_lines vs ++ [""])
    = ([<["data" := SStr (foldl (fun acc v => acc +:+ nl +:+ v) d vs)]> e], None).
Proof.
  induction 1 as [|v vs Hv _ IH]; intros index e d He.
  - cbn. by rewrite insert_id.
  - cbn [data_lines fmap list_fmap app List.app].
    rewrite (gen_loop_cons_skip sse_line index e
               (<["data" := SStr (d +:+ nl +:+ v)]> e)).
    + fold (data_lines vs).
      rewrite (IH _ _ (d +:+ nl +:+ v)) by apply lookup_insert_eq.
      by rewrite insert_insert_eq.
    + by rewrite (sse_data_line _ _ _ Hv), He.
Qed.

Lemma foldl_join d vs :
  foldl (fun acc v => acc +:+ nl +:+ v) d vs = join_lines (d :: vs).
Proof.
  revert d. induction vs as [|v vs IH]; intros d; [done|].
  cbn [foldl]. rewrite IH. cbn [join_lines].
  destruct vs as [|v' vs]; by rewrite ?str_app_assoc.
Qed.

End sse_blocks.

(** X2: events do not depend on what precedes them: when the lines [a]
    end with a blank line and are read without an exception, the parser
    yields for [a] followed by [b] the events of [a], then what it yields
    for [b] alone. *)
Theorem sse_blocks_compose `{Platform} (resp : response) a b evs :
  iter_lines resp = (a ++ [""]) ++ b ->
  _process_response_sse (with_lines resp (a ++ [""])) = (evs, None) ->
  _process_response_sse resp
  = (evs ++ (_process_response_sse (with_lines resp b)).1,
     (_process_response_sse (with_lines resp b)).2).
Proof.
  intros Hlines Ha. unfold _process_response_sse in *.
  cbn [with_lines iter_lines] in *. rewrite Hlines.
  destruct (gen_loop_app _ _ _ _ _ Ha) as (s & Hs & Happ).
  rewrite Happ, (sse_state_after_blank _ _ _ _ Hs).
  by rewrite (sse_index_irrelevant b _ 0).
Qed.

Lemma sse_blocks_compose_witness :
  @_process_response_sse Reference.offline
    {| status_code := 200; text := "";
       iter_lines := ["id: 1"; "data: a"; ""; "data: b"; ""] |}
  = ([ <["data" := SStr " a"]> {["id" := SStr " 1"]} ]
       ++ (@_process_response_sse Reference.offline
             {| status_code := 200; text := ""; iter_lines := ["data: b"; ""] |}).1,
     (@_process_response_sse Reference.offline
        {| status_code := 200; text := ""; iter_lines := ["data: b"; ""] |}).2).
Proof.
  apply (@sse_blocks_compose Reference.offline
           {| status_code := 200; text := "";
              iter_lines := ["id: 1"; "data: a"; ""; "data: b"; ""] |}
           ["id: 1"; "data: a"] ["data: b"; ""]).
  - reflexivity.
  - vm_compute; reflexivity.
Defined.

(** X3: the data lines of one event, however many, give one data value:
    their values in the order of the lines, joined by line feeds; the
    other fields of the event stay as they are. *)
Theorem sse_data_joined `{Platform} (resp : response) (e : event) v vs index :
  e !! "data" = None ->
  Forall (fun v => decode_utf8 v = Ok v) (v :: vs) ->
  gen_loop sse_line index e (data_lines (v :: vs) ++ [""])
  = ([<["data" := SStr (join_lines (v :: vs))]> e], None)
  /\ (iter_lines resp = data_lines (v :: vs) ++ [""] ->
      _process_response_sse resp
      = ([{["data" := SStr (join_lines (v :: vs))]}], None)).
Proof.
  intros He Hvs. inversion Hvs as [|? ? Hv Hvs']; subst.
  assert (Hrun : forall index (e : event),
             e !! "data" = None ->
             gen_loop sse_line index e (data_lines (v :: vs) ++ [""])
             = ([<["data" := SStr (join_lines (v :: vs))]> e], None)).
  { clear index e He. intros index e He.
    cbn [data_lines fmap list_fmap app List.app].
    rewrite (gen_loop_cons_skip sse_line index e (<["data" := SStr v]> e)).
    - fold (data_lines vs).
      rewrite (sse_data_run vs Hvs' _ _ v) by apply lookup_insert_eq.
      by rewrite insert_insert_eq, foldl_join.
    - by rewrite (sse_data_line _ _ _ Hv), He. }
  split; [by apply Hrun|].
  intros Hlines. unfold _process_response_sse. rewrite Hlines.
  rewrite Hrun by apply lookup_empty. by rewrite insert_empty.
Qed.

Lemma sse_data_joined_witness :
  @_process_response_sse Reference.offline
    {| status_code := 200; text := "";
       iter_lines := data_lines ["a"; "b"; "c"] ++ [""] |}
  = ([{["data" := SStr ("a" +:+ nl +:+ "b" +:+ nl +:+ "c")]}], None).
Proof.
  destruct (@sse_data_joined Reference.offline
              {| status_code := 200; text := "";
                 iter_lines := data_lines ["a"; "b"; "c"] ++ [""] |}
              ∅ "a" ["b"; "c"] 0) as [_ Hresp].
  - reflexivity.
  - repeat constructor.
  - by apply Hresp.
Defined.

Section sse_edges.
Context `{Platform}.

Lemma list_ascii_app (a b : string) :
  list_ascii_of_string (a +:+ b) = list_ascii_of_string a ++ list_ascii_of_string b.
Proof.
  induction a as [|x a IH]; [done|].
  change (String x a +:+ b) with (String x (a +:+ b)). cbn. by rewrite IH.
Qed.

(** [line[:-1]] of a line that ends with an ASCII character. *)
Lemma str_init_snoc body c :
  is_continuation c = false -> str_init (body +:+ String c "") = body.
Proof.
  intros Hc. unfold str_init. rewrite list_ascii_app. cbn [list_ascii_of_string].
  rewrite rev_app_distr. cbn [rev List.rev app List.app drop_last_rev]. rewrite Hc.
  by rewrite rev_involutive, string_of_list_ascii_of_string.
Qed.

Lemma str_find_app_none a b :
  str_find colon (a +:+ b) = None -> str_find colon a = None.
Proof.
  induction a as [|x a IH]; [done|].
  change (String x a +:+ b) with (String x (a +:+ b)). cbn [str_find].
  destruct (Ascii.eqb x colon); [discriminate|].
  destruct (str_find colon (a +:+ b)); [discriminate|]. intros _. by rewrite IH.
Qed.

Lemma prefix_colon_nofind line :
  str_find colon line = None -> String.prefix ":" line = false.
Proof.
  destruct line as [|a line]; [done|]. cbn [str_find String.prefix].
  destruct (Ascii.eqb_spec a colon) as [->|Hne]; [discriminate|]. intros _.
  destruct (ascii_dec ":" a) as [Heq|_]; [by destruct Hne|done].
Qed.

End sse_edges.

(** X4: a line without a colon is not read as a key with an empty value:
    [find] gives [-1], the key is the line without its last character and
    the value the whole line; so the line [Kc] is handled as the line
    [K:Kc] is. *)
Theorem sse_line_without_colon `{Platform} index (e : event) body (c : ascii) :
  is_continuation c = false ->
  str_find colon (body +:+ String c "") = None ->
  decode_utf8 (body +:+ String c "") = Ok (body +:+ String c "") ->
  decode_utf8 (body +:+ ":" +:+ body +:+ String c "")
  = Ok (body +:+ ":" +:+ body +:+ String c "") ->
  split_field (body +:+ String c "") = (body, body +:+ String c "")
  /\ sse_line index e (body +:+ String c "")
     = sse_line index e (body +:+ ":" +:+ body +:+ String c "").
Proof.
  intros Hc Hfind Hdecode1 Hdecode2.
  assert (Hsplit : split_field (body +:+ String c "") = (body, body +:+ String c "")).
  { unfold split_field. by rewrite Hfind, (str_init_snoc _ _ Hc). }
  split; [done|].
  pose proof (str_find_app_none _ _ Hfind) as Hbody.
  unfold sse_line. rewrite Hdecode1, Hdecode2. cbn [mbind result_bind].
  rewrite (eqb_empty_false (body +:+ String c "")) by (by destruct body).
  rewrite (eqb_empty_false (body +:+ ":" +:+ body +:+ String c ""))
    by (by destruct body).
  rewrite (prefix_colon_nofind _ Hfind), Hsplit.
  destruct body as [|a body].
  - cbn [String.prefix]. change (String.eqb "" "data") with false.
    change (String.eqb "" "event" || String.eqb "" "id") with false.
    change (String.eqb "" "retry") with false.
    change (String.prefix ":" ("" +:+ ":" +:+ "" +:+ String c "")) with true.
    done.
  - rewrite (prefix_colon_false (String a body) _ ltac:(done) Hbody).
    by rewrite (split_field_colon _ _ Hbody).
Qed.

Lemma sse_line_without_colon_witness :
  @sse_line Reference.offline 0 ∅ "dataX" = Ok ({["data" := SStr "dataX"]}, None)
  /\ split_field "data" = ("dat", "data").
Proof.
  destruct (@sse_line_without_colon Reference.offline 0 ∅ "data" "X"%char)
    as [_ Hline]; [reflexivity..|].
  destruct (@sse_line_without_colon Reference.offline 0 ∅ "dat" "a"%char)
    as [Hsplit _]; [reflexivity..|].
  split; [|exact Hsplit].
  etrans; [exact Hline|]. vm_compute; reflexivity.
Defined.

(** X5: a line that is not valid UTF-8, or a retry line whose value [int]
    refuses, ends the parser with that exception: the events of the blank
    lines before it are yielded, the lines after it are not read. *)
Theorem sse_fails_fast `{Platform} (resp : response) pre line post evs :
  iter_lines resp = pre ++ line :: post ->
  _process_response_sse (with_lines resp pre) = (evs, None) ->
  line <> "" ->
  (utf8_wf (list_ascii_of_string line) = false ->
   _process_response_sse resp = (evs, Some UnicodeDecodeError))
  /\ (forall val err,
        line = "retry:" +:+ val ->
        decode_utf8 line = Ok line ->
        py_int val = Err err ->
        _process_response_sse resp = (evs, Some err)).
Proof.
  intros Hlines Hpre Hne. unfold _process_response_sse in *.
  cbn [with_lines iter_lines] in Hpre. rewrite Hlines.
  destruct (gen_loop_app _ _ _ _ _ Hpre) as (s & _ & Happ). rewrite Happ.
  split.
  - intros Hbad.
    rewrite (gen_loop_cons_raise _ _ _ UnicodeDecodeError).
    + cbn. by rewrite app_nil_r.
    + unfold sse_line, decode_utf8. by rewrite (eqb_empty_false _ Hne), Hbad.
  - intros val err -> Hdecode Hint.
    rewrite (gen_loop_cons_raise _ _ _ err).
    + cbn. by rewrite app_nil_r.
    + unfold sse_line. rewrite Hdecode.
      change (String.eqb ("retry:" +:+ val) "") with false.
      change (String.prefix ":" ("retry:" +:+ val)) with false.
      cbn [mbind result_bind].
      change (split_field ("retry:" +:+ val)) with (split_field ("retry" +:+ ":" +:+ val)).
      rewrite (split_field_colon "retry" val eq_refl).
      change (String.eqb "retry" "data") with false.
      change (String.eqb "retry" "event" || String.eqb "retry" "id") with false.
      change (String.eqb "retry" "retry") with true.
      by rewrite Hint.
Qed.

Lemma sse_fails_fast_witness :
  @_process_response_sse Reference.offline
    {| status_code := 200; text := "";
       iter_lines := ["data: a"; ""; "retry: soon"; "data: b"; ""] |}
  = ([{["data" := SStr " a"]}], Some ValueError).
Proof.
  destruct (@sse_fails_fast Reference.offline
              {| status_code := 200; text := "";
                 iter_lines := ["data: a"; ""; "retry: soon"; "data: b"; ""] |}
              ["data: a"; ""] "retry: soon" ["data: b"; ""]
              [{["data" := SStr " a"]}]) as [_ Hretry].
  - reflexivity.
  - vm_compute; reflexivity.
  - discriminate.
  - apply (Hretry " soon" ValueError); [reflexivity|reflexivity|].
    vm_compute; reflexivity.
Defined.

(** ** The streaming aggregator *)

Section stream_more.
Context `{Platform}.
Variables (model_ : string) (credentials : gmap string string)
          (prompt_messages_ : list PromptMessage).

(** The event after events handled without an exception. *)
Lemma handle_stream_after (pre : list event) (ev : event) post perr chunks st :
  _handle_stream_chat_response model_ credentials prompt_messages_ (pre, None)
  = (chunks, None) ->
  gen_state (stream_event model_ credentials prompt_messages_) 0 agg_init pre = Ok st ->
  (forall e,
      stream_event model_ credentials prompt_messages_ (List.length pre) st ev = Err e ->
      _handle_stream_chat_response model_ credentials prompt_messages_
        (pre ++ ev :: post, perr) = (chunks, Some e))
  /\ (forall st',
        stream_event model_ credentials prompt_messages_ (List.length pre) st ev
        = Ok (st', None) ->
        _handle_stream_chat_response model_ credentials prompt_messages_
          (pre ++ ev :: post, perr)
        = feed (chunks ++
                  (gen_loop (stream_event model_ credentials prompt_messages_)
                     (Datatypes.S (List.length pre)) st' post).1,
                (gen_loop (stream_event model_ credentials prompt_messages_)
                   (Datatypes.S (List.length pre)) st' post).2) perr).
Proof.
  intros Hpre Hst. apply handle_stream_clean in Hpre.
  destruct (gen_loop_app _ _ _ _ _ Hpre) as (st0 & Hst0 & Happ).
  rewrite Hst in Hst0. injection Hst0 as <-.
  unfold _handle_stream_chat_response. cbn [fst snd]. rewrite Happ. cbn [Nat.add].
  split.
  - intros e Hstep. rewrite (gen_loop_cons_raise _ _ _ _ _ _ Hstep).
    cbn [fst snd feed]. by rewrite app_nil_r.
  - intros st' Hstep. by rewrite (gen_loop_cons_skip _ _ _ _ _ _ Hstep).
Qed.

(** A clean run has a final state. *)
Lemma handle_stream_state (pre : list event) chunks :
  _handle_stream_chat_response model_ credentials prompt_messages_ (pre, None)
  = (chunks, None) ->
  exists st,
    gen_state (stream_event model_ credentials prompt_messages_) 0 agg_init pre = Ok st.
Proof.
  intros Hpre. apply handle_stream_clean in Hpre.
  destruct (gen_loop_app _ _ _ _ _ Hpre) as (st & Hst & _). by exists st.
Qed.

Lemma gen_loop_forall {S I O} (body : nat -> S -> I -> result (S * option O))
    (Q : O -> Prop) :
  (forall i s x s' o, body i s x = Ok (s', Some o) -> Q o) ->
  forall xs i s, Forall Q (gen_loop body i s xs).1.
Proof.
  intros Hbody. induction xs as [|x xs IH]; intros i s; [constructor|].
  destruct (body i s x) as [[s1 [o|]]|e] eqn:Hb.
  - rewrite (gen_loop_cons_yield _ _ _ _ _ _ _ Hb). cbn [fst].
    constructor; [by eapply Hbody|apply IH].
  - rewrite (gen_loop_cons_skip _ _ _ _ _ _ Hb). apply IH.
  - rewrite (gen_loop_cons_raise _ _ _ _ _ _ Hb). constructor.
Qed.

End stream_more.

(** X6: an event whose data end with [[DONE]] is skipped without being
    decoded, and so is an event whose decoded data have no choices: it
    yields no chunk, the tool-call state stays as it is, and the events
    after it are handled with the next index. *)
Theorem stream_skips_sentinel `{Platform} model_ credentials prompt_messages_
    (pre : list event) (ev : event) post perr chunks st data_str :
  _handle_stream_chat_response model_ credentials prompt_messages_ (pre, None)
  = (chunks, None) ->
  gen_state (stream_event model_ credentials prompt_messages_) 0 agg_init pre = Ok st ->
  ev !! "data" = Some (SStr data_str) ->
  str_endswith data_str "[DONE]" = true
  \/ (exists items,
        json_loads data_str = Ok (JObj items) /\
        truthy (default_or (assoc_get "choices" items) (JArr [])) = false) ->
  _handle_stream_chat_response model_ credentials prompt_messages_
    (pre ++ ev :: post, perr)
  = feed (chunks ++
            (gen_loop (stream_event model_ credentials prompt_messages_)
               (Datatypes.S (List.length pre)) st post).1,
          (gen_loop (stream_event model_ credentials prompt_messages_)
             (Datatypes.S (List.length pre)) st post).2) perr.
Proof.
  intros Hpre Hst Hdata Hskip.
  destruct (handle_stream_after _ _ _ pre ev post perr chunks st Hpre Hst) as [_ Hnone].
  apply Hnone. unfold stream_event, decode_event, event_data. rewrite Hdata.
  cbn [mbind result_bind].
  destruct (str_endswith data_str "[DONE]"); [done|].
  destruct Hskip as [Hdone|(items & Hloads & Hchoices)]; [discriminate|].
  rewrite Hloads. cbn [mbind result_bind py_get]. by rewrite Hchoices.
Qed.

Lemma stream_skips_sentinel_witness :
  @_handle_stream_chat_response Reference.offline "hunyuan" ∅ []
    ([example_fragment_1] ++ data_event " [DONE]" :: [example_fragment_2], None)
  = ([plain_chunk "hunyuan" [] 0 (CStr "hi"); plain_chunk "hunyuan" [] 2 (CStr "")],
     None).
Proof.
  etrans.
  - apply (@stream_skips_sentinel Reference.offline "hunyuan" ∅ []
             [example_fragment_1] (data_event " [DONE]") [example_fragment_2] None
             [plain_chunk "hunyuan" [] 0 (CStr "hi")]
             {| tool_call := Some (function_call "1" "get_" ""); tool_calls := [] |}
             " [DONE]").
    + vm_compute; reflexivity.
    + vm_compute; reflexivity.
    + reflexivity.
    + left. reflexivity.
  - vm_compute; reflexivity.
Defined.

(** X7: data that [json.loads] refuses end the stream with its exception:
    the chunks of the events before are all that is yielded. *)
Theorem stream_decode_failure `{Platform} model_ credentials prompt_messages_
    (pre : list event) (ev : event) post perr chunks data_str err :
  _handle_stream_chat_response model_ credentials prompt_messages_ (pre, None)
  = (chunks, None) ->
  ev !! "data" = Some (SStr data_str) ->
  str_endswith data_str "[DONE]" = false ->
  json_loads data_str = Err err ->
  _handle_stream_chat_response model_ credentials prompt_messages_
    (pre ++ ev :: post, perr)
  = (chunks, Some err).
Proof.
  intros Hpre Hdata Hdone Hloads.
  destruct (handle_stream_state _ _ _ _ _ Hpre) as [st Hst].
  destruct (handle_stream_after _ _ _ pre ev post perr chunks st Hpre Hst) as [Herr _].
  apply Herr. unfold stream_event, decode_event, event_data.
  by rewrite Hdata; cbn [mbind result_bind]; rewrite Hdone, Hloads.
Qed.

Lemma stream_decode_failure_witness :
  @_handle_stream_chat_response Reference.offline "hunyuan" ∅ []
    ([example_fragment_1] ++ data_event " {broken" :: [example_fragment_2], None)
  = ([plain_chunk "hunyuan" [] 0 (CStr "hi")], Some ValueError).
Proof.
  apply (@stream_decode_failure Reference.offline "hunyuan" ∅ []
           [example_fragment_1] (data_event " {broken") [example_fragment_2] None
           [plain_chunk "hunyuan" [] 0 (CStr "hi")] " {broken" ValueError).
  - vm_compute; reflexivity.
  - reflexivity.
  - reflexivity.
  - vm_compute; reflexivity.
Defined.

(** X8: a finish reason that has no length (the JSON [null], a number, a
    boolean) makes [len(finish_reason)] raise: the event yields no chunk
    and the stream ends with [TypeError], although the delta of the event
    is well formed. *)
Theorem stream_null_finish_reason `{Platform} model_ credentials prompt_messages_
    (pre : list event) (ev : event) post perr chunks st d st1 c :
  _handle_stream_chat_response model_ credentials prompt_messages_ (pre, None)
  = (chunks, None) ->
  gen_state (stream_event model_ credentials prompt_messages_) 0 agg_init pre = Ok st ->
  decode_event ev = Ok (Some d) ->
  merge_tool_calls st (d_response_tool_calls d) = Ok st1 ->
  content_field (d_message_content d) = Some c ->
  lengthless (d_finish_reason d) ->
  _handle_stream_chat_response model_ credentials prompt_messages_
    (pre ++ ev :: post, perr)
  = (chunks, Some TypeError).
Proof.
  intros Hpre Hst Hdecode Hmerge Hcontent Hfinish.
  destruct (handle_stream_after _ _ _ pre ev post perr chunks st Hpre Hst) as [Herr _].
  apply Herr. unfold stream_event. rewrite Hdecode. cbn [mbind result_bind].
  unfold emit_chunk, new_AssistantPromptMessage. rewrite Hmerge, Hcontent.
  cbn [validated mbind result_bind].
  destruct (d_finish_reason d); try done;
    by destruct (Nat.ltb 0 (List.length (tool_calls st1))).
Qed.

Lemma stream_null_finish_reason_witness :
  @_handle_stream_chat_response Reference.offline "hunyuan" ∅ []
    ([example_fragment_1]
       ++ data_event (quoted " {'choices':[{'delta':{'content':'a'},'finish_reason':null}]}")
       :: [], None)
  = ([plain_chunk "hunyuan" [] 0 (CStr "hi")], Some TypeError).
Proof.
  apply (@stream_null_finish_reason Reference.offline "hunyuan" ∅ []
           [example_fragment_1]
           (data_event (quoted " {'choices':[{'delta':{'content':'a'},'finish_reason':null}]}"))
           [] None [plain_chunk "hunyuan" [] 0 (CStr "hi")]
           {| tool_call := Some (function_call "1" "get_" ""); tool_calls := [] |}
           {| d_delta := JObj [("content", JStr "a")];
              d_message_content := JStr "a";
              d_finish_reason := JNull;
              d_prompt_tokens := JInt 0;
              d_completion_tokens := JInt 0;
              d_response_tool_calls := JNull |}
           {| tool_call := Some (function_call "1" "get_" ""); tool_calls := [] |}
           (CStr "a")).
  - vm_compute; reflexivity.
  - vm_compute; reflexivity.
  - vm_compute; reflexivity.
  - reflexivity.
  - reflexivity.
  - exact I.
Defined.

(** X9: a finish reason that is a text other than [tool_calls] ends the
    turn without tool calls: the chunk carries none, whatever was completed
    or open before, and the state is empty afterwards, so these calls are
    in no later chunk either. *)
Theorem stream_other_finish_drops_calls `{Platform} model_ credentials
    prompt_messages_ index_ st (ev : event) d s st' chunk :
  decode_event ev = Ok (Some d) ->
  d_finish_reason d = JStr s ->
  s <> "" ->
  s <> "tool_calls" ->
  stream_event model_ credentials prompt_messages_ index_ st ev
  = Ok (st', Some chunk) ->
  am_tool_calls (message (delta chunk)) = []
  /\ finish_reason (delta chunk) = Some s
  /\ st' = agg_init.
Proof.
  intros Hdecode Hfinish Hne Hother Hstep.
  destruct (stream_event_inv _ _ _ _ _ _ _ _ Hstep) as (d' & Hdecode' & Hemit).
  rewrite Hdecode in Hdecode'. injection Hdecode' as <-.
  destruct (emit_chunk_inv _ _ _ _ _ _ _ _ Hemit)
    as (st1 & c0 & n & _ & _ & Hlen & _ & _ & Hcalls & Hend).
  rewrite Hfinish in Hcalls, Hend, Hlen. cbn [py_eq_str] in Hcalls, Hend.
  apply String.eqb_neq in Hother. rewrite Hother in Hcalls, Hend.
  split; [done|].
  destruct (Nat.ltb 0 n) eqn:Hpos.
  - destruct Hend as (-> & _ & s' & Hfield & ->).
    rewrite str_field_str in Hfield. by injection Hfield as <-.
  - apply Nat.ltb_ge in Hpos. assert (n = 0) as -> by lia.
    destruct Hne. by eapply py_len_zero_str.
Qed.

Lemma stream_other_finish_drops_calls_witness :
  let ev := data_event (quoted " {'choices':[{'delta':{'content':'bye'},'finish_reason':'stop'}]}") in
  @stream_event Reference.offline "hunyuan" ∅ [] 3
    {| tool_call := None; tool_calls := [function_call "1" "get_weather" "{}"] |} ev
  = Ok (agg_init,
        Some (terminal_chunk "hunyuan" [] 3 (JStr "assistant") (CStr "") []
                {| Reference.prompt_tokens := JInt 0;
                   Reference.completion_tokens := JInt 0 |} "stop")).
Proof.
  intros ev.
  assert (Hstep :
    @stream_event Reference.offline "hunyuan" ∅ [] 3
      {| tool_call := None; tool_calls := [function_call "1" "get_weather" "{}"] |} ev
    = Ok (agg_init,
          Some (terminal_chunk "hunyuan" [] 3 (JStr "assistant") (CStr "") []
                  {| Reference.prompt_tokens := JInt 0;
                     Reference.completion_tokens := JInt 0 |} "stop")))
    by (vm_compute; reflexivity).
  destruct (@stream_other_finish_drops_calls Reference.offline "hunyuan" ∅ [] 3
              {| tool_call := None; tool_calls := [function_call "1" "get_weather" "{}"] |}
              ev
              {| d_delta := JObj [("content", JStr "bye")];
                 d_message_content := JStr "bye";
                 d_finish_reason := JStr "stop";
                 d_prompt_tokens := JInt 0;
                 d_completion_tokens := JInt 0;
                 d_response_tool_calls := JNull |}
              "stop" agg_init _ ltac:(vm_compute; reflexivity) eq_refl
              ltac:(discriminate) ltac:(discriminate) Hstep) as (_ & _ & _).
  exact Hstep.
Defined.

(** X10: tool calls reach the caller in one kind of chunk only: every chunk
    that carries tool calls has the finish reason [tool_calls]; a chunk
    without finish reason carries none. *)
Theorem stream_tool_calls_only_at_finish `{Platform} model_ credentials
    prompt_messages_ (evs : list event) (perr : option exn) :
  Forall (fun chunk =>
            am_tool_calls (message (delta chunk)) <> [] ->
            finish_reason (delta chunk) = Some "tool_calls")
    (_handle_stream_chat_response model_ credentials prompt_messages_ (evs, perr)).1.
Proof.
  rewrite handle_stream_fst. apply gen_loop_forall.
  intros i st ev st' chunk Hstep Hcalls.
  destruct (stream_event_inv _ _ _ _ _ _ _ _ Hstep) as (d & Hdecode & Hemit).
  destruct (emit_chunk_inv _ _ _ _ _ _ _ _ Hemit)
    as (st1 & c0 & n & _ & _ & Hlen & _ & _ & Htc & Hend).
  rewrite Htc in Hcalls.
  destruct (d_finish_reason d) as [| | | |s| | |] eqn:Hfinish; try done.
  cbn [py_eq_str] in Hcalls, Hend.
  destruct (String.eqb_spec s "tool_calls") as [->|Hne]; [|done].
  injection Hlen as <-.
  change (Nat.ltb 0 (List.length (str_chars "tool_calls"))) with true in Hend.
  destruct Hend as (_ & _ & s' & Hfield & ->).
  rewrite str_field_str in Hfield. by injection Hfield as <-.
Qed.

Section fragments_more.
Context `{Platform}.

Lemma feed_deltas_app st a b :
  feed_deltas st (a ++ b) = (st' ← feed_deltas st a; feed_deltas st' b).
Proof.
  revert st. induction a as [|x a IH]; intros st; [done|].
  cbn [app List.app feed_deltas].
  destruct (merge_tool_calls st x) as [st1|e]; cbn [mbind result_bind]; [apply IH|done].
Qed.

Lemma names_empty (pieces : list (string * string)) :
  Forall (fun p => p.1 = "") pieces -> names pieces = "".
Proof.
  induction 1 as [|p pieces Hp _ IH]; [done|].
  unfold names in *. cbn [fmap list_fmap foldr]. by rewrite Hp, IH.
Qed.

Lemma complete_nameless arguments : complete "" arguments = false.
Proof. done. Qed.

End fragments_more.

(** X11: a call is closed as soon as it has a name and arguments, so the
    fragments of the same id that come after that do not extend it: they
    open a call of their own.  When these later fragments have no name,
    as the pieces of streamed arguments have, their arguments stay in an
    open call without a name, and the completed call keeps only the
    arguments that had arrived when it was closed. *)
Theorem stream_call_closed_early `{Platform} model_ credentials prompt_messages_
    index_ (evs : list event) id (pre post : list (string * string)) closed :
  pre <> [] ->
  (forall k, 0 < k < List.length pre ->
     complete (names (take k pre)) (arguments_of (take k pre)) = false) ->
  complete (names pre) (arguments_of pre) = true ->
  post <> [] ->
  Forall (fun p => p.1 = "") post ->
  Forall2 carries evs (one_fragment id <$> (pre ++ post)) ->
  gen_state (stream_event model_ credentials prompt_messages_) index_
    {| tool_call := None; tool_calls := closed |} evs
  = Ok {| tool_call := Some (function_call id "" (arguments_of post));
          tool_calls :=
            closed ++ [function_call id (names pre) (arguments_of pre)] |}.
Proof.
  intros Hpre Hopen Hcomplete Hpost Hnames Hevs.
  rewrite (gen_state_carries _ _ _ _ _ Hevs), fmap_app, feed_deltas_app.
  destruct pre as [|p pre]; [done|]. destruct post as [|q post]; [done|].
  rewrite feed_fresh_call by (intros k Hk; apply Hopen; cbn [List.length]; lia).
  erewrite complete_tool_call_open by reflexivity.
  cbn [fn_name fn_arguments tc_function function_call]. rewrite Hcomplete.
  cbn [mbind result_bind tool_calls].
  rewrite feed_fresh_call.
  - erewrite complete_tool_call_open by reflexivity.
    cbn [fn_name fn_arguments tc_function function_call].
    by rewrite (names_empty _ Hnames), complete_nameless.
  - intros k Hk. rewrite names_empty; [done|].
    apply Forall_take. exact Hnames.
Qed.

Lemma stream_call_closed_early_witness :
  let piece (name arguments : string) : event :=
    data_event (quoted " {'choices':[{'delta':{'tool_calls':[{'id':'1','function':{'name':'"
                +:+ name +:+ quoted "','arguments':'" +:+ arguments
                +:+ quoted "'}}]}}]}") in
  gen_state (@stream_event Reference.offline "hunyuan" ∅ []) 0 agg_init
    [piece "get_weather" ""; piece "" "{"; piece "" "}"]
  = Ok {| tool_call := Some (function_call "1" "" "}");
          tool_calls := [function_call "1" "get_weather" "{"] |}.
Proof.
  intros piece.
  apply (@stream_call_closed_early Reference.offline "hunyuan" ∅ [] 0
           [piece "get_weather" ""; piece "" "{"; piece "" "}"] "1"
           [("get_weather", ""); ("", "{")] [("", "}")] []).
  - done.
  - intros k Hk. cbn [List.length] in Hk. assert (k = 1) as -> by lia. reflexivity.
  - reflexivity.
  - done.
  - repeat constructor.
  - constructor; [|constructor; [|constructor; [|constructor]]].
    + exists {| d_delta := JObj [("tool_calls", one_fragment "1" ("get_weather", ""))];
                d_message_content := JStr "";
                d_finish_reason := JStr "";
                d_prompt_tokens := JInt 0;
                d_completion_tokens := JInt 0;
                d_response_tool_calls := one_fragment "1" ("get_weather", "") |}, (CStr "").
      split; [vm_compute; reflexivity|]. by repeat split.
    + exists {| d_delta := JObj [("tool_calls", one_fragment "1" ("", "{"))];
                d_message_content := JStr "";
                d_finish_reason := JStr "";
                d_prompt_tokens := JInt 0;
                d_completion_tokens := JInt 0;
                d_response_tool_calls := one_fragment "1" ("", "{") |}, (CStr "").
      split; [vm_compute; reflexivity|]. by repeat split.
    + exists {| d_delta := JObj [("tool_calls", one_fragment "1" ("", "}"))];
                d_message_content := JStr "";
                d_finish_reason := JStr "";
                d_prompt_tokens := JInt 0;
                d_completion_tokens := JInt 0;
                d_response_tool_calls := one_fragment "1" ("", "}") |}, (CStr "").
      split; [vm_compute; reflexivity|]. by repeat split.
Defined.

(** X12: of the fragments of one delta only the first is merged; the
    others are extracted and dropped, yet a malformed one among them fails
    the event. *)
Theorem merge_uses_first_fragment `{Platform} st fr more id name arguments :
  is_fragment fr id name arguments ->
  (forall rest,
      mapR _extract_response_tool_call more = Ok rest ->
      merge_tool_calls st (JArr (fr :: more)) = merge_tool_calls st (JArr [fr]))
  /\ (forall err,
        mapR _extract_response_tool_call more = Err err ->
        merge_tool_calls st (JArr (fr :: more)) = Err err).
Proof.
  intros Hfr. split.
  - intros rest Hmore.
    rewrite (merge_fragments _ _ _ _ _ _ _ Hfr Hmore),
            (merge_fragments fr [] [] _ _ _ _ Hfr eq_refl).
    reflexivity.
  - intros err Hmore. unfold merge_tool_calls, _extract_response_tool_calls.
    cbn [truthy py_iter mbind result_bind mapR].
    by rewrite (extract_fragment _ _ _ _ Hfr), Hmore.
Qed.

Lemma merge_uses_first_fragment_witness :
  @merge_tool_calls Reference.offline agg_init
    (JArr [fragment_json "1" "get_weather" "{}"; fragment_json "2" "get_time" "{}"])
  = Ok {| tool_call := None; tool_calls := [function_call "1" "get_weather" "{}"] |}
  /\ @merge_tool_calls Reference.offline agg_init
       (JArr [fragment_json "1" "get_weather" "{}"; JStr "x"])
     = Err AttributeError.
Proof.
  destruct (@merge_uses_first_fragment Reference.offline agg_init
              (fragment_json "1" "get_weather" "{}")
              [fragment_json "2" "get_time" "{}"] "1" "get_weather" "{}"
              (fragment_json_is_fragment _ _ _)) as [Hfirst _].
  destruct (@merge_uses_first_fragment Reference.offline agg_init
              (fragment_json "1" "get_weather" "{}")
              [JStr "x"] "1" "get_weather" "{}"
              (fragment_json_is_fragment _ _ _)) as [_ Hbad].
  split.
  - etrans; [apply (Hfirst [function_call "2" "get_time" "{}"]); vm_compute; reflexivity|].
    vm_compute; reflexivity.
  - apply Hbad. vm_compute; reflexivity.
Defined.

(** ** The message mapper *)

Section mapper_more.
Context `{Platform}.

Lemma mapR_length {A B} (f : A -> result B) xs ys :
  mapR f xs = Ok ys -> List.length ys = List.length xs.
Proof.
  revert ys. induction xs as [|x xs IH]; intros ys; cbn [mapR].
  - by intros [= <-].
  - destruct (f x) as [y|e]; cbn [mbind result_bind]; [|discriminate].
    destruct (mapR f xs) as [ys'|e]; cbn [mbind result_bind]; [|discriminate].
    intros [= <-]. cbn. by rewrite (IH ys').
Qed.

Lemma mapR_ok {A B} (f : A -> result B) xs :
  Forall (fun x => exists y, f x = Ok y) xs <-> exists ys, mapR f xs = Ok ys.
Proof.
  induction xs as [|x xs IH]; cbn [mapR].
  - split; [by exists []|constructor].
  - split.
    + intros Hall. inversion Hall as [|? ? [y Hy] Hrest]; subst.
      apply IH in Hrest as [ys Hys]. exists (y :: ys). by rewrite Hy, Hys.
    + intros [ys Hys].
      destruct (f x) as [y|e] eqn:Hy; cbn [mbind result_bind] in Hys; [|discriminate].
      destruct (mapR f xs) as [ys'|e] eqn:Hrest; cbn [mbind result_bind] in Hys;
        [|discriminate].
      constructor; [by exists y|]. apply IH. by exists ys'.
Qed.

Lemma convertible_ok message_ :
  convertible message_ <-> exists d, convert_prompt_message message_ = Ok d.
Proof.
  destruct message_ as [m|role_ c id|role_ c|role_ c]; cbn [convertible].
  - split; [intros _|done]. unfold convert_prompt_message.
    destruct (_ && _); by eexists.
  - unfold convert_prompt_message. split.
    + intros [content_ Hdumps]. rewrite Hdumps. by eexists.
    + intros [d Hd].
      destruct (json_dumps false _) as [content_|e]; [by exists content_|discriminate].
  - destruct c; cbn [convert_prompt_message]; split; try done; try (intros _; by eexists).
    by intros [d Hd].
  - split; [intros _; by eexists|done].
Qed.

End mapper_more.

(** X13: the mapper succeeds exactly when every message is convertible: a
    user message without content fails it ([TypeError]), a tool message
    fails it when its result cannot be encoded; system and assistant
    messages never do.  On success there is one dict per message, in the
    order of the messages. *)
Theorem mapper_total_on_convertible `{Platform} (prompt_messages_ : list PromptMessage) :
  (Forall convertible prompt_messages_
   <-> exists dict_list, _convert_prompt_messages_to_dicts prompt_messages_ = Ok dict_list)
  /\ (forall dict_list,
        _convert_prompt_messages_to_dicts prompt_messages_ = Ok dict_list ->
        List.length dict_list = List.length prompt_messages_ /\
        forall i message_,
          prompt_messages_ !! i = Some message_ ->
          exists d, convert_prompt_message message_ = Ok d /\ dict_list !! i = Some d)
  /\ (forall pre role_ post,
        Forall convertible pre ->
        _convert_prompt_messages_to_dicts (pre ++ UserPromptMessage role_ CNone :: post)
        = Err TypeError).
Proof.
  split; [|split].
  - unfold _convert_prompt_messages_to_dicts. rewrite <- mapR_ok.
    split; intros Hall; (eapply Forall_impl; [exact Hall|]);
      intros m; apply convertible_ok.
  - intros dict_list Hmap. split; [by eapply mapR_length|].
    intros i message_ Hlook. by eapply mapR_lookup.
  - intros pre role_ post Hpre. unfold _convert_prompt_messages_to_dicts.
    induction Hpre as [|m pre Hm _ IH]; [done|].
    cbn [app List.app mapR]. apply convertible_ok in Hm as [d Hd].
    rewrite Hd. cbn [mbind result_bind]. by rewrite IH.
Qed.

Lemma mapper_total_on_convertible_witness :
  @_convert_prompt_messages_to_dicts Reference.offline
    ([SystemPromptMessage SYSTEM (CStr "be brief")]
       ++ UserPromptMessage USER CNone :: [UserPromptMessage USER (CStr "hi")])
  = Err TypeError.
Proof.
  destruct (@mapper_total_on_convertible Reference.offline []) as (_ & _ & Hnone).
  apply Hnone. repeat constructor.
Defined.

(** ** The invocation *)

(** X14: once the request is sent, the status [200] and no other decides:
    with it a streaming invocation returns the generator of the
    aggregator over the parser of the response; with any other status,
    the other 2xx statuses included, the invocation raises. *)
Theorem invoke_accepts_200_only `{Platform} model_ credentials prompt_messages_
    model_parameters tools stop user headers body (r : response) :
  build_request model_ credentials prompt_messages_ model_parameters tools stop true
  = Ok (headers, body) ->
  requests_post url headers body = Ok r ->
  (status_code r = 200%Z ->
   _invoke model_ credentials prompt_messages_ model_parameters tools stop true user
   = Ok (Streaming (_handle_stream_chat_response model_ credentials prompt_messages_
                      (_process_response_sse r))))
  /\ (status_code r <> 200%Z ->
      _invoke model_ credentials prompt_messages_ model_parameters tools stop true user
      = Err (Exception (failed_access_message r))).
Proof.
  intros Hrequest Hpost. unfold _invoke.
  rewrite Hrequest. cbn [mbind result_bind]. rewrite Hpost. cbn [mbind result_bind].
  unfold handle_response.
  split; intros Hstatus.
  - by rewrite Hstatus.
  - by destruct (Z.eqb_spec (status_code r) 200).
Qed.

Lemma invoke_accepts_200_only_witness :
  let r := {| status_code := 204; text := ""; iter_lines := example_lines |} in
  @_invoke (Reference.platform (Ok r)) "hunyuan" {["api_key" := "k"]}
    [UserPromptMessage USER (CStr "hi")] ∅ None None true None
  = Err (Exception "Failed to access LLM API, status code: 204, message: ").
Proof.
  intros r.
  destruct (@invoke_accepts_200_only (Reference.platform (Ok r)) "hunyuan"
              {["api_key" := "k"]} [UserPromptMessage USER (CStr "hi")] ∅ None None None
              [("Authorization", "Bearer k"); ("Content-Type", "application/json")]
              (quoted "{'Model': 'hunyuan', 'Messages': [{'Role': 'user', 'Content': 'hi'}], 'Stream': true, 'Stop': null, 'Temperature': 0.0, 'TopP': 1.0, 'EnableEnhancement': true}")
              r) as [_ Hother].
  - vm_compute; reflexivity.
  - reflexivity.
  - apply Hother. discriminate.
Defined.

(** X15: an invocation that does not stream never returns a result: with
    the status [200] it hands [response.json], the method and not its
    result, to [_handle_chat_response], which fails on the first attribute
    it reads. *)
Theorem invoke_without_stream_fails `{Platform} model_ credentials prompt_messages_
    model_parameters tools stop user :
  (forall res,
      _invoke model_ credentials prompt_messages_ model_parameters tools stop false user
      <> Ok res)
  /\ (forall headers body (r : response),
        build_request model_ credentials prompt_messages_ model_parameters tools stop false
        = Ok (headers, body) ->
        requests_post url headers body = Ok r ->
        status_code r = 200%Z ->
        _invoke model_ credentials prompt_messages_ model_parameters tools stop false user
        = Err AttributeError).
Proof.
  split.
  - intros res. unfold _invoke.
    destruct (build_request _ _ _ _ _ _ _) as [[headers body]|e];
      cbn [mbind result_bind]; [|done].
    destruct (requests_post url headers body) as [r|e]; cbn [mbind result_bind]; [|done].
    unfold handle_response. by destruct (negb _).
  - intros headers body r Hrequest Hpost Hstatus. unfold _invoke.
    rewrite Hrequest. cbn [mbind result_bind]. rewrite Hpost. cbn [mbind result_bind].
    unfold handle_response. by rewrite Hstatus.
Qed.

Lemma invoke_without_stream_fails_witness :
  let r := {| status_code := 200; text := "{}"; iter_lines := ["{}"] |} in
  @_invoke (Reference.platform (Ok r)) "hunyuan" {["api_key" := "k"]}
    [UserPromptMessage USER (CStr "hi")] ∅ None None false None
  = Err AttributeError.
Proof.
  intros r.
  destruct (@invoke_without_stream_fails (Reference.platform (Ok r)) "hunyuan"
              {["api_key" := "k"]} [UserPromptMessage USER (CStr "hi")] ∅ None None None)
    as [_ Hfails].
  apply (Hfails
           [("Authorization", "Bearer k"); ("Content-Type", "application/json")]
           (quoted "{'Model': 'hunyuan', 'Messages': [{'Role': 'user', 'Content': 'hi'}], 'Stream': false, 'Stop': null, 'Temperature': 0.0, 'TopP': 1.0, 'EnableEnhancement': true}")
           r).
  - vm_compute; reflexivity.
  - reflexivity.
  - reflexivity.
Defined.

(** X16: what fails before the request is sent: a message that the mapper
    cannot convert fails the invocation with the mapper's exception,
    whatever the credentials; with convertible messages and no tools,
    credentials without [api_key] fail it with [KeyError]. *)
Theorem invoke_fails_before_request `{Platform} model_ credentials prompt_messages_
    model_parameters tools stop stream user :
  (forall err,
      _convert_prompt_messages_to_dicts prompt_messages_ = Err err ->
      _invoke model_ credentials prompt_messages_ model_parameters tools stop stream user
      = Err err)
  /\ (Forall convertible prompt_messages_ ->
      tools = None \/ tools = Some [] ->
      credentials !! "api_key" = None ->
      _invoke model_ credentials prompt_messages_ model_parameters tools stop stream user
      = Err (KeyError "api_key")).
Proof.
  split.
  - intros err Hmap. unfold _invoke, build_request. by rewrite Hmap.
  - intros Hall Htools Hkey. unfold _invoke, build_request.
    assert (exists dict_list,
               _convert_prompt_messages_to_dicts prompt_messages_ = Ok dict_list)
      as [dict_list Hmap].
    { unfold _convert_prompt_messages_to_dicts. apply mapR_ok.
      eapply Forall_impl; [exact Hall|]. intros m. apply convertible_ok. }
    rewrite Hmap, Hkey. cbn [mbind result_bind].
    by destruct Htools as [-> | ->].
Qed.

Lemma invoke_fails_before_request_witness :
  @_invoke Reference.offline "hunyuan" ∅ [UserPromptMessage USER (CStr "hi")]
    ∅ None None true None
  = Err (KeyError "api_key").
Proof.
  destruct (@invoke_fails_before_request Reference.offline "hunyuan" ∅
              [UserPromptMessage USER (CStr "hi")] ∅ None None true None)
    as [_ Hkey].
  apply Hkey; [repeat constructor|by left|reflexivity].
Defined.

(** ** Validation of the credentials *)

(** X17: the credentials are valid exactly when they hold an API key, the
    probe request can be encoded, it is answered, and the status of the
    answer is [200]; the request goes to the chat URL with the key as
    bearer token. *)
Theorem credentials_valid_iff_200 `{Platform} `{ToolRuntime} model_ credentials :
  validate_credentials model_ credentials = Validated
  <-> exists api_key body response_,
        credentials !! "api_key" = Some api_key
        /\ json_dumps true (validate_params model_) = Ok body
        /\ requests_post url (validate_headers api_key) body = Ok response_
        /\ status_code response_ = 200%Z.
Proof.
  unfold validate_credentials, validate_request, validate_headers. split.
  - destruct (credentials !! "api_key") as [api_key|]; [|discriminate].
    cbn [mbind result_bind].
    destruct (json_dumps true _) as [body|e]; [|discriminate].
    cbn [mbind result_bind].
    destruct (requests_post _ _ _) as [response_|e] eqn:Hpost; [|discriminate].
    cbn [mbind result_bind].
    destruct (status_code response_ =? 200)%Z eqn:Hs; [|discriminate].
    intros _. exists api_key, body, response_. repeat split; try done.
    by apply Z.eqb_eq.
  - intros (api_key & body & response_ & -> & -> & Hpost & Hs).
    cbn [mbind result_bind]. rewrite Hpost. cbn [mbind result_bind].
    rewrite Hs. reflexivity.
Qed.

Lemma credentials_valid_iff_200_witness :
  @validate_credentials
    (Reference.platform (Ok {| status_code := 200; text := "ok"; iter_lines := [] |}))
    (example_runtime (Ok "{}"))
    "hunyuan-pro" {["api_key" := "k"]} = Validated.
Proof.
  apply credentials_valid_iff_200.
  eexists "k", _, _. repeat split; reflexivity.
Defined.

(** X18: an answer with another status is reported as
    [CredentialsValidateFailedError]; its message holds the status and the
    text of the answer after the two fixed prefixes. *)
Theorem credentials_rejection_reported `{Platform} `{ToolRuntime} model_ credentials
    api_key body response_ :
  credentials !! "api_key" = Some api_key ->
  json_dumps true (validate_params model_) = Ok body ->
  requests_post url (validate_headers api_key) body = Ok response_ ->
  status_code response_ <> 200%Z ->
  validate_credentials model_ credentials
  = CredentialsValidateFailedError
      ("Credentials validation failed: Failed to access LLM API, status code: "
       +:+ str_of_Z (status_code response_) +:+ ", message: " +:+ text response_).
Proof.
  intros Hkey Hbody Hpost Hs.
  unfold validate_credentials, validate_request, validate_headers in *.
  rewrite Hkey. cbn [mbind result_bind]. rewrite Hbody. cbn [mbind result_bind].
  rewrite Hpost. cbn [mbind result_bind].
  apply Z.eqb_neq in Hs. rewrite Hs. reflexivity.
Qed.

Lemma credentials_rejection_reported_witness :
  @validate_credentials
    (Reference.platform (Ok {| status_code := 401; text := "denied"; iter_lines := [] |}))
    (example_runtime (Ok "{}"))
    "hunyuan-pro" {["api_key" := "k"]}
  = CredentialsValidateFailedError
      "Credentials validation failed: Failed to access LLM API, status code: 401, message: denied".
Proof.
  eapply (@credentials_rejection_reported
            (Reference.platform (Ok {| status_code := 401; text := "denied"; iter_lines := [] |}))
            (example_runtime (Ok "{}"))
            "hunyuan-pro" {["api_key" := "k"]} "k" _
            {| status_code := 401; text := "denied"; iter_lines := [] |}).
  - reflexivity.
  - vm_compute; reflexivity.
  - reflexivity.
  - discriminate.
Defined.

(** ** The final chunk *)

Lemma json_null_dec (j : json) : {j = JNull} + {j <> JNull}.
Proof. destruct j; (by left) || (by right). Qed.

(** X19: [_create_final_llm_result_chunk] never counts tokens itself.
    Without a usage it raises: [IndexError] when there is no prompt
    message, [TypeError] otherwise.  When it returns a chunk for a usage
    that is a non-empty dict, the dict reports both token counts and the
    usage of the chunk is calculated from them. *)
Theorem final_chunk_requires_usage `{Platform} index_ message_ finish_reason_ usage_
    model_ prompt_messages_ credentials full_content :
  _create_final_llm_result_chunk index_ message_ finish_reason_ JNull
    model_ prompt_messages_ credentials full_content
  = Err (match prompt_messages_ with [] => IndexError | _ :: _ => TypeError end)
  /\ forall chunk,
       _create_final_llm_result_chunk index_ message_ finish_reason_ usage_
         model_ prompt_messages_ credentials full_content = Ok chunk ->
       usage_ <> JNull
       /\ forall items, usage_ = JObj items -> items <> [] ->
            exists p c u,
              assoc_get "prompt_tokens" items = Some p /\ p <> JNull
              /\ assoc_get "completion_tokens" items = Some c /\ c <> JNull
              /\ _calc_response_usage model_ credentials p c = Ok u
              /\ usage (delta chunk) = Some u.
Proof.
  split.
  - unfold _create_final_llm_result_chunk, usage_and_get. cbn [truthy mbind result_bind].
    by destruct prompt_messages_.
  - intros chunk Hc. split.
    + intros ->. revert Hc.
      unfold _create_final_llm_result_chunk, usage_and_get. cbn [truthy mbind result_bind].
      by destruct prompt_messages_.
    + intros items -> Hne. revert Hc.
      unfold _create_final_llm_result_chunk, usage_and_get.
      destruct items as [|it items]; [done|]. cbn [truthy py_get mbind result_bind].
      set (its := it :: items).
      destruct (assoc_get "prompt_tokens" its) as [p|] eqn:Hp; cbn [default_or];
        [|by destruct prompt_messages_].
      destruct (assoc_get "completion_tokens" its) as [c|] eqn:Hcm; cbn [default_or].
      * destruct (json_null_dec p) as [->|Hpn]; [by destruct prompt_messages_|].
        destruct (json_null_dec c) as [->|Hcn]; [by destruct p|].
        assert (Hpp : match p with
                      | JNull => get_num_tokens_of_text (first_content prompt_messages_)
                      | _ => Ok p end = Ok p) by (by destruct p).
        rewrite Hpp. cbn [mbind result_bind].
        assert (Hcc : match c with
                      | JNull => get_num_tokens_of_text (Ok full_content)
                      | _ => Ok c end = Ok c) by (by destruct c).
        rewrite Hcc. cbn [mbind result_bind].
        destruct (_calc_response_usage model_ credentials p c) as [u|e] eqn:Hu;
          [|discriminate]. cbn [mbind result_bind].
        destruct (validated _) as [fr|e]; [|discriminate]. cbn [mbind result_bind].
        intros [= <-]. exists p, c, u. cbn. repeat split; done.
      * destruct p; by destruct prompt_messages_.
Qed.

Lemma final_chunk_requires_usage_witness :
  exists chunk : LLMResultChunk Reference.usage_record,
    @_create_final_llm_result_chunk Reference.offline 3
      {| am_role := ASSISTANT; am_content := CStr "done"; am_tool_calls := [] |}
      (JStr "stop")
      (JObj [("prompt_tokens", JInt 7); ("completion_tokens", JInt 2)])
      "hunyuan-pro" [] ∅ "done" = Ok chunk
    /\ usage (delta chunk)
       = Some {| Reference.prompt_tokens := JInt 7; Reference.completion_tokens := JInt 2 |}.
Proof.
  eexists. split; [reflexivity|].
  destruct (proj2 (@final_chunk_requires_usage Reference.offline 3
           {| am_role := ASSISTANT; am_content := CStr "done"; am_tool_calls := [] |}
           (JStr "stop")
           (JObj [("prompt_tokens", JInt 7); ("completion_tokens", JInt 2)])
           "hunyuan-pro" [] ∅ "done") _ eq_refl) as [_ Hu].
  destruct (Hu _ eq_refl ltac:(discriminate))
    as (p & c & u & [= <-] & _ & [= <-] & _ & [= <-] & Hd).
  exact Hd.
Defined.

(** ** The cloud client *)

Lemma authorization_header_of `{SignerRuntime} self timestamp date host action payload :
  utc_date timestamp = Ok date ->
  get_authorization_header self timestamp host action payload
  = Ok (spec_header (algorithm self) (secret_id self) (secret_key self) (service self)
          timestamp date host action payload).
Proof.
  intros Hdate. unfold get_authorization_header. rewrite Hdate.
  cbn [mbind result_bind]. f_equal.
  unfold spec_header, spec_signature, spec_signing_key, spec_string_to_sign,
    spec_canonical_request, spec_canonical_headers, spec_credential_scope,
    spec_signed_headers, sha256_hexdigest, _sign.
  cbn [join_lines].
  rewrite !str_app_assoc. reflexivity.
Qed.

Lemma authorization_header_date `{SignerRuntime} self timestamp host action payload h :
  get_authorization_header self timestamp host action payload = Ok h ->
  exists date, utc_date timestamp = Ok date.
Proof.
  unfold get_authorization_header. destruct (utc_date timestamp) as [date|e]; [eauto|].
  discriminate.
Qed.

(** X20: a request that [send] builds passes the check of the server: its
    [Authorization] header is the header of the specification recomputed
    from the [Host], [X-TC-Action] and [X-TC-Timestamp] headers and the
    body that are sent, with the secret and the service of the client.
    The body is the encoded payload, the content type is the signed one,
    the timestamp is the clock's, and [x-qcloud-user-id] is sent exactly
    for a user id that is not empty. *)
Theorem send_request_verifies `{Platform} `{SignerRuntime} `{ToolRuntime}
    host service_ version secret_id_ secret_key_ region user_id action payload
    headers body :
  send_request (new_YunApiClient host service_ version secret_id_ secret_key_
                  region user_id) action payload = Ok (headers, body) ->
  json_dumps true payload = Ok body
  /\ (exists authorization,
        expected_authorization secret_id_ secret_key_ service_ headers body
        = Some authorization
        /\ assoc_get "Authorization" headers = Some (JStr authorization))
  /\ assoc_get "Content-Type" headers = Some (JStr "application/json; charset=utf-8")
  /\ assoc_get "X-TC-Timestamp" headers = Some (JInt time_time)
  /\ assoc_get "x-qcloud-user-id" headers
     = match user_id with
       | Some u => if String.eqb u "" then None else Some (JStr u)
       | None => None
       end.
Proof.
  unfold send_request.
  destruct (json_dumps true payload) as [text_|e] eqn:Hdumps; [|discriminate].
  cbn [mbind result_bind].
  destruct (get_authorization_header _ _ _ _ _) as [authorization|e] eqn:Hauth;
    [|discriminate].
  cbn [mbind result_bind].
  destruct (authorization_header_date _ _ _ _ _ _ Hauth) as [date Hdate].
  rewrite (authorization_header_of _ _ _ _ _ _ Hdate) in Hauth.
  injection Hauth as <-.
  intros [= <- <-]. split; [reflexivity|].
  cbn [new_YunApiClient c_host c_user_id c_version c_region signature_builder
       new_SignatureBuilder algorithm secret_id secret_key service].
  set (authorization := spec_header "TC3-HMAC-SHA256" secret_id_ secret_key_ service_
                          time_time date host action text_).
  assert (Hhead : forall extra hs,
             hs = [("Authorization", JStr authorization);
                   ("Content-Type", JStr "application/json; charset=utf-8");
                   ("Host", JStr host);
                   ("X-TC-Action", JStr action);
                   ("X-TC-Timestamp", JInt time_time);
                   ("X-TC-Version", JStr version);
                   ("X-TC-Region", region);
                   ("X-TC-Language", JStr "zh-CN")] ++ extra ->
             (exists a,
                 expected_authorization secret_id_ secret_key_ service_ hs text_ = Some a
                 /\ assoc_get "Authorization" hs = Some (JStr a))
             /\ assoc_get "Content-Type" hs
                = Some (JStr "application/json; charset=utf-8")
             /\ assoc_get "X-TC-Timestamp" hs = Some (JInt time_time)
             /\ assoc_get "x-qcloud-user-id" hs = assoc_get "x-qcloud-user-id" extra).
  { intros extra hs ->. unfold expected_authorization. cbn. rewrite Hdate.
    repeat split; eauto. }
  destruct user_id as [u|].
  - destruct (String.eqb u "") eqn:Hu; cbn [negb].
    + edestruct (Hhead []) as (Ha & Hc & Ht & Hu'); [by rewrite app_nil_r|]. auto.
    + edestruct (Hhead [("x-qcloud-user-id", JStr u)]) as (Ha & Hc & Ht & Hu');
        [reflexivity|]. auto.
  - edestruct (Hhead []) as (Ha & Hc & Ht & Hu'); [by rewrite app_nil_r|]. auto.
Qed.

Lemma send_request_verifies_witness :
  @json_dumps Reference.offline true example_payload = Ok example_sent.2
  /\ (exists authorization,
        @expected_authorization Crypto.runtime "AKIDEXAMPLE" "secretEXAMPLE" "cls"
          example_sent.1 example_sent.2 = Some authorization
        /\ assoc_get "Authorization" example_sent.1 = Some (JStr authorization))
  /\ assoc_get "Content-Type" example_sent.1
     = Some (JStr "application/json; charset=utf-8")
  /\ assoc_get "X-TC-Timestamp" example_sent.1 = Some (JInt 1704070000)
  /\ assoc_get "x-qcloud-user-id" example_sent.1 = Some (JStr "100001").
Proof.
  apply (@send_request_verifies Reference.offline Crypto.runtime
           (example_runtime (Ok "{}"))
           "cls.tencentcloudapi.com" "cls" "2020-10-16" "AKIDEXAMPLE" "secretEXAMPLE"
           (JStr "ap-guangzhou") (Some "100001") "SearchLog" example_payload
           example_sent.1 example_sent.2).
  vm_compute; reflexivity.
Defined.

(** ** The log search tool *)

Lemma present_text_default (v : option string) :
  String.eqb (default_or v "") "" = negb (present_text v).
Proof. destruct v as [s|]; cbn; [by rewrite negb_involutive|reflexivity]. Qed.

Lemma present_default (v : option json) :
  negb (truthy (default_or v (JStr ""))) = negb (present v).
Proof. by destruct v. Qed.

Lemma cls_request_missing `{ToolRuntime} credentials tool_parameters msg :
  first_missing credentials tool_parameters = Some msg ->
  cls_request credentials tool_parameters = RaisedValueError msg.
Proof.
  unfold first_missing, cls_request.
  rewrite !present_text_default, !present_default.
  cbn [List.find fst snd fmap option_fmap option_map].
  repeat match goal with
         | |- context [negb ?b] => destruct b; cbn [negb fmap option_fmap option_map snd]
         end; try (intros [= <-]; reflexivity).
Qed.

Lemma search_log_reply `{Platform} `{SignerRuntime} `{ToolRuntime} client payload top r :
  send client "SearchLog" payload = Ok (JObj top) ->
  assoc_get "Response" top = Some (JObj r) ->
  search_log client payload
  = match assoc_get "Error" r with
    | Some error =>
        result_text ← py_getitem error "Message"; Ok (TextMessage result_text)
    | None =>
        results ← py_getitem (JObj r) "Results";
        result_text ← json_dumps true results;
        Ok (TextMessage (JStr result_text))
    end.
Proof.
  intros Hsend Hr. unfold search_log. rewrite Hsend.
  cbn [mbind result_bind py_get py_getitem]. rewrite Hr.
  cbn [default_or mbind result_bind py_contains py_getitem].
  destruct (assoc_get "Error" r) as [error|] eqn:He.
  - rewrite bool_decide_true by eauto. cbn [mbind result_bind]. reflexivity.
  - rewrite bool_decide_false by (intros [? ?]; discriminate). reflexivity.
Qed.

(** X21: the seven inputs are checked in a fixed order, and the first one
    that is missing or empty decides: the tool raises [ValueError] with
    the message of that input, whatever the clock, the time parser and the
    server are; nothing is converted and nothing is sent. *)
Theorem cls_missing_parameter `{Platform} `{SignerRuntime} `{ToolRuntime}
    credentials user_id tool_parameters msg :
  first_missing credentials tool_parameters = Some msg ->
  cls_invoke credentials user_id tool_parameters = RaisedValueError msg.
Proof.
  intros Hm. unfold cls_invoke. by rewrite (cls_request_missing _ _ _ Hm).
Qed.

Lemma cls_missing_parameter_witness :
  @cls_invoke Reference.offline Crypto.runtime
    (example_runtime (Err (ExternalError "unreachable")))
    example_credentials "user"
    {["topicid" := JStr "topic-1"; "region" := JStr ""; "query" := JStr ""]}
  = RaisedValueError "Please input query".
Proof.
  apply (@cls_missing_parameter Reference.offline Crypto.runtime
           (example_runtime (Err (ExternalError "unreachable")))).
  vm_compute; reflexivity.
Defined.

(** X22: with the seven inputs present, the two times are converted
    before anything is sent, [from] first.  When both convert, the client
    is that of the CLS service at [cls.tencentcloudapi.com], version
    [2020-10-16], for the region and without a user id, and the payload
    holds the topic, the two converted times, the query, ascending order
    and a limit of 150.  When one does not, the exception of the
    conversion leaves the tool as it is, not as the [ValueError] of the
    tool. *)
Theorem cls_times_converted_first `{Platform} `{SignerRuntime} `{ToolRuntime}
    credentials user_id tool_parameters id key topicid query region from_ to :
  first_missing credentials tool_parameters = None ->
  credentials !! "secret_id" = Some id ->
  credentials !! "secret_key" = Some key ->
  tool_parameters !! "topicid" = Some topicid ->
  tool_parameters !! "query" = Some query ->
  tool_parameters !! "region" = Some region ->
  tool_parameters !! "from" = Some from_ ->
  tool_parameters !! "to" = Some to ->
  match rfc3339_to_unix_timestamp from_, rfc3339_to_unix_timestamp to with
  | Ok from_unix, Ok to_unix =>
      cls_request credentials tool_parameters
      = Returned
          (new_YunApiClient "cls.tencentcloudapi.com" "cls" "2020-10-16"
             id key region None,
           JObj [("TopicId", topicid);
                 ("From", JInt from_unix);
                 ("To", JInt to_unix);
                 ("Query", query);
                 ("Sort", JStr "asc");
                 ("Limit", JInt 150)])
  | Err e, _ | Ok _, Err e =>
      cls_invoke credentials user_id tool_parameters = Raised e
  end.
Proof.
  intros Hm Hid Hkey Htopic Hquery Hregion Hfrom Hto. unfold cls_invoke, cls_request.
  revert Hm. unfold first_missing.
  rewrite !present_text_default, !present_default.
  rewrite Hid, Hkey, Htopic, Hquery, Hregion, Hfrom, Hto.
  cbn [List.find fst snd fmap option_fmap option_map default_or].
  repeat match goal with
         | |- context [negb ?b] =>
             destruct b; cbn [negb fmap option_fmap option_map snd]; [|discriminate]
         end.
  intros _.
  destruct (rfc3339_to_unix_timestamp from_); [|reflexivity].
  destruct (rfc3339_to_unix_timestamp to); reflexivity.
Qed.

Lemma cls_times_converted_first_witness :
  @cls_invoke Reference.offline Crypto.runtime (example_runtime (Ok "{}"))
    example_credentials "user" (<["to" := JStr "tomorrow"]> example_parameters)
  = Raised ValueError.
Proof.
  exact (@cls_times_converted_first Reference.offline Crypto.runtime
           (example_runtime (Ok "{}"))
           example_credentials "user" (<["to" := JStr "tomorrow"]> example_parameters)
           "AKIDEXAMPLE" "secretEXAMPLE" (JStr "topic-1") (JStr "*")
           (JStr "ap-guangzhou") (JStr "2024-01-01T00:00:00Z") (JStr "tomorrow")
           eq_refl eq_refl eq_refl eq_refl eq_refl eq_refl eq_refl eq_refl).
Defined.

(** X23: an error that the service reports in the envelope of its reply
    is not raised: the tool returns a text message that holds the message
    of the error. *)
Theorem cls_error_envelope_returned `{Platform} `{SignerRuntime} `{ToolRuntime}
    credentials user_id tool_parameters client payload top r error msg :
  cls_request credentials tool_parameters = Returned (client, payload) ->
  send client "SearchLog" payload = Ok (JObj top) ->
  assoc_get "Response" top = Some (JObj r) ->
  assoc_get "Error" r = Some (JObj error) ->
  assoc_get "Message" error = Some (JStr msg) ->
  cls_invoke credentials user_id tool_parameters = Returned (TextMessage (JStr msg)).
Proof.
  intros Hreq Hsend Hr He Hm. unfold cls_invoke. rewrite Hreq.
  rewrite (search_log_reply _ _ _ _ Hsend Hr), He.
  cbn [py_getitem]. rewrite Hm. reflexivity.
Qed.

Lemma cls_error_envelope_returned_witness :
  @cls_invoke Reference.offline Crypto.runtime (example_runtime (Ok example_error_reply))
    example_credentials "user" example_parameters
  = Returned (TextMessage (JStr "bad key")).
Proof.
  apply (@cls_error_envelope_returned Reference.offline Crypto.runtime
           (example_runtime (Ok example_error_reply))
           example_credentials "user" example_parameters
           example_client example_payload
           [("Response",
             JObj [("Error",
                    JObj [("Code", JStr "AuthFailure"); ("Message", JStr "bad key")]);
                   ("RequestId", JStr "r1")])]
           [("Error", JObj [("Code", JStr "AuthFailure"); ("Message", JStr "bad key")]);
            ("RequestId", JStr "r1")]
           [("Code", JStr "AuthFailure"); ("Message", JStr "bad key")]
           "bad key"); vm_compute; reflexivity.
Defined.

(** X24: a reply without an error gives a text message that holds the
    encoded [Results] of the reply. *)
Theorem cls_results_serialised `{Platform} `{SignerRuntime} `{ToolRuntime}
    credentials user_id tool_parameters client payload top r results result_text :
  cls_request credentials tool_parameters = Returned (client, payload) ->
  send client "SearchLog" payload = Ok (JObj top) ->
  assoc_get "Response" top = Some (JObj r) ->
  assoc_get "Error" r = None ->
  assoc_get "Results" r = Some results ->
  json_dumps true results = Ok result_text ->
  cls_invoke credentials user_id tool_parameters
  = Returned (TextMessage (JStr result_text)).
Proof.
  intros Hreq Hsend Hr He Hres Hd. unfold cls_invoke. rewrite Hreq.
  rewrite (search_log_reply _ _ _ _ Hsend Hr), He.
  cbn [py_getitem]. rewrite Hres. cbn [mbind result_bind]. rewrite Hd. reflexivity.
Qed.

Lemma cls_results_serialised_witness :
  @cls_invoke Reference.offline Crypto.runtime (example_runtime (Ok example_results_reply))
    example_credentials "user" example_parameters
  = Returned (TextMessage (JStr (quoted "[{'Time': 1}]"))).
Proof.
  apply (@cls_results_serialised Reference.offline Crypto.runtime
           (example_runtime (Ok example_results_reply))
           example_credentials "user" example_parameters
           example_client example_payload
           [("Response",
             JObj [("Results", JArr [JObj [("Time", JInt 1)]]); ("RequestId", JStr "r1")])]
           [("Results", JArr [JObj [("Time", JInt 1)]]); ("RequestId", JStr "r1")]
           (JArr [JObj [("Time", JInt 1)]])); vm_compute; reflexivity.
Defined.

(** X25: whatever fails once the request is built leaves the tool as a
    [ValueError] whose message starts with [invoke tencent cls failed: ]
    and ends with the text of the exception: a failure of [send], a reply
    without [Response] (a [TypeError]), and a reply with neither [Error]
    nor [Results] (a [KeyError]). *)
Theorem cls_exchange_failure_wrapped `{Platform} `{SignerRuntime} `{ToolRuntime}
    credentials user_id tool_parameters client payload :
  cls_request credentials tool_parameters = Returned (client, payload) ->
  (forall e, send client "SearchLog" payload = Err e ->
     cls_invoke credentials user_id tool_parameters
     = RaisedValueError ("invoke tencent cls failed: " +:+ str_exn e))
  /\ (forall top, send client "SearchLog" payload = Ok (JObj top) ->
        assoc_get "Response" top = None ->
        cls_invoke credentials user_id tool_parameters
        = RaisedValueError ("invoke tencent cls failed: " +:+ exception_text TypeError))
  /\ (forall top r, send client "SearchLog" payload = Ok (JObj top) ->
        assoc_get "Response" top = Some (JObj r) ->
        assoc_get "Error" r = None ->
        assoc_get "Results" r = None ->
        cls_invoke credentials user_id tool_parameters
        = RaisedValueError
            ("invoke tencent cls failed: " +:+ exception_text (KeyError "Results"))).
Proof.
  intros Hreq. unfold cls_invoke. rewrite Hreq. repeat split.
  - intros e Hsend. unfold search_log. rewrite Hsend. reflexivity.
  - intros top Hsend Hr. unfold search_log. rewrite Hsend.
    cbn [mbind result_bind py_get]. rewrite Hr. reflexivity.
  - intros top r Hsend Hr He Hres.
    rewrite (search_log_reply _ _ _ _ Hsend Hr), He.
    cbn [py_getitem]. rewrite Hres. reflexivity.
Qed.

Lemma cls_exchange_failure_wrapped_witness :
  @cls_invoke Reference.offline Crypto.runtime
    (example_runtime (Err (ExternalError "ConnectionRefusedError")))
    example_credentials "user" example_parameters
  = RaisedValueError "invoke tencent cls failed: ConnectionRefusedError".
Proof.
  apply (proj1 (@cls_exchange_failure_wrapped Reference.offline Crypto.runtime
           (example_runtime (Err (ExternalError "ConnectionRefusedError")))
           example_credentials "user" example_parameters example_client example_payload
           ltac:(vm_compute; reflexivity))
           (ExternalError "ConnectionRefusedError")).
  vm_compute; reflexivity.
Defined.
